(** * Resilient embedding initialisation of open-webui's retrieval package

    A shallow embedding of three Python modules,

    - [backend/open_webui/retrieval/fallback_embeddings.py]
    - [backend/open_webui/retrieval/st_patch.py]
    - [backend/open_webui/retrieval/initialize.py]

    Python objects become records and inductive types, [sys.modules] a
    finite map, raised exceptions the [Raise] outcome of a result type, and
    the mutable process (application state, module registry, emitted log
    records, everything outside the interpreter) an explicit state threaded
    through a state-and-exception monad.  UTF-8 and SHA-256 are executable
    definitions.  What the three modules call but do not define is a
    parameter of the development: numpy's generator and arithmetic, the
    import system's finders and loaders, pip, the HTTP exchange, and the
    application's [get_ef] and [get_embedding_function]. *)

From Stdlib Require Import ZArith List String Ascii Bool Lia.
From Stdlib Require SpecFloat.
From stdpp Require Import base option gmap strings.

Import ListNotations.
Local Open Scope string_scope.
Local Open Scope Z_scope.

(** ** Exceptions and outcomes *)

(** A raised exception.  Only instances of [Exception] are modelled: the
    handlers of the three modules are [except Exception] and
    [except ImportError]; [KeyboardInterrupt] and [SystemExit] are outside
    the model.  [exc_class] is the class name, [exc_msg] what [str(e)]
    prints. *)
Inductive exn : Type :=
| PyExc (exc_class : string) (exc_msg : string)
| HTTPException (status_code : Z) (detail : string).

Definition HTTP_500_INTERNAL_SERVER_ERROR : Z := 500.

(** [isinstance(e, ImportError)]: [ModuleNotFoundError] is its one builtin
    subclass. *)
Definition is_ImportError (e : exn) : bool :=
  match e with
  | PyExc c _ => (c =? "ImportError")%string || (c =? "ModuleNotFoundError")%string
  | HTTPException _ _ => false
  end.

(** [str(e)], as the f-strings of the log messages print it. *)
Definition str_exn (e : exn) : string :=
  match e with
  | PyExc _ m => m
  | HTTPException _ d => d
  end.

Inductive result (A : Type) : Type :=
| Ok (a : A)
| Raise (e : exn).
Arguments Ok {A} a.
Arguments Raise {A} e.

Definition bindR {A B} (r : result A) (k : A -> result B) : result B :=
  match r with
  | Ok a => k a
  | Raise e => Raise e
  end.

Notation "'let+' x ':=' r 'in' k" := (bindR r (fun x => k))
  (at level 10, x name, r at level 100, k at level 200).

(** A list comprehension whose body may raise: the first exception ends it. *)
Fixpoint mapR {A B} (f : A -> result B) (l : list A) : result (list B) :=
  match l with
  | [] => Ok []
  | x :: xs => let+ y := f x in let+ ys := mapR f xs in Ok (y :: ys)
  end.

(** ** Python strings and their UTF-8 encoding *)

(** A [str] is a sequence of code points.  Python admits lone surrogates
    (U+D800..U+DFFF) in a [str]; they are what [str.encode('utf-8')]
    rejects. *)
Definition pystr : Type := list Z.

Definition is_surrogate (c : Z) : bool := (0xD800 <=? c) && (c <=? 0xDFFF).

Definition is_scalar_value (c : Z) : bool :=
  (0 <=? c) && (c <=? 0x10FFFF) && negb (is_surrogate c).

(** Text that [encode('utf-8')] accepts. *)
Definition well_formed (t : pystr) : Prop :=
  Forall (fun c => is_scalar_value c = true) t.

Definition UnicodeEncodeError : exn :=
  PyExc "UnicodeEncodeError" "'utf-8' codec can't encode character: surrogates not allowed".

Definition utf8_char (c : Z) : result (list Z) :=
  if negb (is_scalar_value c) then Raise UnicodeEncodeError
  else if c <? 0x80 then Ok [c]
  else if c <? 0x800 then
    Ok [Z.lor 0xC0 (Z.shiftr c 6); Z.lor 0x80 (Z.land c 0x3F)]
  else if c <? 0x10000 then
    Ok [Z.lor 0xE0 (Z.shiftr c 12);
        Z.lor 0x80 (Z.land (Z.shiftr c 6) 0x3F);
        Z.lor 0x80 (Z.land c 0x3F)]
  else
    Ok [Z.lor 0xF0 (Z.shiftr c 18);
        Z.lor 0x80 (Z.land (Z.shiftr c 12) 0x3F);
        Z.lor 0x80 (Z.land (Z.shiftr c 6) 0x3F);
        Z.lor 0x80 (Z.land c 0x3F)].

(** [text.encode('utf-8')] *)
Definition encode_utf8 (t : pystr) : result (list Z) :=
  let+ bs := mapR utf8_char t in Ok (concat bs).

(** The code points of an ASCII literal. *)
Fixpoint ascii_text (s : string) : pystr :=
  match s with
  | EmptyString => []
  | String a r => Z.of_N (N_of_ascii a) :: ascii_text r
  end.

(** ** hashlib.sha256 (FIPS 180-4), on bytes held as integers 0..255 *)

Module SHA256.

Definition add32 (x y : Z) : Z := (x + y) mod 2 ^ 32.

Definition rotr (n x : Z) : Z :=
  Z.lor (Z.shiftr x n) (Z.land (Z.shiftl x (32 - n)) 0xFFFFFFFF).

Definition Ch (x y z : Z) : Z :=
  Z.lxor (Z.land x y) (Z.land (Z.lxor x 0xFFFFFFFF) z).

Definition Maj (x y z : Z) : Z :=
  Z.lxor (Z.lxor (Z.land x y) (Z.land x z)) (Z.land y z).

Definition Sigma0 (x : Z) : Z := Z.lxor (Z.lxor (rotr 2 x) (rotr 13 x)) (rotr 22 x).
Definition Sigma1 (x : Z) : Z := Z.lxor (Z.lxor (rotr 6 x) (rotr 11 x)) (rotr 25 x).
Definition sigma0 (x : Z) : Z := Z.lxor (Z.lxor (rotr 7 x) (rotr 18 x)) (Z.shiftr x 3).
Definition sigma1 (x : Z) : Z := Z.lxor (Z.lxor (rotr 17 x) (rotr 19 x)) (Z.shiftr x 10).

(** The primes up to [n], by trial division. *)
Definition is_prime (n : Z) : bool :=
  (2 <=? n) && forallb (fun d => negb (n mod Z.of_nat d =? 0)) (seq 2 (Z.to_nat n - 2)).

Definition primes_upto (n : nat) : list Z :=
  List.filter is_prime (map Z.of_nat (seq 2 (n - 1))).

(** The integer cube root of [x], one bit at a time from bit [n - 1] down. *)
Fixpoint cube_root (n : nat) (x acc : Z) : Z :=
  match n with
  | O => acc
  | S k =>
      let next := acc + 2 ^ Z.of_nat k in
      cube_root k x (if next * next * next <=? x then next else acc)
  end.

(** The first 32 bits of the fractional part of a root: of the cube roots
    of the first 64 primes for the round constants, of the square roots
    of the first 8 for the initial hash value. *)
Definition K : list Z :=
  map (fun p => cube_root 36 (p * 2 ^ 96) 0 mod 2 ^ 32) (primes_upto 311).

Definition root_bits (p : Z) : Z := Z.sqrt (p * 2 ^ 64) mod 2 ^ 32.

(** The eight working variables a..h, also the chaining value. *)
Record state : Type := State { va : Z; vb : Z; vc : Z; vd : Z; ve : Z; vf : Z; vg : Z; vh : Z }.

Definition H0 : state :=
  State (root_bits 2) (root_bits 3) (root_bits 5) (root_bits 7)
        (root_bits 11) (root_bits 13) (root_bits 17) (root_bits 19).

(** Big-endian words of a block. *)
Fixpoint words (bs : list Z) : list Z :=
  match bs with
  | b0 :: b1 :: b2 :: b3 :: r => (((b0 * 256 + b1) * 256 + b2) * 256 + b3) :: words r
  | _ => []
  end.

(** The message schedule, most recent word first: [n] more words after
    those of [rev_w]. *)
Fixpoint schedule (n : nat) (rev_w : list Z) : list Z :=
  match n with
  | O => rev rev_w
  | S k =>
      let w := add32 (add32 (sigma1 (nth 1 rev_w 0)) (nth 6 rev_w 0))
                     (add32 (sigma0 (nth 14 rev_w 0)) (nth 15 rev_w 0)) in
      schedule k (w :: rev_w)
  end.

Definition round (s : state) (kw : Z * Z) : state :=
  let t1 := add32 (add32 (add32 (vh s) (Sigma1 (ve s))) (Ch (ve s) (vf s) (vg s)))
                  (add32 (fst kw) (snd kw)) in
  let t2 := add32 (Sigma0 (va s)) (Maj (va s) (vb s) (vc s)) in
  State (add32 t1 t2) (va s) (vb s) (vc s) (add32 (vd s) t1) (ve s) (vf s) (vg s).

Definition compress (h : state) (block : list Z) : state :=
  let w := schedule 48 (rev (words block)) in
  let s := fold_left round (combine K w) h in
  State (add32 (va h) (va s)) (add32 (vb h) (vb s)) (add32 (vc h) (vc s))
        (add32 (vd h) (vd s)) (add32 (ve h) (ve s)) (add32 (vf h) (vf s))
        (add32 (vg h) (vg s)) (add32 (vh h) (vh s)).

Definition be_bytes (n : nat) (x : Z) : list Z :=
  map (fun i => (x / 2 ^ (8 * Z.of_nat i)) mod 256) (rev (seq 0 n)).

(** The message, a 1 bit, zeros up to 56 mod 64, the bit length on 64 bits. *)
Definition pad (msg : list Z) : list Z :=
  let len := length msg in
  let zeros := ((64 - (len + 9) mod 64) mod 64)%nat in
  msg ++ [0x80] ++ repeat 0 zeros ++ be_bytes 8 (8 * Z.of_nat len).

Fixpoint blocks (fuel : nat) (bs : list Z) : list (list Z) :=
  match fuel, bs with
  | S k, _ :: _ => firstn 64 bs :: blocks k (skipn 64 bs)
  | _, _ => []
  end.

Definition digest_of (s : state) : list Z :=
  flat_map (be_bytes 4) [va s; vb s; vc s; vd s; ve s; vf s; vg s; vh s].

(** [hashlib.sha256(msg).digest()] *)
Definition sha256 (msg : list Z) : list Z :=
  let p := pad msg in
  digest_of (fold_left compress (blocks (length p) p) H0).

End SHA256.

(** [.hexdigest()]: two lowercase hexadecimal digits per byte. *)
Definition hex_digit (n : Z) : ascii :=
  nth (Z.to_nat n) (list_ascii_of_string "0123456789abcdef") "0"%char.

Definition hexdigest (bs : list Z) : string :=
  string_of_list_ascii (flat_map (fun b => [hex_digit (b / 16); hex_digit (b mod 16)]) bs).

Definition hex_value (a : ascii) : option Z :=
  let n := Z.of_N (N_of_ascii a) in
  if (48 <=? n) && (n <=? 57) then Some (n - 48)
  else if (97 <=? n) && (n <=? 102) then Some (n - 87)
  else if (65 <=? n) && (n <=? 70) then Some (n - 55)
  else None.

Fixpoint int16_from (acc : Z) (s : string) : option Z :=
  match s with
  | EmptyString => Some acc
  | String a r =>
      match hex_value a with
      | Some d => int16_from (acc * 16 + d) r
      | None => None
      end
  end.

(** [int(s, 16)] on a string of hexadecimal digits; any other string is a
    [ValueError] here (Python also reads a sign, a [0x] prefix, blanks and
    underscores, none of which a hex digest holds). *)
Definition int_base16 (s : string) : result Z :=
  match s with
  | EmptyString => Raise (PyExc "ValueError" "invalid literal for int() with base 16")
  | _ =>
      match int16_from 0 s with
      | Some n => Ok n
      | None => Raise (PyExc "ValueError" "invalid literal for int() with base 16")
      end
  end.

(** ** numpy, as [_hash_to_vector] uses it *)

(** The operations are parameters: the generator behind [RandomState] and
    the summation order of [np.linalg.norm] are numpy's own.  An [ndarray]
    of one dimension is the list of its items.  [rand g n] is [n] samples,
    uniform over [0, 1) by numpy's contract; nothing below depends on how
    they are distributed.  [truediv] may raise because numpy's
    floating-point error mode can be set to raise on a division by zero
    ([np.seterr]); under the default mode it never does. *)
Class NumPy : Type := {
  float64 : Type;
  float32 : Type;
  RandomState : Type;
  RandomState_new : Z -> result RandomState;
  rand : RandomState -> nat -> list float64 * RandomState;
  astype_float32 : float64 -> float32;
  linalg_norm : list float32 -> float32;
  is_zero : float32 -> bool;
  gt_zero : float32 -> bool;
  truediv : float32 -> float32 -> result float32;
  item : float32 -> float64
}.

(** What the development assumes of numpy. *)
Class NumPyLaws (np : NumPy) : Prop := {
  (** [RandomState(seed)] accepts every seed of 32 bits. *)
  RandomState_new_range :
    forall seed, 0 <= seed < 2 ^ 32 -> exists g, RandomState_new seed = Ok g;
  (** [rand(n)] has shape [(n,)]. *)
  rand_length : forall g n, length (fst (rand g n)) = n;
  (** A division by a strictly positive number does not raise. *)
  truediv_defined :
    forall x d, gt_zero d = true -> exists q, truediv x d = Ok q;
  (** Zero is not strictly positive. *)
  zero_not_positive : forall d, is_zero d = true -> gt_zero d = false
}.

(** ** fallback_embeddings.py: FallbackEmbeddingModel *)

Section HashEmbedder.
Context {np : NumPy}.

Record FallbackEmbeddingModel : Type := {
  model_name : string;
  embedding_size : nat
}.

(** The attributes [__init__] sets (its log record is emitted by
    [FallbackEmbeddingModel_init] below). *)
Definition FallbackEmbeddingModel_new (name : string) : FallbackEmbeddingModel :=
  {| model_name := name; embedding_size := 384 |}.

(** [int(hashlib.sha256(text.encode('utf-8')).hexdigest(), 16) % 10**8] *)
Definition text_hash (text : pystr) : result Z :=
  let+ bytes := encode_utf8 text in
  let+ n := int_base16 (hexdigest (SHA256.sha256 bytes)) in
  Ok (n mod 10 ^ 8).

Definition _hash_to_vector (self : FallbackEmbeddingModel) (text : pystr)
  : result (list float64) :=
  let+ seed := text_hash text in
  let+ rng := RandomState_new seed in
  let vector := map astype_float32 (fst (rand rng (embedding_size self))) in
  let norm := linalg_norm vector in
  let+ vector :=
    (if gt_zero norm then mapR (fun x => truediv x norm) vector else Ok vector) in
  Ok (map item vector).

(** [texts: Union[str, List[str]]] *)
Inductive texts : Type :=
| Text (t : pystr)
| Texts (ts : list pystr).

Inductive embeddings : Type :=
| Vector (v : list float64)
| Vectors (vs : list (list float64)).

Definition encode (self : FallbackEmbeddingModel) (input : texts) : result embeddings :=
  match input with
  | Text t => let+ v := _hash_to_vector self t in Ok (Vector v)
  | Texts ts => let+ vs := mapR (_hash_to_vector self) ts in Ok (Vectors vs)
  end.

End HashEmbedder.

(** ** The Python process *)

Inductive level : Type := DEBUG | INFO | WARNING | ERROR.

(** A record handed to a logger: the logger's name, the level, the message. *)
Record LogRecord : Type := { logger : string; levelname : level; message : string }.

(** What [sys.modules] holds: a module the import system loaded (with its
    [__version__], when it has one), or an instance of one of the two
    [MockLZMA] classes. *)
Inductive PyModule : Type :=
| Module (name : string) (version : option string)
| MockLZMA_st_patch
| MockLZMA_fallback_embeddings.

(** The values an attribute of those reads as. [NoopCallable] is
    [lambda *args, **kwargs: None]. *)
Inductive PyAttr : Type :=
| AttrStr (s : string)
| NoopCallable.

(** Calling [lambda *args, **kwargs: None], whatever the arguments: nothing
    happens and [None] comes back. *)
Definition call_NoopCallable {Args : Type} (_ : Args) : option PyAttr := None.

(** A model [get_ef] built; the application's object, opaque but for whether
    it has an [encode] attribute. *)
Record ExternalModel : Type := { em_id : Z; em_has_encode : bool }.

(** [request.app.state.ef] *)
Inductive Model : Type :=
| Primary (m : ExternalModel)
| HashFallback (m : FallbackEmbeddingModel).

(** [request.app.state.EMBEDDING_FUNCTION]: what [get_embedding_function]
    returned, or one of the two lambdas of initialize.py.  The direct
    wrapper reads [request.app.state.ef] when it is called; the fallback
    wrapper holds the model it closed over. *)
Inductive EmbeddingFunction : Type :=
| Wired (handle : Z)
| DirectWrapper
| FallbackWrapper (fallback_model : FallbackEmbeddingModel).

Record Config : Type := {
  RAG_EMBEDDING_ENGINE : string;
  RAG_EMBEDDING_MODEL : string;
  RAG_OPENAI_API_BASE_URL : string;
  RAG_OPENAI_API_KEY : string;
  RAG_OLLAMA_BASE_URL : string;
  RAG_OLLAMA_API_KEY : string;
  RAG_EMBEDDING_BATCH_SIZE : Z
}.

(** Calls that construct something, in the order they were made. *)
Inductive Call : Type :=
| Called_patch_sentence_transformers
| Called_get_ef (engine model : string) (auto_update : bool)
                (outcome : result (option ExternalModel))
| Called_get_fallback_embedding_model
| Called_get_embedding_function (engine model : string) (m : Model)
                                (url key : string) (batch_size : Z)
                                (outcome : result Z).

(** A parsed JSON document, as [response.json()] returns it. *)
#[local] Unset Elimination Schemes.
Inductive pyjson : Type :=
| JNone
| JBool (b : bool)
| JNumber (n : Z)
| JStr (s : string)
| JList (l : list pyjson)
| JDict (d : gmap string pyjson).
#[local] Set Elimination Schemes.

Record Response : Type := {
  status_code_of : Z;
  json : result pyjson
}.

(** Everything outside the three modules.  [World] is the state of the
    machine and the network; each operation reads and changes it.
    - [find_spec name] is [importlib.util.find_spec(name) is not None];
    - [load_module name] is what [import name] does when [name] is not in
      [sys.modules]: the module or the exception, and the modules loaded on
      the way;
    - [pip_install pkg] is [subprocess.check_call([sys.executable, "-m",
      "pip", "install", pkg])];
    - [get_ef], [get_embedding_function] are those of
      [open_webui.routers.retrieval], [RAG_EMBEDDING_MODEL_AUTO_UPDATE]
      that of [open_webui.config];
    - [requests_post url texts] is [requests.post(url, headers=...,
      json={"texts": texts}, timeout=10)]. *)
Class Environment : Type := {
  World : Type;
  RAG_EMBEDDING_MODEL_AUTO_UPDATE : bool;
  find_spec : string -> gmap string PyModule -> World -> result bool * World;
  load_module : string -> gmap string PyModule -> World
                -> result PyModule * gmap string PyModule * World;
  pip_install : string -> World -> result unit * World;
  get_ef : string -> string -> bool -> gmap string PyModule -> World
           -> result (option ExternalModel) * World;
  get_embedding_function : string -> string -> Model -> string -> string -> Z
                           -> gmap string PyModule -> World -> result Z * World;
  requests_post : string -> list pystr -> World -> result Response * World
}.

Section Process.
Context {env : Environment}.

Record Process : Type := {
  ef : option Model;
  EMBEDDING_FUNCTION : option EmbeddingFunction;
  config : Config;
  sys_modules : gmap string PyModule;
  logs : list LogRecord;
  calls : list Call;
  world : World
}.

Definition set_ef (v : option Model) (s : Process) : Process :=
  {| ef := v; EMBEDDING_FUNCTION := EMBEDDING_FUNCTION s; config := config s;
     sys_modules := sys_modules s; logs := logs s; calls := calls s; world := world s |}.

Definition set_EMBEDDING_FUNCTION (v : option EmbeddingFunction) (s : Process) : Process :=
  {| ef := ef s; EMBEDDING_FUNCTION := v; config := config s;
     sys_modules := sys_modules s; logs := logs s; calls := calls s; world := world s |}.

Definition set_sys_modules (v : gmap string PyModule) (s : Process) : Process :=
  {| ef := ef s; EMBEDDING_FUNCTION := EMBEDDING_FUNCTION s; config := config s;
     sys_modules := v; logs := logs s; calls := calls s; world := world s |}.

Definition set_logs (v : list LogRecord) (s : Process) : Process :=
  {| ef := ef s; EMBEDDING_FUNCTION := EMBEDDING_FUNCTION s; config := config s;
     sys_modules := sys_modules s; logs := v; calls := calls s; world := world s |}.

Definition set_calls (v : list Call) (s : Process) : Process :=
  {| ef := ef s; EMBEDDING_FUNCTION := EMBEDDING_FUNCTION s; config := config s;
     sys_modules := sys_modules s; logs := logs s; calls := v; world := world s |}.

Definition set_world (v : World) (s : Process) : Process :=
  {| ef := ef s; EMBEDDING_FUNCTION := EMBEDDING_FUNCTION s; config := config s;
     sys_modules := sys_modules s; logs := logs s; calls := calls s; world := v |}.

(** *** The monad of statements: a state, and a value or a raised exception.
    A raised exception keeps the state the statement had reached. *)

Definition M (A : Type) : Type := Process -> result A * Process.

Definition ret {A} (a : A) : M A := fun s => (Ok a, s).

Definition raise {A} (e : exn) : M A := fun s => (Raise e, s).

Definition bind {A B} (m : M A) (k : A -> M B) : M B :=
  fun s => match m s with
           | (Ok a, s') => k a s'
           | (Raise e, s') => (Raise e, s')
           end.

Definition gets {A} (f : Process -> A) : M A := fun s => (Ok (f s), s).

Definition modify (f : Process -> Process) : M unit := fun s => (Ok tt, f s).

Definition lift {A} (r : result A) : M A := fun s => (r, s).

(** A call out of the three modules: it sees [sys.modules] and the world,
    and changes the world. *)
Definition external {A} (f : gmap string PyModule -> World -> result A * World) : M A :=
  fun s => let '(r, w) := f (sys_modules s) (world s) in (r, set_world w s).

(** [m], and a note of the call with its outcome. *)
Definition recorded {A} (m : M A) (c : result A -> Call) : M A :=
  fun s => let '(r, s') := m s in (r, set_calls (calls s' ++ [c r]) s').

(** [try: m  except <class>: h], for the exceptions [catches] selects. *)
Definition try_catch {A} (catches : exn -> bool) (m : M A) (h : exn -> M A) : M A :=
  fun s => match m s with
           | (Ok a, s') => (Ok a, s')
           | (Raise e, s') => if catches e then h e s' else (Raise e, s')
           end.

Definition try_except {A} : M A -> (exn -> M A) -> M A := try_catch (fun _ => true).

Definition try_except_ImportError {A} : M A -> (exn -> M A) -> M A :=
  try_catch is_ImportError.

End Process.

Notation "'let*' x ':=' m 'in' k" := (bind m (fun x => k))
  (at level 10, x name, m at level 100, k at level 200).

Section Modules.
Context {env : Environment}.

Definition log_to (name : string) (lvl : level) (msg : string) : M unit :=
  modify (fun s => set_logs (logs s ++ [{| logger := name; levelname := lvl; message := msg |}]) s).

Definition record_call (c : Call) : M unit :=
  modify (fun s => set_calls (calls s ++ [c]) s).

(** [sys.modules[name] = m] *)
Definition register_module (name : string) (m : PyModule) : M unit :=
  modify (fun s => set_sys_modules (<[name := m]> (sys_modules s)) s).

(** [name in sys.modules] *)
Definition in_sys_modules (name : string) : M bool :=
  gets (fun s => bool_decide (is_Some (sys_modules s !! name))).

(** [import name]: the entry of [sys.modules] when there is one; else the
    import system loads the module.  Loading adds entries and replaces
    none: the modules loaded on the way are kept where the name was free,
    also when the import fails. *)
Definition py_import (name : string) : M PyModule :=
  let* mods := gets sys_modules in
  match mods !! name with
  | Some m => ret m
  | None =>
      let* loading := gets (fun s => load_module name (sys_modules s) (world s)) in
      let '(r, loaded, w) := loading in
      let* _ := modify (fun s => set_world w (set_sys_modules (sys_modules s ∪ loaded) s)) in
      let* m := lift r in
      let* _ := register_module name m in
      ret m
  end.

(** *** The two stub classes *)

(** st_patch.py, [MockLZMA.__getattr__]: no statement but the return. *)
Definition MockLZMA_st_patch_getattr (name : string) : M PyAttr :=
  ret NoopCallable.

(** fallback_embeddings.py, [MockLZMA.__getattr__]: a warning on the root
    logger, then the return. *)
Definition MockLZMA_fallback_embeddings_getattr (name : string) : M PyAttr :=
  let* _ := log_to "root" WARNING ("Mock _lzma." ++ name ++ " was called") in
  ret NoopCallable.

(** [module.attr] for an attribute normal lookup does not find on a stub
    (every name but those [object] itself defines): Python then calls
    the class's [__getattr__].  A loaded module has [__version__] or
    raises [AttributeError]. *)
Definition getattr (m : PyModule) (attr : string) : M PyAttr :=
  match m with
  | Module n v =>
      match v with
      | Some x => if (attr =? "__version__")%string then ret (AttrStr x)
                  else raise (PyExc "AttributeError" ("module has no attribute " ++ attr))
      | None => raise (PyExc "AttributeError" ("module has no attribute " ++ attr))
      end
  | MockLZMA_st_patch => MockLZMA_st_patch_getattr attr
  | MockLZMA_fallback_embeddings => MockLZMA_fallback_embeddings_getattr attr
  end.

(** How an f-string prints an attribute. *)
Definition format_attr (a : PyAttr) : string :=
  match a with
  | AttrStr x => x
  | NoopCallable => "<function MockLZMA.__getattr__.<locals>.<lambda>>"
  end.

(** *** st_patch.py *)

Definition st_patch_log : level -> string -> M unit := log_to "open_webui.retrieval.st_patch".

Definition patch_sentence_transformers : M bool :=
  let* _ := record_call Called_patch_sentence_transformers in
  let* found := external (find_spec "sentence_transformers") in
  if negb found then
    let* _ := st_patch_log WARNING "sentence_transformers package not found" in
    ret false
  else
    let* present := in_sys_modules "_lzma" in
    let* _ :=
      (if negb present then
         try_except_ImportError
           (let* m := py_import "backports.lzma" in
            let* _ := register_module "_lzma" m in
            st_patch_log INFO "Successfully loaded backports.lzma as _lzma")
           (fun _ =>
              let* _ := st_patch_log WARNING "Could not import backports.lzma" in
              try_except
                (let* _ := external (fun _ => pip_install "backports.lzma") in
                 let* m := py_import "backports.lzma" in
                 let* _ := register_module "_lzma" m in
                 st_patch_log INFO "Successfully installed and loaded backports.lzma")
                (fun e =>
                   let* _ := st_patch_log ERROR ("Failed to install backports.lzma: " ++ str_exn e) in
                   let* _ := register_module "_lzma" MockLZMA_st_patch in
                   st_patch_log INFO "Created mock _lzma module"))
       else ret tt) in
    try_except_ImportError
      (let* m := py_import "sentence_transformers" in
       let* v := getattr m "__version__" in
       let* _ := st_patch_log INFO ("Successfully imported sentence_transformers " ++ format_attr v) in
       ret true)
      (fun e =>
         let* _ := st_patch_log ERROR ("Failed to import sentence_transformers: " ++ str_exn e) in
         ret false).

(** *** fallback_embeddings.py *)

Definition fallback_embeddings : string := "open_webui.retrieval.fallback_embeddings".

(** The statements the module runs when it is first imported: its
    third-party imports, then the [_lzma] shim of lines 10-24. *)
Definition fallback_embeddings_body : M unit :=
  let* _ := py_import "numpy" in
  let* _ := py_import "requests" in
  let* present := in_sys_modules "_lzma" in
  if negb present then
    try_except_ImportError
      (let* m := py_import "backports.lzma" in
       let* _ := register_module "_lzma" m in
       log_to "root" INFO "Successfully loaded backports.lzma as _lzma")
      (fun _ =>
         let* _ := register_module "_lzma" MockLZMA_fallback_embeddings in
         log_to "root" INFO "Created mock _lzma module")
  else ret tt.

(** [from open_webui.retrieval.fallback_embeddings import
    get_fallback_embedding_model] *)
Definition import_fallback_embeddings : M unit :=
  let* present := in_sys_modules fallback_embeddings in
  if present then ret tt
  else
    let* _ := fallback_embeddings_body in
    register_module fallback_embeddings (Module fallback_embeddings None).

Definition FallbackEmbeddingModel_init (name : string) : M FallbackEmbeddingModel :=
  let* _ := log_to fallback_embeddings INFO ("Initialized FallbackEmbeddingModel: " ++ name) in
  ret (FallbackEmbeddingModel_new name).

Definition get_fallback_embedding_model : M FallbackEmbeddingModel :=
  let* _ := record_call Called_get_fallback_embedding_model in
  FallbackEmbeddingModel_init "fallback/text-hash-embedding".

(** [requests]: [Response.raise_for_status] raises [HTTPError] for the
    client and server error codes, 400 to 599, and for no other. *)
Definition raise_for_status (r : Response) : result unit :=
  if (400 <=? status_code_of r) && (status_code_of r <? 600)
  then Raise (PyExc "HTTPError" "Client or Server Error")
  else Ok tt.

Fixpoint is_substring (needle s : string) : bool :=
  String.prefix needle s
  || match s with
     | EmptyString => false
     | String _ r => is_substring needle r
     end.

(** [key in v] *)
Definition py_contains (key : string) (v : pyjson) : result bool :=
  match v with
  | JDict d => Ok (bool_decide (is_Some (d !! key)))
  | JList l => Ok (existsb (fun x => match x with JStr x => (x =? key)%string | _ => false end) l)
  | JStr x => Ok (is_substring key x)
  | _ => Raise (PyExc "TypeError" "argument is not iterable")
  end.

(** [v[key]] *)
Definition py_getitem (v : pyjson) (key : string) : result pyjson :=
  match v with
  | JDict d => match d !! key with
               | Some x => Ok x
               | None => Raise (PyExc "KeyError" key)
               end
  | JList _ => Raise (PyExc "TypeError" "list indices must be integers or slices, not str")
  | JStr _ => Raise (PyExc "TypeError" "string indices must be integers")
  | _ => Raise (PyExc "TypeError" "object is not subscriptable")
  end.

(** [not api_url] *)
Definition falsy (api_url : option string) : bool :=
  match api_url with
  | None => true
  | Some u => (u =? "")%string
  end.

Definition try_external_embeddings (text : texts) (api_url : option string) : M pyjson :=
  if falsy api_url then ret JNone
  else
    let* returned :=
      try_except
        (let payload := match text with Text t => [t] | Texts ts => ts end in
         let* response := external (fun _ => requests_post (default "" api_url) payload) in
         let* _ := lift (raise_for_status response) in
         let* result := lift (json response) in
         let* has := lift (py_contains "embeddings" result) in
         if has then
           let* v := lift (py_getitem result "embeddings") in ret (Some v)
         else ret None)
        (fun e =>
           let* _ := log_to fallback_embeddings WARNING
                       ("External embedding API call failed: " ++ str_exn e) in
           ret None) in
    match returned with
    | Some v => ret v
    | None => ret JNone
    end.

End Modules.

(** ** initialize.py *)

Section Initialize.
Context {env : Environment}.

Definition initialize_log : level -> string -> M unit := log_to "open_webui.retrieval.initialize".

(** [from open_webui.retrieval.st_patch import patch_sentence_transformers]:
    st_patch.py imports the standard library only. *)
Definition import_st_patch : M unit :=
  let* present := in_sys_modules "open_webui.retrieval.st_patch" in
  if present then ret tt
  else register_module "open_webui.retrieval.st_patch"
                       (Module "open_webui.retrieval.st_patch" None).

Definition is_None {A} (o : option A) : bool :=
  match o with None => true | Some _ => false end.

(** [hasattr(ef, 'encode')] *)
Definition hasattr_encode (m : Model) : bool :=
  match m with
  | Primary x => em_has_encode x
  | HashFallback _ => true
  end.

(** Lines 17-20: the shim, for the local engine. *)
Definition patch_if_local : M unit :=
  let* engine := gets (fun s => RAG_EMBEDDING_ENGINE (config s)) in
  if (engine =? "")%string then
    let* _ := import_st_patch in
    let* _ := patch_sentence_transformers in
    ret tt
  else ret tt.

(** Lines 22-39: [ef], when the slot is empty. *)
Definition initialize_ef : M unit :=
  let* ef0 := gets ef in
  if is_None ef0 then
    let* cfg := gets config in
    let* _ := initialize_log INFO
                ("Initializing ef with engine: " ++ RAG_EMBEDDING_ENGINE cfg
                 ++ ", model: " ++ RAG_EMBEDDING_MODEL cfg) in
    let* r := recorded
                (external (get_ef (RAG_EMBEDDING_ENGINE cfg) (RAG_EMBEDDING_MODEL cfg)
                                  RAG_EMBEDDING_MODEL_AUTO_UPDATE))
                (Called_get_ef (RAG_EMBEDDING_ENGINE cfg) (RAG_EMBEDDING_MODEL cfg)
                               RAG_EMBEDDING_MODEL_AUTO_UPDATE) in
    let* _ := modify (set_ef (option_map Primary r)) in
    let* ef1 := gets ef in
    if is_None ef1 then
      let* _ := initialize_log WARNING
                  "Primary embedding function initialization failed. Trying fallback." in
      try_except
        (let* _ := import_fallback_embeddings in
         let* m := get_fallback_embedding_model in
         let* _ := modify (set_ef (Some (HashFallback m))) in
         initialize_log INFO "Using fallback embedding model")
        (fun fallback_error =>
           initialize_log ERROR
             ("Failed to initialize fallback embedding model: " ++ str_exn fallback_error))
    else ret tt
  else ret tt.

(** Lines 41-67: [EMBEDDING_FUNCTION], when [ef] is there. *)
Definition initialize_function : M unit :=
  let* ef2 := gets ef in
  match ef2 with
  | Some model =>
      try_except
        (let* cfg := gets config in
         let openai := (RAG_EMBEDDING_ENGINE cfg =? "openai")%string in
         let url := if openai then RAG_OPENAI_API_BASE_URL cfg else RAG_OLLAMA_BASE_URL cfg in
         let key := if openai then RAG_OPENAI_API_KEY cfg else RAG_OLLAMA_API_KEY cfg in
         let* f := recorded
                     (external (get_embedding_function
                                  (RAG_EMBEDDING_ENGINE cfg) (RAG_EMBEDDING_MODEL cfg)
                                  model url key (RAG_EMBEDDING_BATCH_SIZE cfg)))
                     (Called_get_embedding_function
                        (RAG_EMBEDDING_ENGINE cfg) (RAG_EMBEDDING_MODEL cfg)
                        model url key (RAG_EMBEDDING_BATCH_SIZE cfg)) in
         modify (set_EMBEDDING_FUNCTION (Some (Wired f))))
        (fun e =>
           let* _ := initialize_log ERROR ("Error in get_embedding_function: " ++ str_exn e) in
           let* ef3 := gets ef in
           if match ef3 with Some m => hasattr_encode m | None => false end then
             let* _ := initialize_log INFO "Creating direct wrapper for embedding function" in
             modify (set_EMBEDDING_FUNCTION (Some DirectWrapper))
           else ret tt)
  | None => ret tt
  end.

(** Lines 69-76: the last fallback of the [try] block. *)
Definition final_fallback : M unit :=
  let* f := gets EMBEDDING_FUNCTION in
  if is_None f then
    let* _ := initialize_log WARNING "Creating final fallback embedding function" in
    let* _ := import_fallback_embeddings in
    let* fallback_model := get_fallback_embedding_model in
    modify (set_EMBEDDING_FUNCTION (Some (FallbackWrapper fallback_model)))
  else ret tt.

(** Lines 16-79: the [try] block. *)
Definition try_block : M bool :=
  let* _ := patch_if_local in
  let* _ := initialize_ef in
  let* _ := initialize_function in
  let* _ := final_fallback in
  let* _ := initialize_log INFO "Successfully initialized embedding function" in
  ret true.

(** Lines 84-90: the recovery the handler tries, a hash model behind a
    minimal function. *)
Definition minimal_fallback : M bool :=
  let* _ := import_fallback_embeddings in
  let* fallback_model := get_fallback_embedding_model in
  let* _ := modify (set_EMBEDDING_FUNCTION (Some (FallbackWrapper fallback_model))) in
  let* _ := initialize_log INFO "Created minimal fallback embedding function after error" in
  ret true.

(** Lines 80-96: [except Exception as e]. *)
Definition except_block (e : exn) : M bool :=
  let* _ := initialize_log ERROR ("Error initializing embedding function: " ++ str_exn e) in
  try_except minimal_fallback
    (fun final_error =>
       let* _ := initialize_log ERROR
                   ("Fatal error initializing any embedding function: " ++ str_exn final_error) in
       raise (HTTPException HTTP_500_INTERNAL_SERVER_ERROR
                ("Failed to initialize embedding function: " ++ str_exn e))).

Definition not_initialized_warning : string :=
  "Embedding function not initialized. Attempting to initialize.".

(** [request.app.state.EMBEDDING_FUNCTION is None or request.app.state.ef is None] *)
Definition not_initialized (s : Process) : bool :=
  is_None (EMBEDDING_FUNCTION s) || is_None (ef s).

Definition ensure_embedding_function : M bool :=
  let* uninitialized := gets not_initialized in
  if uninitialized then
    let* _ := initialize_log WARNING not_initialized_warning in
    try_except try_block except_block
  else ret true.

End Initialize.

(** ** st_patch.py: the guarded import *)

(** What [from sentence_transformers import SentenceTransformer] binds: the
    object a loaded module has under the name, or what the [__getattr__] of
    a stub returned. *)
Inductive Imported : Type :=
| NameOf (m : PyModule) (name : string)
| FromStub (a : PyAttr).

Section SafeImport.
Context {env : Environment}.

(** Whether a module the import system loaded has a name to import: the
    package's own matter. *)
Variable exports : PyModule -> string -> bool.

(** [from m import name], for the module [import] gave. *)
Definition import_from (m : PyModule) (name : string) : M Imported :=
  match m with
  | Module _ _ =>
      if exports m name then ret (NameOf m name)
      else raise (PyExc "ImportError" ("cannot import name " ++ name))
  | _ => let* a := getattr m name in ret (FromStub a)
  end.

(** Lines 53-66; [None] is Python's. *)
Definition safe_import_sentence_transformers : M (option Imported) :=
  let* patched := patch_sentence_transformers in
  if negb patched then ret None
  else
    try_except_ImportError
      (let* m := py_import "sentence_transformers" in
       let* c := import_from m "SentenceTransformer" in
       ret (Some c))
      (fun e =>
         let* _ := st_patch_log ERROR ("Could not import SentenceTransformer: " ++ str_exn e) in
         ret None).

End SafeImport.

(** ** fallback_embeddings.py: [FallbackEmbeddingModel.__str__] *)

Definition FallbackEmbeddingModel_str (self : FallbackEmbeddingModel) : string :=
  "FallbackEmbeddingModel(" ++ model_name self ++ ")".

(** ** initialize.py: calling what is in the function slot *)

Section Calling.
Context {np : NumPy} {env : Environment}.

(** The application's objects are parameters: [encode] of a model [get_ef]
    built, with the [prompt] keyword when there is one, and the function
    [get_embedding_function] returned, with [query], [prefix] and [user]. *)
Variable primary_encode : ExternalModel -> texts -> option string -> M embeddings.
Variable wired_function_call : Z -> texts -> option string -> option string -> M embeddings.

(** [**({"prompt": prefix} if prefix else {})]: the keyword is passed for
    a prefix that is neither [None] nor empty. *)
Definition prompt_of (prefix : option string) : option string :=
  match prefix with
  | Some p => if (p =? "")%string then None else Some p
  | None => None
  end.

(** [model.encode(query, **kwargs)].  [FallbackEmbeddingModel.encode] takes
    [**kwargs] and reads none of them. *)
Definition Model_encode (m : Model) (query : texts) (prompt : option string) : M embeddings :=
  match m with
  | Primary x =>
      if em_has_encode x then primary_encode x query prompt
      else raise (PyExc "AttributeError" "object has no attribute 'encode'")
  | HashFallback fallback_model => lift (encode fallback_model query)
  end.

(** [EMBEDDING_FUNCTION(query, prefix, user)].  The two lambdas of lines
    65-67 and 74-76 (86-88 is the second again) take [user] and do not use
    it; the first reads [request.app.state.ef] when it is called. *)
Definition call_EMBEDDING_FUNCTION (f : EmbeddingFunction) (query : texts)
  (prefix user : option string) : M embeddings :=
  match f with
  | Wired handle => wired_function_call handle query prefix user
  | DirectWrapper =>
      let* model := gets ef in
      match model with
      | Some m => Model_encode m query (prompt_of prefix)
      | None => raise (PyExc "AttributeError" "'NoneType' object has no attribute 'encode'")
      end
  | FallbackWrapper fallback_model =>
      Model_encode (HashFallback fallback_model) query (prompt_of prefix)
  end.

End Calling.

(** ** The algorithm of the hash embedder, in the specification's words *)

(** "Reduce the digest to an integer": the digest read as one big-endian
    number. *)
Definition integer_of_digest (digest : list Z) : Z :=
  fold_left (fun acc b => acc * 256 + b) digest 0.

Section Specification.
Context {np : NumPy}.

(** "the SHA-256 digest of the UTF-8 encoding of t, reduced to an integer
    seed modulo 10^8" *)
Definition spec_seed (t : pystr) : result Z :=
  let+ utf8 := encode_utf8 t in
  Ok (integer_of_digest (SHA256.sha256 utf8) mod 10 ^ 8).

(** "drawing 384 uniform values in [0,1) as 32-bit floats" from a
    generator seeded with [seed] *)
Definition spec_draw (seed : Z) : result (list float32) :=
  let+ g := RandomState_new seed in
  Ok (map astype_float32 (fst (rand g 384))).

(** "normalizing": each item over the Euclidean norm when the norm is
    strictly positive, the vector as drawn otherwise. *)
Definition spec_normalize (v : list float32) : result (list float32) :=
  if gt_zero (linalg_norm v) then mapR (fun x => truediv x (linalg_norm v)) v else Ok v.

Definition spec_hash_embed (t : pystr) : result (list float64) :=
  let+ seed := spec_seed t in
  let+ drawn := spec_draw seed in
  let+ unit := spec_normalize drawn in
  Ok (map item unit).

End Specification.

(** ** Executable instances *)

(** A numpy that computes: IEEE 754 binary32 and binary64 arithmetic from
    [SpecFloat], a 64-bit linear congruential generator where numpy has
    the Mersenne Twister, a left-to-right sum of squares for the norm, and
    the floating-point error mode set to raise on a division by zero. *)
Module Reference.
Import SpecFloat.

Definition round_to (prec emax : Z) (x : spec_float) : spec_float :=
  match x with
  | S754_finite s m e => binary_round prec emax s m e
  | _ => x
  end.

Definition lcg (g : Z) : Z :=
  (g * 6364136223846793005 + 1442695040888963407) mod 2 ^ 64.

Fixpoint draws (g : Z) (n : nat) : list spec_float * Z :=
  match n with
  | O => ([], g)
  | S k =>
      let g' := lcg g in
      let x := binary_normalize 53 1024 (Z.shiftr g' 11) (-53) false in
      let '(xs, g'') := draws g' k in
      (x :: xs, g'')
  end.

Definition norm (v : list spec_float) : spec_float :=
  SFsqrt 24 128
    (fold_left (fun acc x => SFadd 24 128 acc (SFmul 24 128 x x)) v (S754_zero false)).

Definition div (x d : spec_float) : result spec_float :=
  match d with
  | S754_zero _ => Raise (PyExc "FloatingPointError" "divide by zero encountered in divide")
  | _ => Ok (SFdiv 24 128 x d)
  end.

Definition numpy : NumPy := {|
  float64 := spec_float;
  float32 := spec_float;
  RandomState := Z;
  RandomState_new seed :=
    if (0 <=? seed) && (seed <? 2 ^ 32) then Ok seed
    else Raise (PyExc "ValueError" "Seed must be between 0 and 2**32 - 1");
  rand := draws;
  astype_float32 := round_to 24 128;
  linalg_norm := norm;
  is_zero x := match x with S754_zero _ => true | _ => false end;
  gt_zero x := SFltb (S754_zero false) x;
  truediv := div;
  item := round_to 53 1024
|}.

(** The same, with a generator that draws zeros only: the degenerate
    draw, whose norm is zero. *)
Definition all_zero : NumPy := {|
  float64 := spec_float;
  float32 := spec_float;
  RandomState := Z;
  RandomState_new := @RandomState_new numpy;
  rand g n := (repeat (S754_zero false) n, g);
  astype_float32 := round_to 24 128;
  linalg_norm := norm;
  is_zero x := match x with S754_zero _ => true | _ => false end;
  gt_zero x := SFltb (S754_zero false) x;
  truediv := div;
  item := round_to 53 1024
|}.

End Reference.

(** An environment that answers from a script: [World] is the list of the
    modules an import can load, which a successful [pip install] extends. *)
Record Script : Type := {
  spec_found : bool;
  pip_succeeds : bool;
  primary_model : result (option ExternalModel);
  wired_function : result Z;
  http_response : result Response;
  auto_update : bool
}.

Definition scripted (sc : Script) : Environment := {|
  World := list string;
  RAG_EMBEDDING_MODEL_AUTO_UPDATE := auto_update sc;
  find_spec _ _ w := (Ok (spec_found sc), w);
  load_module name _ w :=
    if existsb (String.eqb name) w then (Ok (Module name (Some "1.0")), ∅, w)
    else (Raise (PyExc "ModuleNotFoundError" ("No module named " ++ name)), ∅, w);
  pip_install pkg w :=
    if pip_succeeds sc then (Ok tt, pkg :: w)
    else (Raise (PyExc "CalledProcessError" "pip returned non-zero exit status 1"), w);
  get_ef _ _ _ _ w := (primary_model sc, w);
  get_embedding_function _ _ _ _ _ _ _ w := (wired_function sc, w);
  requests_post _ _ w := (http_response sc, w)
|}.

(** The library is installed, the compression module is missing,
    [backports.lzma] cannot be imported and pip fails. *)
Definition no_lzma : Script := {|
  spec_found := true;
  pip_succeeds := false;
  primary_model := Ok None;
  wired_function := Ok 1;
  http_response := Raise (PyExc "ConnectionError" "connection refused");
  auto_update := false
|}.

(** An answer with status 300 and a JSON body that holds embeddings. *)
Definition multiple_choices : Script := {|
  spec_found := false;
  pip_succeeds := false;
  primary_model := Ok None;
  wired_function := Ok 1;
  http_response :=
    Ok {| status_code_of := 300;
          json := Ok (JDict {[ "embeddings" := JList [JList [JNumber 1; JNumber 0]] ]}) |};
  auto_update := false
|}.

Definition local_config : Config := {|
  RAG_EMBEDDING_ENGINE := "";
  RAG_EMBEDDING_MODEL := "sentence-transformers/all-MiniLM-L6-v2";
  RAG_OPENAI_API_BASE_URL := "https://api.openai.com/v1";
  RAG_OPENAI_API_KEY := "";
  RAG_OLLAMA_BASE_URL := "http://localhost:11434";
  RAG_OLLAMA_API_KEY := "";
  RAG_EMBEDDING_BATCH_SIZE := 1
|}.

(** A process just started: both slots empty, nothing imported or logged. *)
Definition fresh (sc : Script) (cfg : Config) (importable : list string)
  : @Process (scripted sc) :=
  @Build_Process (scripted sc) None None cfg ∅ [] [] importable.

(** An environment whose [get_ef] raises the first time it is called and
    builds a model from then on; [World] counts its calls.  The embedding
    library is not installed; numpy and requests are. *)
Definition flaky : Environment := {|
  World := nat;
  RAG_EMBEDDING_MODEL_AUTO_UPDATE := false;
  find_spec _ _ w := (Ok false, w);
  load_module name _ w := (Ok (Module name (Some "1.0")), ∅, w);
  pip_install _ w := (Raise (PyExc "CalledProcessError" "pip returned non-zero exit status 1"), w);
  get_ef _ _ _ _ w :=
    match w with
    | O => (Raise (PyExc "OSError" "model files not found"), S w)
    | S _ => (Ok (Some {| em_id := 7; em_has_encode := true |}), S w)
    end;
  get_embedding_function _ _ _ _ _ _ _ w := (Ok 42, w);
  requests_post _ _ w := (Raise (PyExc "ConnectionError" "connection refused"), w)
|}.

Definition flaky_fresh : @Process flaky :=
  @Build_Process flaky None None local_config ∅ [] [] O.

(** ** Notions the properties are stated with *)

Definition is_byte (b : Z) : Prop := 0 <= b < 256.

Section Relations.
Context {env : Environment}.

(** [m] relates every state to the state it ends in, whether it returns
    or raises. *)
Definition preserves (R : relation Process) {A} (m : M A) : Prop :=
  forall s, R s (snd (m s)).

(** Whatever [m] returns satisfies [P]. *)
Definition returns {A} (P : A -> Prop) (m : M A) : Prop :=
  forall s a s', m s = (Ok a, s') -> P a.

(** A field keeps its value. *)
Definition same {X} (f : Process -> X) : relation Process :=
  fun s s' => f s' = f s.

(** An entry of [sys.modules], once there, stays as it is. *)
Definition entry_kept (k : string) : relation Process :=
  fun s s' => forall m, sys_modules s !! k = Some m -> sys_modules s' !! k = Some m.

(** What every statement of the three modules keeps: the configuration,
    the log records emitted and the calls made so far. *)
Definition frame : relation Process :=
  fun s s' =>
    config s' = config s
    /\ (exists l, (logs s' = logs s ++ l)%list)
    /\ (exists c, (calls s' = calls s ++ c)%list).

(** Calls that are neither the shim nor the primary construction. *)
Definition quiet_call (c : Call) : Prop :=
  match c with
  | Called_patch_sentence_transformers | Called_get_ef _ _ _ _ => False
  | Called_get_fallback_embedding_model | Called_get_embedding_function _ _ _ _ _ _ _ => True
  end.

(** The model slot is kept; the shim and [get_ef] are not called. *)
Definition quiet : relation Process :=
  fun s s' =>
    ef s' = ef s /\ exists c, (calls s' = calls s ++ c)%list /\ Forall quiet_call c.

(** The state after [n] more runs of [m]. *)
Fixpoint again {A} (n : nat) (m : M A) (s : Process) : Process :=
  match n with
  | O => s
  | S k => again k m (snd (m s))
  end.

(** The two statements that construct the hash model, wherever
    initialize.py has them: the import of its module and the call. *)
Definition construct_fallback_model : M FallbackEmbeddingModel :=
  let* _ := import_fallback_embeddings in get_fallback_embedding_model.

(** The record the initialisation logs first. *)
Definition warning_record : LogRecord :=
  {| logger := "open_webui.retrieval.initialize"; levelname := WARNING;
     message := not_initialized_warning |}.

End Relations.

(** ** The order of calls the specification describes for the local engine *)

Definition is_get_ef (c : Call) : bool :=
  match c with Called_get_ef _ _ _ _ => true | _ => false end.

Definition is_patch (c : Call) : bool :=
  match c with Called_patch_sentence_transformers => true | _ => false end.

(** [get_ef] raised or returned [None]. *)
Definition primary_failed (c : Call) : bool :=
  match c with
  | Called_get_ef _ _ _ (Ok (Some _)) => false
  | Called_get_ef _ _ _ _ => true
  | _ => false
  end.

(** The shim is applied, and later [get_ef] is called. *)
Fixpoint patch_then_get_ef (cs : list Call) : bool :=
  match cs with
  | [] => false
  | c :: r => (is_patch c && existsb is_get_ef r) || patch_then_get_ef r
  end.

(** "when primary construction fails, the Patch Shim is first applied and
    then primary construction is retried": a failed [get_ef], after it
    the shim, after the shim another [get_ef]. *)
Fixpoint retried_after_patch (cs : list Call) : bool :=
  match cs with
  | [] => false
  | c :: r => (primary_failed c && patch_then_get_ef r) || retried_after_patch r
  end.

(** ** What the initialisation keeps, and what the slots hold *)

(** The strings of an input of [encode], in order. *)
Definition strings (input : texts) : list pystr :=
  match input with
  | Text t => [t]
  | Texts ts => ts
  end.

Section Slots.
Context {env : Environment}.

(** A model that is in the slot is not replaced. *)
Definition model_kept : relation Process :=
  fun s s' => forall m, ef s = Some m -> ef s' = Some m.

(** A function slot that is filled is not emptied. *)
Definition function_kept_filled : relation Process :=
  fun s s' => EMBEDDING_FUNCTION s <> None -> EMBEDDING_FUNCTION s' <> None.

(** The slots as initialize.py fills them: a hash model has the size its
    constructor sets, in the model slot and behind the fallback wrapper;
    and the direct wrapper, which reads the model slot when it is called,
    finds there a model that has [encode]. *)
Definition well_built (s : Process) : Prop :=
  (forall m, ef s = Some (HashFallback m) -> embedding_size m = 384%nat)
  /\ (forall m, EMBEDDING_FUNCTION s = Some (FallbackWrapper m) -> embedding_size m = 384%nat)
  /\ (EMBEDDING_FUNCTION s = Some DirectWrapper ->
      exists m, ef s = Some m /\ hasattr_encode m = true).

(** The function in the slot ends in the hash embedder. *)
Definition hash_backed (s : Process) (f : EmbeddingFunction) : Prop :=
  match f with
  | Wired _ => False
  | DirectWrapper => exists m, ef s = Some (HashFallback m)
  | FallbackWrapper _ => True
  end.

(** A call of [get_embedding_function] that carries the engine, the model
    name and the batch size of [cfg], and the address and key of the
    provider the engine names: OpenAI's for ["openai"], Ollama's for every
    other engine. *)
Definition provider_arguments (cfg : Config) (c : Call) : Prop :=
  match c with
  | Called_get_embedding_function engine model _ url key batch_size _ =>
      engine = RAG_EMBEDDING_ENGINE cfg
      /\ model = RAG_EMBEDDING_MODEL cfg
      /\ batch_size = RAG_EMBEDDING_BATCH_SIZE cfg
      /\ (if (engine =? "openai")%string
          then url = RAG_OPENAI_API_BASE_URL cfg /\ key = RAG_OPENAI_API_KEY cfg
          else url = RAG_OLLAMA_BASE_URL cfg /\ key = RAG_OLLAMA_API_KEY cfg)
  | _ => True
  end.

(** A process whose slots are well built stays so. *)
Definition stays_well_built : relation Process :=
  fun s s' => well_built s -> well_built s'.

(** The configuration is kept and every call made fits it. *)
Definition configured : relation Process :=
  fun s s' =>
    config s' = config s
    /\ exists c, (calls s' = calls s ++ c)%list /\ Forall (provider_arguments (config s)) c.

(** The calls made are not calls of the shim. *)
Definition unpatched : relation Process :=
  fun s s' => exists c, (calls s' = calls s ++ c)%list /\ Forall (fun x => is_patch x = false) c.

(** Whatever [m] raises satisfies [P]. *)
Definition raises_only (P : exn -> Prop) {A} (m : M A) : Prop :=
  forall s e s', m s = (Raise e, s') -> P e.

(** The record [try_external_embeddings] logs when the request path
    raised [e]. *)
Definition api_failure_record (e : exn) : LogRecord :=
  {| logger := fallback_embeddings; levelname := WARNING;
     message := "External embedding API call failed: " ++ str_exn e |}.

End Slots.

(** The instance [get_fallback_embedding_model] builds. *)
Definition hash_embedder : FallbackEmbeddingModel :=
  FallbackEmbeddingModel_new "fallback/text-hash-embedding".

(** [s], the module of the hash model imported. *)
Definition with_fallback_module {env : Environment} (s : Process) : Process :=
  set_sys_modules (<[fallback_embeddings := Module fallback_embeddings None]> (sys_modules s)) s.

(** The configuration of a remote engine. *)
Definition openai_config : Config := {|
  RAG_EMBEDDING_ENGINE := "openai";
  RAG_EMBEDDING_MODEL := "text-embedding-3-small";
  RAG_OPENAI_API_BASE_URL := "https://api.openai.com/v1";
  RAG_OPENAI_API_KEY := "sk-test";
  RAG_OLLAMA_BASE_URL := "http://localhost:11434";
  RAG_OLLAMA_API_KEY := "";
  RAG_EMBEDDING_BATCH_SIZE := 16
|}.

(** A process where the embedding library is imported but has no
    [__version__]. *)
Definition unversioned : @Process (scripted no_lzma) :=
  @Build_Process (scripted no_lzma) None None local_config
    {[ "sentence_transformers" := Module "sentence_transformers" None ]} [] []
    ["sentence_transformers"].

(** * Properties *)

Local Open Scope list_scope.

(** ** Known answers of the digest *)

Example round_constants :
  length SHA256.K = 64%nat /\ hd 0 SHA256.K = 0x428a2f98 /\ List.last SHA256.K 0 = 0xc67178f2
  /\ SHA256.va SHA256.H0 = 0x6a09e667 /\ SHA256.vh SHA256.H0 = 0x5be0cd19.
Proof. vm_compute. repeat split. Qed.

Example sha256_abc :
  hexdigest (SHA256.sha256 (ascii_text "abc"))
  = "ba7816bf8f01cfea414140de5dae2223b00361a396177a9cb410ff61f20015ad".
Proof. vm_compute. reflexivity. Qed.

Example sha256_empty :
  hexdigest (SHA256.sha256 [])
  = "e3b0c44298fc1c149afbf4c8996fb92427ae41e4649b934ca495991b7852b855".
Proof. vm_compute. reflexivity. Qed.

Example sha256_two_blocks :
  hexdigest (SHA256.sha256 (repeat 97 56))
  = "b35439a4ac6f0948b6d6f9e3c6af0f5f590ce20f1bde7090ef7970686ec6738a".
Proof. vm_compute. reflexivity. Qed.

Example utf8_mixed :
  encode_utf8 [104; 233; 108; 108; 111; 32; 19990; 30028; 32; 128512]
  = Ok [104; 195; 169; 108; 108; 111; 32; 228; 184; 150; 231; 149; 140; 32; 240; 159; 152; 128].
Proof. vm_compute. reflexivity. Qed.

Example text_hash_hello_world :
  text_hash (ascii_text "hello world") = Ok 5751529.
Proof. vm_compute. reflexivity. Qed.

Example text_hash_mixed :
  text_hash [104; 233; 108; 108; 111; 32; 19990; 30028; 32; 128512] = Ok 66159992.
Proof. vm_compute. reflexivity. Qed.

(** ** The seed *)

Lemma hex_value_hex_digit (n : Z) : 0 <= n < 16 -> hex_value (hex_digit n) = Some n.
Proof.
  intros H. rewrite <- (Z2Nat.id n) by lia.
  assert (Hk : (Z.to_nat n < 16)%nat) by lia.
  generalize dependent (Z.to_nat n). clear. intros k Hk.
  do 16 (destruct k as [| k]; [reflexivity |]). lia.
Qed.

Lemma hexdigest_cons (b : Z) (bs : list Z) :
  hexdigest (b :: bs)
  = String (hex_digit (b / 16)) (String (hex_digit (b mod 16)) (hexdigest bs)).
Proof. reflexivity. Qed.

(** [int(.., 16)] reads a hex digest back as the big-endian number of its bytes. *)
Lemma int16_from_hexdigest (bs : list Z) :
  Forall is_byte bs ->
  forall acc, int16_from acc (hexdigest bs)
              = Some (fold_left (fun a b => a * 256 + b) bs acc).
Proof.
  induction 1 as [| b bs Hb _ IH]; intros acc; [reflexivity |].
  rewrite hexdigest_cons. cbn [int16_from fold_left].
  unfold is_byte in Hb.
  rewrite !hex_value_hex_digit.
  - rewrite IH. do 2 f_equal.
    pose proof (Z.div_mod b 16 ltac:(lia)). lia.
  - apply Z.mod_pos_bound. lia.
  - split; [apply Z.div_pos; lia | apply Z.div_lt_upper_bound; lia].
Qed.

Lemma int_base16_hexdigest (bs : list Z) :
  Forall is_byte bs -> bs <> [] ->
  int_base16 (hexdigest bs) = Ok (integer_of_digest bs).
Proof.
  intros Hb Hne. unfold int_base16.
  rewrite (int16_from_hexdigest bs Hb 0).
  destruct bs as [| b bs]; [congruence |]. rewrite hexdigest_cons. reflexivity.
Qed.

Lemma be_bytes_are_bytes (n : nat) (x : Z) : Forall is_byte (SHA256.be_bytes n x).
Proof.
  unfold SHA256.be_bytes. apply List.Forall_forall. intros b Hb.
  apply in_map_iff in Hb as (i & <- & _).
  apply Z.mod_pos_bound. lia.
Qed.

Lemma sha256_bytes (msg : list Z) : Forall is_byte (SHA256.sha256 msg).
Proof.
  unfold SHA256.sha256, SHA256.digest_of.
  generalize (fold_left SHA256.compress
                (SHA256.blocks (length (SHA256.pad msg)) (SHA256.pad msg)) SHA256.H0).
  intros s. cbn [flat_map].
  repeat (apply Forall_app; split); try apply be_bytes_are_bytes. constructor.
Qed.

Lemma sha256_length (msg : list Z) : length (SHA256.sha256 msg) = 32%nat.
Proof. reflexivity. Qed.

(** The integer the code parses out of the hexadecimal digest is the
    digest itself, read as a number. *)
Lemma int_of_hexdigest_of_sha256 (msg : list Z) :
  int_base16 (hexdigest (SHA256.sha256 msg)) = Ok (integer_of_digest (SHA256.sha256 msg)).
Proof.
  apply int_base16_hexdigest; [apply sha256_bytes |].
  intros H. pose proof (sha256_length msg) as L. rewrite H in L. discriminate.
Qed.

Lemma text_hash_spec_seed (t : pystr) : text_hash t = spec_seed t.
Proof.
  unfold text_hash, spec_seed. destruct (encode_utf8 t) as [bs | e]; [| reflexivity].
  cbn [bindR]. rewrite int_of_hexdigest_of_sha256. reflexivity.
Qed.

(** ** Comprehensions that may raise *)

Lemma mapR_ok {A B} (f : A -> result B) (l : list A) :
  Forall (fun x => exists y, f x = Ok y) l -> exists ys, mapR f l = Ok ys.
Proof.
  induction 1 as [| x l [y Hy] _ [ys IH]]; [exists []; reflexivity |].
  exists (y :: ys). cbn [mapR]. rewrite Hy. cbn [bindR]. rewrite IH. reflexivity.
Qed.

Lemma mapR_inv_cons {A B} (f : A -> result B) (x : A) (l : list A) (zs : list B) :
  mapR f (x :: l) = Ok zs ->
  exists y ys, f x = Ok y /\ mapR f l = Ok ys /\ zs = y :: ys.
Proof.
  cbn [mapR]. destruct (f x) as [y | e]; [| discriminate].
  cbn [bindR]. destruct (mapR f l) as [ys | e]; [| discriminate].
  cbn [bindR]. intros [= <-]. eauto.
Qed.

Lemma mapR_length {A B} (f : A -> result B) (l : list A) (ys : list B) :
  mapR f l = Ok ys -> length ys = length l.
Proof.
  revert ys. induction l as [| x l IH]; intros ys H.
  - injection H as <-. reflexivity.
  - apply mapR_inv_cons in H as (y & ys' & _ & H & ->).
    cbn [length]. f_equal. auto.
Qed.

(** The i-th result comes from the i-th item. *)
Lemma mapR_lookup {A B} (f : A -> result B) (l : list A) (ys : list B) :
  mapR f l = Ok ys ->
  forall (i : nat) (x : A), l !! i = Some x -> exists y, ys !! i = Some y /\ f x = Ok y.
Proof.
  revert ys. induction l as [| a l IH]; intros ys H i x Hi.
  - destruct i; discriminate.
  - apply mapR_inv_cons in H as (y & ys' & Hy & H & ->).
    destruct i as [| i].
    + injection Hi as <-. exists y. split; [reflexivity | assumption].
    + exact (IH ys' H i x Hi).
Qed.

(** ** UTF-8 *)

Lemma utf8_char_ok (c : Z) :
  is_scalar_value c = true -> exists bs, utf8_char c = Ok bs.
Proof.
  intros H. unfold utf8_char. rewrite H. cbn [negb].
  repeat match goal with |- context [if ?b then _ else _] => destruct b end; eauto.
Qed.

Lemma utf8_char_raises (c : Z) :
  is_scalar_value c = false -> utf8_char c = Raise UnicodeEncodeError.
Proof. intros H. unfold utf8_char. rewrite H. reflexivity. Qed.

Lemma encode_utf8_ok (t : pystr) : well_formed t -> exists bs, encode_utf8 t = Ok bs.
Proof.
  intros H. unfold encode_utf8.
  destruct (mapR_ok utf8_char t) as [bss Hbss].
  - eapply Forall_impl; [exact H |]. intros c Hc. apply utf8_char_ok, Hc.
  - rewrite Hbss. eauto.
Qed.

Lemma text_hash_ok (t : pystr) :
  well_formed t -> exists seed, text_hash t = Ok seed /\ 0 <= seed < 10 ^ 8.
Proof.
  intros H. rewrite text_hash_spec_seed. unfold spec_seed.
  destruct (encode_utf8_ok t H) as [bs ->]. cbn [bindR].
  eexists. split; [reflexivity |]. apply Z.mod_pos_bound. lia.
Qed.

(** ** The hash embedder *)

Section HashEmbedderFacts.
Context {np : NumPy}.

Lemma hash_to_vector_spec (self : FallbackEmbeddingModel) (t : pystr) :
  embedding_size self = 384%nat -> _hash_to_vector self t = spec_hash_embed t.
Proof.
  intros Hsize. unfold _hash_to_vector, spec_hash_embed, spec_draw, spec_normalize.
  rewrite text_hash_spec_seed, Hsize.
  destruct (spec_seed t) as [seed | e]; [| reflexivity]. cbn [bindR].
  destruct (RandomState_new seed) as [g | e]; reflexivity.
Qed.

(** The value depends on the text and on nothing of the instance but its
    size. *)
Lemma hash_to_vector_instance (a b : FallbackEmbeddingModel) (t : pystr) :
  embedding_size a = embedding_size b -> _hash_to_vector a t = _hash_to_vector b t.
Proof. intros H. unfold _hash_to_vector. rewrite H. reflexivity. Qed.

Context {laws : NumPyLaws np}.

Lemma spec_draw_ok (seed : Z) :
  0 <= seed < 10 ^ 8 ->
  exists g, RandomState_new seed = Ok g
            /\ spec_draw seed = Ok (map astype_float32 (fst (rand g 384))).
Proof.
  intros H. destruct (RandomState_new_range seed) as [g Hg]; [lia |].
  exists g. split; [assumption |]. unfold spec_draw. rewrite Hg. reflexivity.
Qed.

Lemma spec_normalize_ok (v : list float32) :
  exists u, spec_normalize v = Ok u /\ length u = length v.
Proof.
  unfold spec_normalize. destruct (gt_zero (linalg_norm v)) eqn:Hpos.
  - destruct (mapR_ok (fun x => truediv x (linalg_norm v)) v) as [u Hu].
    + apply List.Forall_forall. intros x _. apply truediv_defined, Hpos.
    + exists u. split; [assumption |]. eapply mapR_length, Hu.
  - exists v. split; reflexivity.
Qed.

Lemma spec_hash_embed_ok (t : pystr) :
  well_formed t -> exists v, spec_hash_embed t = Ok v /\ length v = 384%nat.
Proof.
  intros H. unfold spec_hash_embed.
  rewrite <- text_hash_spec_seed.
  destruct (text_hash_ok t H) as (seed & -> & Hseed). cbn [bindR].
  destruct (spec_draw_ok seed Hseed) as (g & _ & ->). cbn [bindR].
  destruct (spec_normalize_ok (map astype_float32 (fst (rand g 384)))) as (u & -> & Hu).
  cbn [bindR]. eexists. split; [reflexivity |].
  rewrite length_map, Hu, length_map. apply rand_length.
Qed.

Lemma hash_to_vector_returns (name : string) (t : pystr) :
  well_formed t ->
  exists v, _hash_to_vector (FallbackEmbeddingModel_new name) t = Ok v
            /\ length v = 384%nat.
Proof.
  intros Ht. rewrite hash_to_vector_spec by reflexivity. apply spec_hash_embed_ok, Ht.
Qed.

Lemma hash_to_vector_returns_each (name : string) (ts : list pystr) :
  Forall well_formed ts ->
  exists vs, mapR (_hash_to_vector (FallbackEmbeddingModel_new name)) ts = Ok vs.
Proof.
  intros Hts. apply mapR_ok. eapply Forall_impl; [exact Hts |].
  intros t Ht. destruct (hash_to_vector_returns name t Ht) as (v & Hv & _). eauto.
Qed.

End HashEmbedderFacts.

Lemma reference_numpy_laws : NumPyLaws Reference.numpy.
Proof.
  split.
  - intros seed [H0 H1]. exists seed. cbn.
    destruct (Z.leb_spec 0 seed); [| lia].
    destruct (Z.ltb_spec seed (2 ^ 32)); [reflexivity | lia].
  - intros g n. cbn. revert g. induction n as [| n IH]; intros g; [reflexivity |].
    cbn [Reference.draws]. specialize (IH (Reference.lcg g)).
    destruct (Reference.draws (Reference.lcg g) n). cbn in *. f_equal. exact IH.
  - intros x d H. destruct d; cbn in *; try discriminate; eauto.
  - intros d H. destruct d; cbn in *; try discriminate; reflexivity.
Qed.

Lemma reference_all_zero_laws : NumPyLaws Reference.all_zero.
Proof.
  split.
  - exact (@RandomState_new_range _ reference_numpy_laws).
  - intros g n. cbn. apply repeat_length.
  - exact (@truediv_defined _ reference_numpy_laws).
  - exact (@zero_not_positive _ reference_numpy_laws).
Qed.

(** C1. [encode(t)] is the pipeline the specification describes: the
    SHA-256 digest of the UTF-8 encoding of [t], read as an integer and
    reduced modulo 10^8, seeds the generator; 384 values are drawn, cast
    to 32-bit floats and normalized ([spec_hash_embed], where an
    unencodable text raises as in the code).  The outcome therefore depends
    on the text alone: any two instances give the same outcome for the
    same text, and [encode] reads nothing of the process. *)
Theorem encode_is_seeded_by_the_text_digest {np : NumPy} (name : string) (t : pystr) :
  encode (FallbackEmbeddingModel_new name) (Text t)
  = (let+ v := spec_hash_embed t in Ok (Vector v))
  /\ forall name' : string,
       encode (FallbackEmbeddingModel_new name') (Text t)
       = encode (FallbackEmbeddingModel_new name) (Text t).
Proof.
  split.
  - cbn [encode]. rewrite hash_to_vector_spec; reflexivity.
  - intros name'. cbn [encode].
    rewrite (hash_to_vector_instance (FallbackEmbeddingModel_new name')
               (FallbackEmbeddingModel_new name)); reflexivity.
Qed.

(** C2, as stated, fails on a text that UTF-8 cannot encode: for the
    one-character string of the lone surrogate U+D83D, [encode] raises
    [UnicodeEncodeError] and yields no vector. *)
Lemma encode_raises_on_lone_surrogate :
  @encode Reference.numpy (FallbackEmbeddingModel_new "fallback/text-hash-embedding")
          (Text [0xD83D])
  = Raise UnicodeEncodeError.
Proof. reflexivity. Qed.

(** C2, amended.  For every input whose strings UTF-8 can encode: a single
    string yields one vector of exactly 384 floats; a sequence of n strings
    yields n vectors, the i-th of which is the encoding of the i-th
    string. *)
Theorem encode_shape_and_order {np : NumPy} {laws : NumPyLaws np} (name : string) :
  let self := FallbackEmbeddingModel_new name in
  (forall t : pystr,
      well_formed t ->
      exists v, encode self (Text t) = Ok (Vector v) /\ length v = 384%nat)
  /\ (forall ts : list pystr,
         Forall well_formed ts ->
         exists vs,
           encode self (Texts ts) = Ok (Vectors vs)
           /\ length vs = length ts
           /\ forall (i : nat) (t : pystr),
                ts !! i = Some t ->
                exists v, vs !! i = Some v
                          /\ length v = 384%nat
                          /\ encode self (Text t) = Ok (Vector v)).
Proof.
  intros self. split.
  - intros t Ht. destruct (hash_to_vector_returns name t Ht) as (v & Hv & Hlen).
    exists v. cbn [encode]. unfold self. rewrite Hv. split; [reflexivity | assumption].
  - intros ts Hts.
    destruct (hash_to_vector_returns_each name ts Hts) as [vs Hvs].
    exists vs. cbn [encode]. unfold self. rewrite Hvs. split; [reflexivity |].
    split; [eapply mapR_length, Hvs |].
    intros i t Hi. destruct (mapR_lookup _ _ _ Hvs i t Hi) as (v & Hv & Hf).
    exists v. split; [assumption |]. rewrite Hf. split; [| reflexivity].
    apply List.Forall_forall with (x := t) in Hts.
    + destruct (hash_to_vector_returns name t Hts) as (v' & Hv' & Hlen). congruence.
    + apply list_elem_of_In, list_elem_of_lookup. eauto.
Qed.

Lemma well_formed_ascii_text (s : string) : well_formed (ascii_text s).
Proof.
  induction s as [| a s IH]; constructor; [| exact IH].
  destruct a as [[] [] [] [] [] [] [] []]; reflexivity.
Qed.

(** Two texts, encoded in order by the executable numpy. *)
Lemma encode_shape_and_order_witness :
  exists vs,
    @encode Reference.numpy (FallbackEmbeddingModel_new "fallback/text-hash-embedding")
            (Texts [ascii_text "hello world"; [104; 233; 108; 108; 111]])
    = Ok (Vectors vs)
    /\ length vs = 2%nat.
Proof.
  destruct (proj2 (@encode_shape_and_order Reference.numpy reference_numpy_laws
                     "fallback/text-hash-embedding")
              [ascii_text "hello world"; [104; 233; 108; 108; 111]])
    as (vs & H & Hlen & _).
  - repeat constructor.
  - exists vs. split; [exact H | exact Hlen].
Defined.

(** C6. For a well-formed text the seed is below 10^8, so the generator
    accepts it; the drawn vector is divided by its norm when, and only
    when, the norm is strictly positive, and then no division raises; when
    the norm is not strictly positive, zero included, the vector comes back
    as drawn.  So [_hash_to_vector] returns, and with it [encode], on a
    single text and on a sequence. *)
Theorem hash_to_vector_guards_the_division
    {np : NumPy} {laws : NumPyLaws np} (name : string) (t : pystr) :
  well_formed t ->
  let self := FallbackEmbeddingModel_new name in
  exists (seed : Z) (g : RandomState),
    text_hash t = Ok seed /\ 0 <= seed < 10 ^ 8 /\ RandomState_new seed = Ok g
    /\ let drawn := map astype_float32 (fst (rand g 384)) in
       let norm := linalg_norm drawn in
       (gt_zero norm = true ->
        exists scaled, mapR (fun x => truediv x norm) drawn = Ok scaled
                       /\ _hash_to_vector self t = Ok (map item scaled))
       /\ (gt_zero norm = false -> _hash_to_vector self t = Ok (map item drawn))
       /\ (is_zero norm = true -> _hash_to_vector self t = Ok (map item drawn))
       /\ (exists v, encode self (Text t) = Ok (Vector v))
       /\ (forall ts, Forall well_formed ts ->
                      exists vs, encode self (Texts ts) = Ok (Vectors vs)).
Proof.
  intros Ht self.
  destruct (text_hash_ok t Ht) as (seed & Hseed & Hrange).
  destruct (spec_draw_ok seed Hrange) as (g & Hg & _).
  exists seed, g. repeat split; try assumption; try lia.
  - intros Hpos.
    destruct (mapR_ok (fun x => truediv x (linalg_norm (map astype_float32 (fst (rand g 384)))))
                (map astype_float32 (fst (rand g 384)))) as [u Hu].
    { apply List.Forall_forall. intros x _. apply truediv_defined, Hpos. }
    exists u. split; [assumption |].
    unfold _hash_to_vector. rewrite Hseed. cbn [bindR]. rewrite Hg. cbn [bindR].
    cbn [self FallbackEmbeddingModel_new embedding_size].
    rewrite Hpos, Hu. reflexivity.
  - intros Hnot. unfold _hash_to_vector. rewrite Hseed. cbn [bindR]. rewrite Hg. cbn [bindR].
    cbn [self FallbackEmbeddingModel_new embedding_size]. rewrite Hnot. reflexivity.
  - intros Hzero. apply zero_not_positive in Hzero.
    unfold _hash_to_vector. rewrite Hseed. cbn [bindR]. rewrite Hg. cbn [bindR].
    cbn [self FallbackEmbeddingModel_new embedding_size]. rewrite Hzero. reflexivity.
  - destruct (hash_to_vector_returns name t Ht) as (v & Hv & _).
    exists v. cbn [encode]. unfold self. rewrite Hv. reflexivity.
  - intros ts Hts. destruct (hash_to_vector_returns_each name ts Hts) as [vs Hvs].
    exists vs. cbn [encode]. unfold self. rewrite Hvs. reflexivity.
Qed.

(** With the degenerate generator the norm is zero: the zeros come back as
    drawn, though a division by that norm would raise. *)
Lemma hash_to_vector_guards_the_division_witness :
  Reference.div (SpecFloat.S754_zero false) (SpecFloat.S754_zero false)
  = Raise (PyExc "FloatingPointError" "divide by zero encountered in divide")
  /\ @_hash_to_vector Reference.all_zero
        (FallbackEmbeddingModel_new "fallback/text-hash-embedding")
        (ascii_text "hello world")
      = Ok (repeat (SpecFloat.S754_zero false) 384).
Proof.
  split; [reflexivity |].
  assert (Hwf : well_formed (ascii_text "hello world")) by (repeat constructor).
  destruct (@hash_to_vector_guards_the_division Reference.all_zero reference_all_zero_laws
              "fallback/text-hash-embedding" (ascii_text "hello world") Hwf)
    as (seed & g & _ & _ & _ & _ & _ & Hzero & _).
  rewrite Hzero; reflexivity.
Defined.

(** ** What a statement leaves in place *)

Section Frames.
Context {env : Environment}.

#[export] Instance same_preorder {X} (f : Process -> X) : PreOrder (same f).
Proof. split; unfold same; [intros s | intros s1 s2 s3 H1 H2]; congruence. Qed.

#[export] Instance entry_kept_preorder (k : string) : PreOrder (entry_kept k).
Proof. split; unfold entry_kept; [intros s | intros s1 s2 s3 H1 H2]; auto. Qed.

#[export] Instance frame_preorder : PreOrder frame.
Proof.
  split.
  - intros s. repeat split; exists []; rewrite app_nil_r; reflexivity.
  - intros s1 s2 s3 (C1 & [l1 L1] & [c1 K1]) (C2 & [l2 L2] & [c2 K2]).
    repeat split.
    + congruence.
    + exists (l1 ++ l2). rewrite L2, L1, app_assoc. reflexivity.
    + exists (c1 ++ c2). rewrite K2, K1, app_assoc. reflexivity.
Qed.

Section Rules.
Context (R : relation Process) {pre : PreOrder R}.

Lemma preserves_ret {A} (a : A) : preserves R (ret a).
Proof. intros s. reflexivity. Qed.

Lemma preserves_raise {A} (e : exn) : preserves R (@raise _ A e).
Proof. intros s. reflexivity. Qed.

Lemma preserves_gets {A} (f : Process -> A) : preserves R (gets f).
Proof. intros s. reflexivity. Qed.

Lemma preserves_lift {A} (r : result A) : preserves R (lift r).
Proof. intros s. reflexivity. Qed.

Lemma preserves_bind {A B} (m : M A) (k : A -> M B) :
  preserves R m -> (forall a, preserves R (k a)) -> preserves R (bind m k).
Proof.
  intros Hm Hk s. unfold bind. specialize (Hm s).
  destruct (m s) as [[a | e] s1]; cbn in *; [| exact Hm].
  etransitivity; [exact Hm | apply Hk].
Qed.

Lemma preserves_try_catch {A} (c : exn -> bool) (m : M A) (h : exn -> M A) :
  preserves R m -> (forall e, preserves R (h e)) -> preserves R (try_catch c m h).
Proof.
  intros Hm Hh s. unfold try_catch. specialize (Hm s).
  destruct (m s) as [[a | e] s1]; cbn in *; [exact Hm |].
  destruct (c e); [| exact Hm].
  etransitivity; [exact Hm | apply Hh].
Qed.

Lemma preserves_modify (f : Process -> Process) :
  (forall s, R s (f s)) -> preserves R (modify f).
Proof. intros H s. apply H. Qed.

Lemma preserves_external {A} (f : gmap string PyModule -> World -> result A * World) :
  (forall s w, R s (set_world w s)) -> preserves R (external f).
Proof.
  intros H s. unfold external.
  destruct (f (sys_modules s) (world s)) as [r w]. apply H.
Qed.

Lemma preserves_recorded {A} (m : M A) (c : result A -> Call) :
  preserves R m -> (forall s r, R s (set_calls (calls s ++ [c r]) s)) ->
  preserves R (recorded m c).
Proof.
  intros Hm H s. unfold recorded. specialize (Hm s).
  destruct (m s) as [r s1]. cbn in *. etransitivity; [exact Hm | apply H].
Qed.

End Rules.

End Frames.

#[global] Existing Instances same_preorder entry_kept_preorder frame_preorder.

Create HintDb frames.

(** Walks a statement down to its primitive steps; [frames] holds what is
    already known of the statements it is made of. *)
Ltac preserve_step :=
  match goal with
  | |- PreOrder _ => typeclasses eauto
  | |- forall _, _ => intros ?
  | |- preserves _ _ => solve [auto with frames]
  | |- preserves _ (bind _ _) => apply preserves_bind
  | |- preserves _ (try_catch _ _ _) => apply preserves_try_catch
  | |- preserves _ (ret _) => apply preserves_ret
  | |- preserves _ (raise _) => apply preserves_raise
  | |- preserves _ (gets _) => apply preserves_gets
  | |- preserves _ (lift _) => apply preserves_lift
  | |- preserves _ (external _) => apply preserves_external
  | |- preserves _ (recorded _ _) => apply preserves_recorded
  | |- preserves _ (modify _) => apply preserves_modify
  | |- preserves _ (if ?b then _ else _) => destruct b
  | |- preserves _ (match ?x with _ => _ end) => destruct x
  end.

Ltac unfold_steps :=
  unfold get_fallback_embedding_model, FallbackEmbeddingModel_init,
    getattr, MockLZMA_st_patch_getattr, MockLZMA_fallback_embeddings_getattr,
    register_module, record_call,
    initialize_log, st_patch_log, log_to, try_except, try_except_ImportError.

Ltac close_same := unfold same; reflexivity.

Ltac close_frame :=
  repeat split; cbn;
  first [ reflexivity | exists []; rewrite app_nil_r; reflexivity | eexists; reflexivity ].

Ltac close_entry :=
  let H := fresh in
  unfold entry_kept; cbn; intros ? H;
  first
    [ exact H
    | rewrite lookup_insert_ne by (first [ congruence | let E := fresh in intros E; discriminate E ]);
      exact H ].

(** The fields a statement cannot reach keep their value, and the frame
    holds. *)
Ltac preserve closer :=
  unfold py_import, in_sys_modules; unfold_steps; repeat preserve_step; closer.

Section Footprints.
Context {env : Environment}.

(** *** Entries of [sys.modules] *)

(** A statement guarded by [name in sys.modules] may register [name]
    where the name is free: the entry, if there was one, is not
    reached. *)
Lemma entry_kept_in_sys_modules (k n : string) {A} (F : bool -> M A) :
  preserves (entry_kept k) (F true) ->
  (k <> n -> preserves (entry_kept k) (F false)) ->
  preserves (entry_kept k) (bind (in_sys_modules n) F).
Proof.
  intros Ht Hf s. unfold bind, in_sys_modules, gets. cbn.
  destruct (sys_modules s !! n) as [x |] eqn:E.
  - rewrite bool_decide_eq_true_2 by eauto. apply Ht.
  - rewrite bool_decide_eq_false_2 by (intros [x Hx]; discriminate).
    destruct (decide (k = n)) as [-> | Hne]; [| apply Hf, Hne].
    intros m Hm. congruence.
Qed.

Lemma entry_kept_py_import (k n : string) : preserves (entry_kept k) (py_import n).
Proof.
  intros s m Hm. unfold py_import, bind, gets, modify, lift, register_module, ret. cbn.
  destruct (sys_modules s !! n) as [x |] eqn:E; [exact Hm |].
  destruct (load_module n (sys_modules s) (world s)) as [[r loaded] w]. cbn.
  assert (Hu : (sys_modules s ∪ loaded) !! k = Some m) by (apply lookup_union_Some_l, Hm).
  destruct r as [x | e]; cbn; [| exact Hu].
  rewrite lookup_insert_ne; [exact Hu | congruence].
Qed.

End Footprints.

#[global] Hint Resolve entry_kept_py_import : frames.

Ltac entry_step :=
  match goal with
  | |- preserves (entry_kept _) (bind (in_sys_modules _) _) =>
      apply entry_kept_in_sys_modules; [| intros ?]; cbn [negb]
  | _ => preserve_step
  end.

Ltac preserve_entry := unfold_steps; repeat entry_step; close_entry.

Section Footprints2.
Context {env : Environment}.

(** *** st_patch.py *)

Lemma frame_patch_sentence_transformers : preserves frame patch_sentence_transformers.
Proof. unfold patch_sentence_transformers. preserve close_frame. Qed.

Lemma ef_patch_sentence_transformers : preserves (same ef) patch_sentence_transformers.
Proof. unfold patch_sentence_transformers. preserve close_same. Qed.

Lemma function_patch_sentence_transformers :
  preserves (same EMBEDDING_FUNCTION) patch_sentence_transformers.
Proof. unfold patch_sentence_transformers. preserve close_same. Qed.

Lemma entry_patch_sentence_transformers (k : string) :
  preserves (entry_kept k) patch_sentence_transformers.
Proof. unfold patch_sentence_transformers. preserve_entry. Qed.

(** *** fallback_embeddings.py *)

Lemma frame_import_fallback_embeddings : preserves frame import_fallback_embeddings.
Proof.
  unfold import_fallback_embeddings, fallback_embeddings_body. preserve close_frame.
Qed.

Lemma ef_import_fallback_embeddings : preserves (same ef) import_fallback_embeddings.
Proof.
  unfold import_fallback_embeddings, fallback_embeddings_body. preserve close_same.
Qed.

Lemma function_import_fallback_embeddings :
  preserves (same EMBEDDING_FUNCTION) import_fallback_embeddings.
Proof.
  unfold import_fallback_embeddings, fallback_embeddings_body. preserve close_same.
Qed.

Lemma calls_import_fallback_embeddings : preserves (same calls) import_fallback_embeddings.
Proof.
  unfold import_fallback_embeddings, fallback_embeddings_body. preserve close_same.
Qed.

Lemma entry_import_fallback_embeddings (k : string) :
  preserves (entry_kept k) import_fallback_embeddings.
Proof.
  unfold import_fallback_embeddings, fallback_embeddings_body. preserve_entry.
Qed.

Lemma frame_get_fallback_embedding_model : preserves frame get_fallback_embedding_model.
Proof. preserve close_frame. Qed.

Lemma ef_get_fallback_embedding_model : preserves (same ef) get_fallback_embedding_model.
Proof. preserve close_same. Qed.

Lemma function_get_fallback_embedding_model :
  preserves (same EMBEDDING_FUNCTION) get_fallback_embedding_model.
Proof. preserve close_same. Qed.

Lemma entry_get_fallback_embedding_model (k : string) :
  preserves (entry_kept k) get_fallback_embedding_model.
Proof. preserve_entry. Qed.

(** *** initialize.py *)

Lemma frame_import_st_patch : preserves frame import_st_patch.
Proof. unfold import_st_patch. preserve close_frame. Qed.

Lemma ef_import_st_patch : preserves (same ef) import_st_patch.
Proof. unfold import_st_patch. preserve close_same. Qed.

Lemma function_import_st_patch : preserves (same EMBEDDING_FUNCTION) import_st_patch.
Proof. unfold import_st_patch. preserve close_same. Qed.

Lemma calls_import_st_patch : preserves (same calls) import_st_patch.
Proof. unfold import_st_patch. preserve close_same. Qed.

Lemma entry_import_st_patch (k : string) : preserves (entry_kept k) import_st_patch.
Proof. unfold import_st_patch. preserve_entry. Qed.

End Footprints2.

#[global] Hint Resolve
  frame_patch_sentence_transformers ef_patch_sentence_transformers
  function_patch_sentence_transformers entry_patch_sentence_transformers
  frame_import_fallback_embeddings ef_import_fallback_embeddings
  function_import_fallback_embeddings calls_import_fallback_embeddings
  entry_import_fallback_embeddings
  frame_get_fallback_embedding_model ef_get_fallback_embedding_model
  function_get_fallback_embedding_model entry_get_fallback_embedding_model
  frame_import_st_patch ef_import_st_patch function_import_st_patch
  calls_import_st_patch entry_import_st_patch : frames.

Section Footprints3.
Context {env : Environment}.

Lemma frame_patch_if_local : preserves frame patch_if_local.
Proof. unfold patch_if_local. preserve close_frame. Qed.

Lemma ef_patch_if_local : preserves (same ef) patch_if_local.
Proof. unfold patch_if_local. preserve close_same. Qed.

Lemma function_patch_if_local : preserves (same EMBEDDING_FUNCTION) patch_if_local.
Proof. unfold patch_if_local. preserve close_same. Qed.

Lemma entry_patch_if_local (k : string) : preserves (entry_kept k) patch_if_local.
Proof. unfold patch_if_local. preserve_entry. Qed.

Lemma frame_initialize_ef : preserves frame initialize_ef.
Proof. unfold initialize_ef. preserve close_frame. Qed.

Lemma function_initialize_ef : preserves (same EMBEDDING_FUNCTION) initialize_ef.
Proof. unfold initialize_ef. preserve close_same. Qed.

Lemma entry_initialize_ef (k : string) : preserves (entry_kept k) initialize_ef.
Proof. unfold initialize_ef. preserve_entry. Qed.

Lemma frame_initialize_function : preserves frame initialize_function.
Proof. unfold initialize_function. preserve close_frame. Qed.

Lemma ef_initialize_function : preserves (same ef) initialize_function.
Proof. unfold initialize_function. preserve close_same. Qed.

Lemma entry_initialize_function (k : string) : preserves (entry_kept k) initialize_function.
Proof. unfold initialize_function. preserve_entry. Qed.

Lemma frame_final_fallback : preserves frame final_fallback.
Proof. unfold final_fallback. preserve close_frame. Qed.

Lemma ef_final_fallback : preserves (same ef) final_fallback.
Proof. unfold final_fallback. preserve close_same. Qed.

Lemma entry_final_fallback (k : string) : preserves (entry_kept k) final_fallback.
Proof. unfold final_fallback. preserve_entry. Qed.

Lemma frame_minimal_fallback : preserves frame minimal_fallback.
Proof. unfold minimal_fallback. preserve close_frame. Qed.

Lemma ef_minimal_fallback : preserves (same ef) minimal_fallback.
Proof. unfold minimal_fallback. preserve close_same. Qed.

Lemma entry_minimal_fallback (k : string) : preserves (entry_kept k) minimal_fallback.
Proof. unfold minimal_fallback. preserve_entry. Qed.

End Footprints3.

#[global] Hint Resolve
  frame_patch_if_local ef_patch_if_local function_patch_if_local entry_patch_if_local
  frame_initialize_ef function_initialize_ef entry_initialize_ef
  frame_initialize_function ef_initialize_function entry_initialize_function
  frame_final_fallback ef_final_fallback entry_final_fallback
  frame_minimal_fallback ef_minimal_fallback entry_minimal_fallback : frames.

Section Footprints4.
Context {env : Environment}.

Lemma frame_try_block : preserves frame try_block.
Proof. unfold try_block. preserve close_frame. Qed.

Lemma entry_try_block (k : string) : preserves (entry_kept k) try_block.
Proof. unfold try_block. preserve_entry. Qed.

Lemma frame_except_block (e : exn) : preserves frame (except_block e).
Proof. unfold except_block. preserve close_frame. Qed.

Lemma ef_except_block (e : exn) : preserves (same ef) (except_block e).
Proof. unfold except_block. preserve close_same. Qed.

Lemma entry_except_block (k : string) (e : exn) : preserves (entry_kept k) (except_block e).
Proof. unfold except_block. preserve_entry. Qed.

End Footprints4.

#[global] Hint Resolve
  frame_try_block entry_try_block frame_except_block ef_except_block
  entry_except_block : frames.

Section Footprints5.
Context {env : Environment}.

Lemma frame_ensure_embedding_function : preserves frame ensure_embedding_function.
Proof. unfold ensure_embedding_function. preserve close_frame. Qed.

Lemma entry_ensure_embedding_function (k : string) :
  preserves (entry_kept k) ensure_embedding_function.
Proof. unfold ensure_embedding_function. preserve_entry. Qed.

End Footprints5.

(** ** The patch shim, applied again *)

Lemma again_preserves {env : Environment} {A} (R : relation Process) {pre : PreOrder R}
    (m : M A) (n : nat) :
  preserves R m -> forall s, R s (again n m s).
Proof.
  intros Hm. induction n as [| n IH]; intros s; cbn [again]; [reflexivity |].
  etransitivity; [apply Hm | apply IH].
Qed.

(** C8. Once a call of [patch_sentence_transformers] has left an entry
    under ['_lzma'] in [sys.modules], every later call, however many,
    leaves that entry as it is. *)
Theorem patch_again_keeps_lzma_entry {env : Environment} (s : Process) (m : PyModule) :
  sys_modules (snd (patch_sentence_transformers s)) !! "_lzma" = Some m ->
  forall n : nat,
    sys_modules (again n patch_sentence_transformers (snd (patch_sentence_transformers s)))
      !! "_lzma" = Some m.
Proof.
  intros H n.
  exact (again_preserves (entry_kept "_lzma") patch_sentence_transformers n
           (entry_patch_sentence_transformers "_lzma") _ m H).
Qed.

Lemma patch_again_keeps_lzma_entry_witness :
  let s := fresh no_lzma local_config ["sentence_transformers"] in
  sys_modules (again 2 patch_sentence_transformers (snd (patch_sentence_transformers s)))
    !! "_lzma" = Some MockLZMA_st_patch.
Proof.
  intros s.
  apply (@patch_again_keeps_lzma_entry (scripted no_lzma) s MockLZMA_st_patch).
  vm_compute. reflexivity.
Defined.

(** ** The stub modules *)

(** C9, where the code departs from it.  The library is installed, the
    compression module is missing, [backports.lzma] cannot be imported and
    pip fails: the stub that [patch_sentence_transformers] then registers
    as its last resort is the [MockLZMA] of st_patch.py.  Reading any
    attribute of it gives the callable that does nothing and returns
    [None], and [import _lzma] gives the stub, so neither
    [ModuleNotFoundError] nor [AttributeError] is raised; but the access
    leaves the process as it was: no warning is logged.  The [MockLZMA] of
    fallback_embeddings.py logs one. *)
Theorem st_patch_stub_logs_no_warning :
  let s := snd (patch_sentence_transformers (fresh no_lzma local_config ["sentence_transformers"])) in
  sys_modules s !! "_lzma" = Some MockLZMA_st_patch
  /\ py_import "_lzma" s = (Ok MockLZMA_st_patch, s)
  /\ (forall attr : string, getattr MockLZMA_st_patch attr s = (Ok NoopCallable, s))
  /\ (forall (Args : Type) (args : Args), call_NoopCallable args = None)
  /\ (forall attr : string,
        getattr MockLZMA_fallback_embeddings attr s
        = (Ok NoopCallable,
           set_logs (logs s ++ [{| logger := "root"; levelname := WARNING;
                                   message := ("Mock _lzma." ++ attr ++ " was called")%string |}])
                    s)).
Proof.
  intros s. repeat split.
Qed.

(** ** The direct HTTP fallback *)

(** C7, as stated, fails for a status that is neither 2xx nor an error
    code: [raise_for_status] lets a 300 through, and the embeddings of its
    body are returned, not [None]. *)
Lemma try_external_embeddings_returns_on_status_300 :
  let s := fresh multiple_choices local_config [] in
  let run := try_external_embeddings (Text (ascii_text "hello")) (Some "http://embedder/api") s in
  fst (requests_post "http://embedder/api" [ascii_text "hello"] (world s))
  = Ok {| status_code_of := 300;
          json := Ok (JDict {[ "embeddings" := JList [JList [JNumber 1; JNumber 0]] ]}) |}
  /\ (200 <=? 300) && (300 <? 300) = false
  /\ fst run = Ok (JList [JList [JNumber 1; JNumber 0]])
  /\ fst run <> Ok JNone.
Proof.
  intros s run. repeat split. vm_compute. discriminate.
Qed.

(** What the function returns once [api_url] is there, from what the
    request gave. *)
Lemma try_external_embeddings_result {env : Environment}
    (text : texts) (api_url : option string) (s : Process) :
  falsy api_url = false ->
  fst (try_external_embeddings text api_url s)
  = Ok match fst (requests_post (default "" api_url)
                    match text with Text t => [t] | Texts ts => ts end (world s)) with
       | Raise _ => JNone
       | Ok response =>
           if (400 <=? status_code_of response) && (status_code_of response <? 600)
           then JNone
           else match json response with
                | Ok (JDict d) => default JNone (d !! "embeddings")
                | _ => JNone
                end
       end.
Proof.
  intros Hurl. unfold try_external_embeddings. rewrite Hurl.
  unfold try_except, try_catch, bind, external, lift, raise_for_status, ret, log_to, modify.
  destruct (requests_post _ _ (world s)) as [[response | e] w]; cbn [fst snd]; [| reflexivity].
  destruct ((400 <=? status_code_of response) && (status_code_of response <? 600));
    [reflexivity |].
  destruct (json response) as [[| b | n | x | l | d] | e]; cbn [py_contains]; try reflexivity.
  - destruct (is_substring "embeddings" x); reflexivity.
  - destruct (existsb _ l); reflexivity.
  - destruct (d !! "embeddings") as [v |] eqn:Hd.
    + rewrite bool_decide_eq_true_2 by eauto. cbn [py_getitem]. rewrite Hd. reflexivity.
    + rewrite bool_decide_eq_false_2 by (intros [v Hv]; discriminate). reflexivity.
Qed.

(** C7, amended.  [try_external_embeddings] never raises.  It returns
    [None] when [api_url] is absent or empty, when the request raises, when
    the status is a client or server error (400 to 599, the codes
    [raise_for_status] raises for), when the body is not JSON, and when the
    JSON document is not an object or has no key ["embeddings"]; for any
    other status, an object with the key gives the value under it. *)
Theorem try_external_embeddings_never_raises {env : Environment}
    (text : texts) (api_url : option string) (s : Process) :
  let run := try_external_embeddings text api_url s in
  let payload := match text with Text t => [t] | Texts ts => ts end in
  (exists v, fst run = Ok v)
  /\ (falsy api_url = true -> run = (Ok JNone, s))
  /\ (falsy api_url = false ->
      match fst (requests_post (default "" api_url) payload (world s)) with
      | Raise _ => fst run = Ok JNone
      | Ok response =>
          if (400 <=? status_code_of response) && (status_code_of response <? 600)
          then fst run = Ok JNone
          else match json response with
               | Ok (JDict d) => fst run = Ok (default JNone (d !! "embeddings"))
               | _ => fst run = Ok JNone
               end
      end).
Proof.
  intros run payload. subst run payload.
  destruct (falsy api_url) eqn:Hurl.
  - unfold try_external_embeddings. rewrite Hurl.
    repeat split; eauto; discriminate.
  - rewrite (try_external_embeddings_result text api_url s Hurl).
    split; [eauto |]. split; [discriminate |]. intros _.
    destruct (requests_post _ _ (world s)) as [[response | e] w]; cbn [fst]; [| reflexivity].
    destruct ((400 <=? status_code_of response) && (status_code_of response <? 600));
      [reflexivity |].
    destruct (json response) as [[| b | n | x | l | d] | e]; reflexivity.
Qed.

(** ** Initialisation, once both slots are filled *)

(** C4. In the state FunctionReady, where the model slot and the function
    slot are both filled, [ensure_embedding_function] returns [True] at
    once: the process is left exactly as it was, so no construction call
    is made, nothing is logged, and both slots keep their values. *)
Theorem ensure_is_noop_once_ready {env : Environment}
    (s : Process) (m : Model) (f : EmbeddingFunction) :
  ef s = Some m -> EMBEDDING_FUNCTION s = Some f ->
  ensure_embedding_function s = (Ok true, s).
Proof.
  intros Hm Hf. unfold ensure_embedding_function, bind, gets, not_initialized.
  rewrite Hm, Hf. reflexivity.
Qed.

(** A first call initialises a fresh process; the second changes nothing. *)
Lemma ensure_is_noop_once_ready_witness :
  let s := snd (ensure_embedding_function
                  (fresh no_lzma local_config ["sentence_transformers"; "numpy"; "requests"])) in
  ensure_embedding_function s = (Ok true, s).
Proof.
  intros s.
  apply (@ensure_is_noop_once_ready (scripted no_lzma) s
           (HashFallback (FallbackEmbeddingModel_new "fallback/text-hash-embedding"))
           (Wired 1));
    vm_compute; reflexivity.
Defined.

(** ** Runs of the initialiser *)

(** The blocks of initialize.py stay folded when a run is simplified. *)
#[global] Arguments import_fallback_embeddings : simpl never.
#[global] Arguments patch_sentence_transformers : simpl never.
#[global] Arguments import_st_patch : simpl never.
#[global] Arguments patch_if_local : simpl never.
#[global] Arguments initialize_ef : simpl never.
#[global] Arguments initialize_function : simpl never.
#[global] Arguments final_fallback : simpl never.

#[global] Instance quiet_preorder {env : Environment} : PreOrder quiet.
Proof.
  split.
  - intros s. split; [reflexivity |]. exists []. rewrite app_nil_r. split; [reflexivity | constructor].
  - intros s1 s2 s3 (E1 & c1 & K1 & Q1) (E2 & c2 & K2 & Q2). split; [congruence |].
    exists (c1 ++ c2). rewrite K2, K1, app_assoc. split; [reflexivity |].
    apply Forall_app. split; assumption.
Qed.

Ltac close_quiet :=
  split; cbn;
  [ reflexivity
  | first [ exists []; rewrite app_nil_r; split; [reflexivity | constructor]
          | eexists; split; [reflexivity | repeat constructor] ] ].

Lemma quiet_call_counts (c : list Call) :
  Forall quiet_call c ->
  length (List.filter is_get_ef c) = 0%nat /\ length (List.filter is_patch c) = 0%nat.
Proof.
  induction 1 as [| x c Hx _ [IH1 IH2]]; [split; reflexivity |].
  destruct x; cbn in *; try contradiction; split; assumption.
Qed.

Section Runs.
Context {env : Environment}.

Lemma returns_bind {A B} (P : B -> Prop) (m : M A) (k : A -> M B) :
  (forall a, returns P (k a)) -> returns P (bind m k).
Proof.
  intros Hk s b s' H. unfold bind in H.
  destruct (m s) as [[a | e] s1]; [exact (Hk a s1 b s' H) | discriminate].
Qed.

Lemma returns_ret {A} (P : A -> Prop) (a : A) : P a -> returns P (ret a).
Proof. intros H s b s' [= <- _]. exact H. Qed.

Lemma try_block_returns_true : returns (fun b => b = true) try_block.
Proof. unfold try_block. repeat (apply returns_bind; intros ?). apply returns_ret. reflexivity. Qed.

Lemma minimal_fallback_returns_true : returns (fun b => b = true) minimal_fallback.
Proof.
  unfold minimal_fallback. repeat (apply returns_bind; intros ?). apply returns_ret. reflexivity.
Qed.

(** The recovery raises exactly when the construction of the hash model
    does, and with the same exception. *)
Lemma minimal_fallback_raises (s : Process) (e : exn) :
  fst (minimal_fallback s) = Raise e <-> fst (construct_fallback_model s) = Raise e.
Proof.
  unfold minimal_fallback, construct_fallback_model, bind.
  destruct (import_fallback_embeddings s) as [[[] | e0] s1]; cbn.
  - split; discriminate.
  - split; intros [= ->]; reflexivity.
Qed.

(** Once its module is imported, the hash model can be constructed. *)
Lemma construct_fallback_model_imported (s : Process) :
  is_Some (sys_modules s !! fallback_embeddings) ->
  exists m s', construct_fallback_model s = (Ok m, s').
Proof.
  intros H. unfold construct_fallback_model, import_fallback_embeddings, bind, in_sys_modules, gets.
  rewrite bool_decide_eq_true_2 by exact H. cbn. eauto.
Qed.

Lemma bind_Ok {A B} (m : M A) (k : A -> M B) (s : Process) (a : A) (s1 : Process) :
  m s = (Ok a, s1) -> bind m k s = k a s1.
Proof. intros H. unfold bind. rewrite H. reflexivity. Qed.

Lemma bind_Raise {A B} (m : M A) (k : A -> M B) (s : Process) (e : exn) (s1 : Process) :
  m s = (Raise e, s1) -> bind m k s = (Raise e, s1).
Proof. intros H. unfold bind. rewrite H. reflexivity. Qed.

Lemma ensure_unfold (s : Process) :
  not_initialized s = true ->
  ensure_embedding_function s
  = try_except try_block except_block (snd (initialize_log WARNING not_initialized_warning s)).
Proof.
  intros H. unfold ensure_embedding_function, bind, gets. rewrite H. reflexivity.
Qed.

Lemma except_block_unfold (e : exn) (s : Process) :
  except_block e s
  = let s1 := snd (initialize_log ERROR
                     ("Error initializing embedding function: " ++ str_exn e)%string s) in
    match minimal_fallback s1 with
    | (Ok b, s2) => (Ok b, s2)
    | (Raise final_error, s2) =>
        (Raise (HTTPException HTTP_500_INTERNAL_SERVER_ERROR
                  ("Failed to initialize embedding function: " ++ str_exn e)%string),
         snd (initialize_log ERROR
                ("Fatal error initializing any embedding function: "
                 ++ str_exn final_error)%string s2))
    end.
Proof.
  unfold except_block, bind, try_except, try_catch. cbn.
  destruct (minimal_fallback _) as [[b | e'] s2]; reflexivity.
Qed.

End Runs.

Section Outcome.
Context {env : Environment}.

Lemma entry_initialize_log (k : string) (lvl : level) (msg : string) :
  preserves (entry_kept k) (initialize_log lvl msg).
Proof. preserve_entry. Qed.

Lemma quiet_initialize_log (lvl : level) (msg : string) :
  preserves quiet (initialize_log lvl msg).
Proof. preserve close_quiet. Qed.

Lemma logs_initialize_log (lvl : level) (msg : string) (s : Process) :
  logs (snd (initialize_log lvl msg s))
  = logs s ++ [{| logger := "open_webui.retrieval.initialize";
                  levelname := lvl; message := msg |}].
Proof. reflexivity. Qed.

(** What [ensure_embedding_function] gives when a slot is empty. *)
Lemma ensure_outcome (s : Process) :
  not_initialized s = true ->
  let s0 := snd (initialize_log WARNING not_initialized_warning s) in
  (exists b s1, try_block s0 = (Ok b, s1) /\ ensure_embedding_function s = (Ok true, s1))
  \/ (exists e s1,
         try_block s0 = (Raise e, s1)
         /\ let s2 := snd (initialize_log ERROR
                             ("Error initializing embedding function: " ++ str_exn e)%string
                             s1) in
            ((exists s3, minimal_fallback s2 = (Ok true, s3)
                         /\ ensure_embedding_function s = (Ok true, s3))
             \/ (exists final_error s3,
                    minimal_fallback s2 = (Raise final_error, s3)
                    /\ fst (ensure_embedding_function s)
                       = Raise (HTTPException HTTP_500_INTERNAL_SERVER_ERROR
                                  ("Failed to initialize embedding function: "
                                   ++ str_exn e)%string)))).
Proof.
  intros H s0. rewrite (ensure_unfold s H). fold s0. unfold try_except, try_catch.
  destruct (try_block s0) as [[b | e] s1] eqn:Ht.
  - left. exists b, s1. split; [reflexivity |].
    rewrite (try_block_returns_true s0 b s1 Ht). reflexivity.
  - right. exists e, s1. split; [reflexivity |].
    rewrite except_block_unfold. cbv zeta.
    destruct (minimal_fallback _) as [[b | fe] s3] eqn:Hm.
    + left. exists s3. rewrite (minimal_fallback_returns_true _ b s3 Hm). split; reflexivity.
    + right. exists fe, s3. split; reflexivity.
Qed.

End Outcome.

(** Without numpy the module of the hash model cannot be imported: the
    last fallback of the [try] block raises, the recovery raises too, and
    the caller gets the service error. *)
Example ensure_raises_500_without_numpy :
  fst (ensure_embedding_function (fresh no_lzma local_config ["sentence_transformers"]))
  = Raise (HTTPException 500 "Failed to initialize embedding function: No module named numpy").
Proof. vm_compute. reflexivity. Qed.

(** A [True] leaves a function in the slot. *)
Lemma ensure_fills_the_function_slot {env : Environment} (s : Process) :
  fst (ensure_embedding_function s) = Ok true ->
  EMBEDDING_FUNCTION (snd (ensure_embedding_function s)) <> None.
Proof.
  intros Hr. destruct (not_initialized s) eqn:Hinit.
  2: { assert (E : ensure_embedding_function s = (Ok true, s)).
       { unfold ensure_embedding_function, bind, gets. rewrite Hinit. reflexivity. }
       rewrite E. cbn [snd]. unfold not_initialized in Hinit.
       destruct (EMBEDDING_FUNCTION s); [discriminate | discriminate]. }
  assert (Hmin : forall s2 b s3, minimal_fallback s2 = (Ok b, s3) -> EMBEDDING_FUNCTION s3 <> None).
  { intros s2 b s3. unfold minimal_fallback, bind.
    destruct (import_fallback_embeddings s2) as [[[] | e] s4]; [| discriminate].
    cbn. intros [= _ <-]. discriminate. }
  assert (Hfin : forall s2 s3, final_fallback s2 = (Ok tt, s3) -> EMBEDDING_FUNCTION s3 <> None).
  { intros s2 s3. unfold final_fallback, bind, gets.
    destruct (EMBEDDING_FUNCTION s2) as [f |] eqn:E; cbn.
    - intros [= <-]. congruence.
    - destruct (import_fallback_embeddings _) as [[[] | e] s4]; [| discriminate].
      cbn. intros [= <-]. discriminate. }
  destruct (ensure_outcome s Hinit) as
    [(b & s1 & Ht & E) | (e & s1 & Ht & [(s3 & Hm & E) | (fe & s3 & Hm & E)])].
  - rewrite E. cbn [snd]. unfold try_block in Ht.
    unfold bind at 1 in Ht. destruct (patch_if_local _) as [[[] | e] s2]; [| discriminate].
    unfold bind at 1 in Ht. destruct (initialize_ef s2) as [[[] | e] s3]; [| discriminate].
    unfold bind at 1 in Ht. destruct (initialize_function s3) as [[[] | e] s4]; [| discriminate].
    unfold bind at 1 in Ht. destruct (final_fallback s4) as [[[] | e] s5] eqn:Hf; [| discriminate].
    cbn in Ht. injection Ht as _ <-. cbn. exact (Hfin s4 s5 Hf).
  - rewrite E. cbn [snd]. exact (Hmin _ _ _ Hm).
  - rewrite E in Hr. discriminate.
Qed.

(** C5. [ensure_embedding_function] returns [True] or raises an
    [HTTPException] with status 500, whatever the collaborators do.  It
    raises exactly in this case: a slot was empty, the [try] block raised,
    and the construction of the hash model in the handler raised too.  The
    construction can only fail at the import of its module: once that
    module is in [sys.modules], the function returns [True] in every
    case. *)
Theorem ensure_returns_true_or_raises_500 {env : Environment} (s : Process) :
  let r := fst (ensure_embedding_function s) in
  (r = Ok true \/ exists d, r = Raise (HTTPException HTTP_500_INTERNAL_SERVER_ERROR d))
  /\ ((exists d, r = Raise (HTTPException HTTP_500_INTERNAL_SERVER_ERROR d))
      <-> not_initialized s = true
          /\ exists e s1 final_error,
               try_block (snd (initialize_log WARNING not_initialized_warning s)) = (Raise e, s1)
               /\ fst (construct_fallback_model
                         (snd (initialize_log ERROR
                                 ("Error initializing embedding function: " ++ str_exn e)%string
                                 s1)))
                  = Raise final_error)
  /\ (is_Some (sys_modules s !! fallback_embeddings) -> r = Ok true).
Proof.
  intros r. subst r.
  destruct (not_initialized s) eqn:Hinit.
  2: { assert (E : ensure_embedding_function s = (Ok true, s)).
       { unfold ensure_embedding_function, bind, gets. rewrite Hinit. reflexivity. }
       rewrite E. cbn [fst]. split; [left; reflexivity |]. split; [| reflexivity].
       split; [intros [d Hd]; discriminate | intros [Hf _]; discriminate]. }
  destruct (ensure_outcome s Hinit) as
    [(b & s1 & Ht & E) | (e & s1 & Ht & [(s3 & Hm & E) | (fe & s3 & Hm & E)])].
  - rewrite E. cbn [fst]. split; [left; reflexivity |]. split; [| reflexivity].
    split; [intros [d Hd]; discriminate |].
    intros (_ & e & s1' & fe & Ht' & _). rewrite Ht in Ht'. discriminate.
  - rewrite E. cbn [fst]. split; [left; reflexivity |]. split; [| reflexivity].
    split; [intros [d Hd]; discriminate |].
    intros (_ & e' & s1' & fe & Ht' & Hc). rewrite Ht in Ht'. injection Ht' as <- <-.
    apply minimal_fallback_raises in Hc. rewrite Hm in Hc. discriminate.
  - rewrite E. split; [right; eauto |]. split.
    + split; [| eauto]. intros _. split; [reflexivity |].
      exists e, s1, fe. split; [exact Ht |].
      apply minimal_fallback_raises. rewrite Hm. reflexivity.
    + intros Himp. exfalso.
      assert (Hk : is_Some (sys_modules
                              (snd (initialize_log ERROR
                                      ("Error initializing embedding function: "
                                       ++ str_exn e)%string s1))
                              !! fallback_embeddings)).
      { destruct Himp as [x Hx]. exists x.
        apply entry_initialize_log.
        pose proof (entry_try_block fallback_embeddings
                      (snd (initialize_log WARNING not_initialized_warning s)) x) as Hkeep.
        rewrite Ht in Hkeep. apply Hkeep.
        apply entry_initialize_log. exact Hx. }
      destruct (construct_fallback_model_imported _ Hk) as (m & s' & Hc).
      assert (Hr : fst (construct_fallback_model
                          (snd (initialize_log ERROR
                                  ("Error initializing embedding function: "
                                   ++ str_exn e)%string s1))) = Raise fe)
        by (apply minimal_fallback_raises; rewrite Hm; reflexivity).
      rewrite Hc in Hr. discriminate.
Qed.

Section Quiet.
Context {env : Environment}.

Lemma quiet_import_fallback_embeddings : preserves quiet import_fallback_embeddings.
Proof.
  unfold import_fallback_embeddings, fallback_embeddings_body. preserve close_quiet.
Qed.

Lemma quiet_get_fallback_embedding_model : preserves quiet get_fallback_embedding_model.
Proof. preserve close_quiet. Qed.

End Quiet.

#[global] Hint Resolve quiet_import_fallback_embeddings quiet_get_fallback_embedding_model
  quiet_initialize_log : frames.

Section Quiet2.
Context {env : Environment}.

Lemma quiet_initialize_function : preserves quiet initialize_function.
Proof. unfold initialize_function. preserve close_quiet. Qed.

Lemma quiet_final_fallback : preserves quiet final_fallback.
Proof. unfold final_fallback. preserve close_quiet. Qed.

Lemma quiet_except_block (e : exn) : preserves quiet (except_block e).
Proof. unfold except_block, minimal_fallback. preserve close_quiet. Qed.

(** The [try] block, from [initialize_function] on. *)
Lemma quiet_after_initialize_ef :
  preserves quiet
    (let* _ := initialize_function in
     let* _ := final_fallback in
     let* _ := initialize_log INFO "Successfully initialized embedding function" in
     ret true).
Proof.
  pose proof quiet_initialize_function. pose proof quiet_final_fallback.
  repeat preserve_step.
Qed.

Lemma calls_patch_sentence_transformers (s : Process) :
  calls (snd (patch_sentence_transformers s))
  = calls s ++ [Called_patch_sentence_transformers].
Proof.
  unfold patch_sentence_transformers. unfold bind at 1. cbn [record_call modify].
  match goal with
  | |- calls (snd (?k ?s1)) = _ =>
      assert (Hk : preserves (same calls) k) by preserve close_same;
      rewrite (Hk s1)
  end.
  reflexivity.
Qed.

Lemma import_st_patch_returns (s : Process) :
  exists s', import_st_patch s = (Ok tt, s').
Proof.
  unfold import_st_patch, bind, in_sys_modules, gets.
  destruct (bool_decide _); eexists; reflexivity.
Qed.

Lemma calls_patch_if_local (s : Process) :
  calls (snd (patch_if_local s))
  = calls s ++ (if (RAG_EMBEDDING_ENGINE (config s) =? "")%string
                then [Called_patch_sentence_transformers] else []).
Proof.
  unfold patch_if_local, bind, gets.
  destruct (RAG_EMBEDDING_ENGINE (config s) =? "")%string; [| cbn; rewrite app_nil_r; reflexivity].
  pose proof (calls_import_st_patch s) as Hi. unfold same in Hi.
  destruct (import_st_patch_returns s) as [s1 E]. rewrite E in *. cbn [snd] in Hi.
  pose proof (calls_patch_sentence_transformers s1) as Hp.
  destruct (patch_sentence_transformers s1) as [[b | e] s2]; cbn [snd ret] in *;
    rewrite Hp, Hi; reflexivity.
Qed.

End Quiet2.

Section PrimaryConstruction.
Context {env : Environment}.

(** With the model slot empty, [initialize_ef] calls [get_ef] once, and
    after it at most [get_fallback_embedding_model]; the hash model ends
    in the slot only when [get_ef] returned [None], and then it was
    constructed right after that call. *)
Lemma initialize_ef_run (s : Process) :
  ef s = None ->
  exists r tl,
    calls (snd (initialize_ef s))
    = calls s ++ Called_get_ef (RAG_EMBEDDING_ENGINE (config s)) (RAG_EMBEDDING_MODEL (config s))
                               RAG_EMBEDDING_MODEL_AUTO_UPDATE r :: tl
    /\ Forall quiet_call tl
    /\ (forall m, ef (snd (initialize_ef s)) = Some (HashFallback m) ->
                  r = Ok None /\ tl = [Called_get_fallback_embedding_model]).
Proof.
  intros Hef. unfold initialize_ef, bind, gets. rewrite Hef. cbn [is_None].
  unfold recorded, external, initialize_log, log_to, modify. cbn.
  destruct (get_ef _ _ _ _ _) as [[[x |] | e] w]; cbn.
  - eexists _, []. split; [reflexivity |]. split; [constructor |]. intros m [=].
  - unfold try_except, try_catch, bind.
    match goal with
    | |- context [import_fallback_embeddings ?S] =>
        pose proof (calls_import_fallback_embeddings S) as Hc;
        pose proof (ef_import_fallback_embeddings S) as He;
        unfold same in Hc, He;
        destruct (import_fallback_embeddings S) as [[[] | e] s1]
    end; cbn in *.
    + eexists _, [_]. rewrite Hc. split; [rewrite <- app_assoc; reflexivity |].
      split; [repeat constructor |]. intros m _. split; reflexivity.
    + eexists _, []. rewrite Hc. split; [reflexivity |]. split; [constructor |].
      intros m Hm. rewrite He in Hm. discriminate.
  - eexists _, []. split; [reflexivity |]. split; [constructor |].
    intros m Hm. rewrite Hef in Hm. discriminate.
Qed.

(** A run that starts with the model slot empty: the shim when the engine
    is the local one, then, unless the shim raised, [initialize_ef]; all
    that follows is quiet. *)
Lemma ensure_run_from_empty_model (s : Process) :
  ef s = None ->
  let s0 := snd (initialize_log WARNING not_initialized_warning s) in
  let s1 := snd (patch_if_local s0) in
  ef s1 = None
  /\ ((exists e, fst (patch_if_local s0) = Raise e
                 /\ quiet s1 (snd (ensure_embedding_function s)))
      \/ (fst (patch_if_local s0) = Ok tt
          /\ quiet (snd (initialize_ef s1)) (snd (ensure_embedding_function s)))).
Proof.
  intros Hef s0 s1.
  assert (H1 : ef s1 = None).
  { subst s1. rewrite (ef_patch_if_local s0). exact Hef. }
  split; [exact H1 |].
  rewrite ensure_unfold by (unfold not_initialized; rewrite Hef; apply orb_true_r).
  fold s0. unfold try_except, try_catch, try_block. subst s1.
  destruct (patch_if_local s0) as [[[] | e] s1] eqn:Hp; cbn [fst snd] in *.
  - right. split; [reflexivity |]. rewrite (bind_Ok _ _ _ _ _ Hp).
    destruct (initialize_ef s1) as [[[] | e] s2] eqn:Hi; cbn [fst snd].
    + rewrite (bind_Ok _ _ _ _ _ Hi).
      pose proof (quiet_after_initialize_ef s2) as Hq.
      destruct (bind initialize_function _ s2) as [[b | e] s3]; cbn [snd] in *; [exact Hq |].
      etransitivity; [exact Hq |]. apply quiet_except_block.
    + rewrite (bind_Raise _ _ _ _ _ Hi). apply quiet_except_block.
  - left. exists e. split; [reflexivity |].
    rewrite (bind_Raise _ _ _ _ _ Hp). apply quiet_except_block.
Qed.

End PrimaryConstruction.

(** ** The local engine: the shim first, one primary construction *)

(** C3, as stated, fails.  The engine is the local one and [get_ef] returns
    no model: the shim ran before that one call, [get_ef] is not called
    again, and the hash model is constructed right after the one failed
    attempt. *)
Lemma local_engine_does_not_retry :
  let s := fresh no_lzma local_config ["sentence_transformers"; "numpy"; "requests"] in
  let s' := snd (ensure_embedding_function s) in
  RAG_EMBEDDING_ENGINE (config s) = ""
  /\ calls s'
     = [Called_patch_sentence_transformers;
        Called_get_ef "" "sentence-transformers/all-MiniLM-L6-v2" false (Ok None);
        Called_get_fallback_embedding_model;
        Called_get_embedding_function
          "" "sentence-transformers/all-MiniLM-L6-v2"
          (HashFallback (FallbackEmbeddingModel_new "fallback/text-hash-embedding"))
          "http://localhost:11434" "" 1 (Ok 1)]
  /\ retried_after_patch (calls s') = false
  /\ ef s' = Some (HashFallback (FallbackEmbeddingModel_new "fallback/text-hash-embedding")).
Proof. repeat split. Qed.

(** C3, amended.  With the local engine configured and the model slot
    empty, the shim is applied first, before any construction; it is not
    applied again; [get_ef] is called at most once, so never retried, and
    exactly once, right after the shim, unless the shim raised; when the
    shim raised, [get_ef] is not called at all; and the hash model ends in
    the model slot only if that one call returned no model, the hash model
    being constructed right after it. *)
Theorem local_engine_patches_first_and_constructs_once {env : Environment} (s : Process) :
  RAG_EMBEDDING_ENGINE (config s) = "" -> ef s = None ->
  let s' := snd (ensure_embedding_function s) in
  exists rest,
    calls s' = calls s ++ Called_patch_sentence_transformers :: rest
    /\ length (List.filter is_patch rest) = 0%nat
    /\ (length (List.filter is_get_ef rest) <= 1)%nat
    /\ (fst (patch_if_local (snd (initialize_log WARNING not_initialized_warning s))) = Ok tt ->
        exists r post,
          rest = Called_get_ef "" (RAG_EMBEDDING_MODEL (config s))
                               RAG_EMBEDDING_MODEL_AUTO_UPDATE r :: post)
    /\ (forall e,
          fst (patch_if_local (snd (initialize_log WARNING not_initialized_warning s)))
          = Raise e ->
          length (List.filter is_get_ef rest) = 0%nat)
    /\ (forall m, ef s' = Some (HashFallback m) ->
                  exists post,
                    rest = Called_get_ef "" (RAG_EMBEDDING_MODEL (config s))
                                         RAG_EMBEDDING_MODEL_AUTO_UPDATE (Ok None)
                           :: Called_get_fallback_embedding_model :: post).
Proof.
  intros Hengine Hef s'. subst s'.
  destruct (ensure_run_from_empty_model s Hef) as (H1 & Hrun).
  set (s0 := snd (initialize_log WARNING not_initialized_warning s)) in *.
  set (s1 := snd (patch_if_local s0)) in *.
  assert (Hcfg : config s1 = config s).
  { destruct (frame_patch_if_local s0) as (C & _). fold s1 in C. rewrite C. reflexivity. }
  assert (Hcalls : calls s1 = calls s ++ [Called_patch_sentence_transformers]).
  { subst s1. rewrite calls_patch_if_local.
    change (config s0) with (config s). rewrite Hengine. reflexivity. }
  destruct Hrun as [(e & Hraised & Hq) | (Hreturned & Hq)].
  - destruct Hq as (He & c & Hc & Qc). exists c.
    destruct (quiet_call_counts c Qc) as (G & P).
    split; [rewrite Hc, Hcalls, <- app_assoc; reflexivity |].
    split; [exact P |]. split; [lia |].
    split; [intros Hok; fold s0 in Hok; rewrite Hraised in Hok; discriminate |].
    split; [intros e' _; exact G |].
    intros m Hm. rewrite He, H1 in Hm. discriminate.
  - destruct (initialize_ef_run s1 H1) as (r & tl & Ht & Qt & Hh).
    destruct Hq as (He & c & Hc & Qc).
    exists (Called_get_ef (RAG_EMBEDDING_ENGINE (config s1)) (RAG_EMBEDDING_MODEL (config s1))
                          RAG_EMBEDDING_MODEL_AUTO_UPDATE r :: tl ++ c).
    assert (Qtc : Forall quiet_call (tl ++ c)) by (apply Forall_app; split; assumption).
    destruct (quiet_call_counts _ Qtc) as (G & P).
    split; [rewrite Hc, Ht, Hcalls, <- !app_assoc; reflexivity |].
    split; [cbn; exact P |]. split; [cbn; lia |].
    split; [intros _; exists r, (tl ++ c); rewrite Hcfg, Hengine; reflexivity |].
    split; [intros e' He'; fold s0 in He'; rewrite Hreturned in He'; discriminate |].
    intros m Hm. rewrite He in Hm. destruct (Hh m Hm) as (-> & ->).
    exists c. rewrite Hcfg, Hengine. reflexivity.
Qed.

(** The shim raises (a library without [__version__]): [get_ef] is not
    called. *)
Example local_engine_shim_raises :
  let s0 := snd (initialize_log WARNING not_initialized_warning unversioned) in
  fst (patch_if_local s0)
  = Raise (PyExc "AttributeError" "module has no attribute __version__")
  /\ calls (snd (ensure_embedding_function unversioned)) = [Called_patch_sentence_transformers].
Proof. vm_compute. repeat split. Qed.

Lemma local_engine_patches_first_and_constructs_once_witness :
  let s := fresh no_lzma local_config ["sentence_transformers"; "numpy"; "requests"] in
  exists rest,
    calls (snd (ensure_embedding_function s)) = Called_patch_sentence_transformers :: rest
    /\ (length (List.filter is_get_ef rest) <= 1)%nat.
Proof.
  intros s.
  destruct (@local_engine_patches_first_and_constructs_once (scripted no_lzma) s
              eq_refl eq_refl) as (rest & Hc & _ & Hg & _ & _).
  exists rest. split; [exact Hc | exact Hg].
Defined.

(** ** The guard: both slots *)

Section Guard.
Context {env : Environment}.

Lemma not_initialized_false (s : Process) :
  not_initialized s = false <-> ef s <> None /\ EMBEDDING_FUNCTION s <> None.
Proof.
  unfold not_initialized.
  destruct (ef s), (EMBEDDING_FUNCTION s); cbn; split; intros H;
    try discriminate; try reflexivity;
    try (destruct H; congruence); split; discriminate.
Qed.

(** With a slot empty, the initialisation is entered: its warning is
    logged. *)
Lemma ensure_logs_warning (s : Process) :
  not_initialized s = true ->
  exists more, logs (snd (ensure_embedding_function s)) = logs s ++ warning_record :: more.
Proof.
  intros H. rewrite (ensure_unfold s H).
  assert (Hf : preserves frame (try_except try_block except_block))
    by (unfold try_except; repeat preserve_step).
  destruct (Hf (snd (initialize_log WARNING not_initialized_warning s))) as (_ & [l Hl] & _).
  exists l. rewrite Hl, logs_initialize_log, <- app_assoc. reflexivity.
Qed.

Lemma ensure_skips_iff (s : Process) :
  ensure_embedding_function s = (Ok true, s) <-> not_initialized s = false.
Proof.
  split.
  - intros E. destruct (not_initialized s) eqn:H; [| reflexivity].
    destruct (ensure_logs_warning s H) as [more Hl]. rewrite E in Hl. cbn [snd] in Hl.
    apply (f_equal (@length _)) in Hl. rewrite length_app in Hl. cbn in Hl. lia.
  - intros H. unfold ensure_embedding_function, bind, gets. rewrite H. reflexivity.
Qed.

End Guard.

(** C10. [ensure_embedding_function] leaves the process untouched exactly
    when both slots are filled.  With [EMBEDDING_FUNCTION] filled and [ef]
    empty it initialises again: the warning is logged and, unless the shim
    raises, [get_ef] is called.  That can replace the function in place:
    where [get_ef] raises on the first call, the first call recovers with
    the minimal fallback function and leaves [ef] empty, and the second
    call puts the function [get_embedding_function] returns in its
    place. *)
Theorem ensure_skips_only_when_both_slots_are_filled :
  (forall (env : Environment) (s : Process),
      ensure_embedding_function s = (Ok true, s)
      <-> ef s <> None /\ EMBEDDING_FUNCTION s <> None)
  /\ (forall (env : Environment) (s : Process) (f : EmbeddingFunction),
         ef s = None -> EMBEDDING_FUNCTION s = Some f ->
         let s' := snd (ensure_embedding_function s) in
         (exists more, logs s' = logs s ++ warning_record :: more)
         /\ ((exists e, fst (patch_if_local
                               (snd (initialize_log WARNING not_initialized_warning s)))
                        = Raise e)
             \/ exists pre r post,
                 calls s' = calls s ++ pre
                            ++ Called_get_ef (RAG_EMBEDDING_ENGINE (config s))
                                             (RAG_EMBEDDING_MODEL (config s))
                                             RAG_EMBEDDING_MODEL_AUTO_UPDATE r :: post))
  /\ (let s1 := snd (@ensure_embedding_function flaky flaky_fresh) in
      let s2 := snd (ensure_embedding_function s1) in
      fst (@ensure_embedding_function flaky flaky_fresh) = Ok true
      /\ ef s1 = None
      /\ EMBEDDING_FUNCTION s1
         = Some (FallbackWrapper (FallbackEmbeddingModel_new "fallback/text-hash-embedding"))
      /\ fst (ensure_embedding_function s1) = Ok true
      /\ ef s2 = Some (Primary {| em_id := 7; em_has_encode := true |})
      /\ EMBEDDING_FUNCTION s2 = Some (Wired 42)).
Proof.
  split; [| split].
  - intros env s. rewrite ensure_skips_iff. apply not_initialized_false.
  - intros env s f Hef Hf s'. subst s'. split.
    + apply ensure_logs_warning. unfold not_initialized. rewrite Hef. apply orb_true_r.
    + destruct (ensure_run_from_empty_model s Hef) as (H1 & Hrun).
      set (s0 := snd (initialize_log WARNING not_initialized_warning s)) in *.
      set (s1 := snd (patch_if_local s0)) in *.
      destruct Hrun as [(e & He & _) | (_ & Hq)]; [left; eauto | right].
      destruct (frame_patch_if_local s0) as (C & _ & [pre Hpre]). fold s1 in C, Hpre.
      destruct (initialize_ef_run s1 H1) as (r & tl & Ht & _).
      destruct Hq as (_ & c & Hc & _).
      exists pre, r, (tl ++ c).
      rewrite Hc, Ht, Hpre, C. change (calls s0) with (calls s). change (config s0) with (config s).
      rewrite <- !app_assoc. reflexivity.
  - vm_compute. repeat split.
Qed.

(** * More of the three modules *)

(** ** The hash embedder: what it rejects, and batches *)

Lemma mapR_raises {A B} (f : A -> result B) (l : list A) (e : exn) :
  mapR f l = Raise e -> exists x, In x l /\ f x = Raise e.
Proof.
  induction l as [| x l IH]; [discriminate |]. cbn [mapR].
  destruct (f x) as [y | e0] eqn:Hx; cbn [bindR].
  - destruct (mapR f l) as [ys | e1]; cbn [bindR]; [discriminate |].
    intros [= <-]. destruct (IH eq_refl) as (x' & Hin & Hx'). exists x'. split; [right |]; assumption.
  - intros [= <-]. exists x. split; [left; reflexivity | assumption].
Qed.

Lemma mapR_all_ok {A B} (f : A -> result B) (l : list A) (ys : list B) :
  mapR f l = Ok ys -> Forall (fun x => exists y, f x = Ok y) l.
Proof.
  revert ys. induction l as [| x l IH]; intros ys H; [constructor |].
  apply mapR_inv_cons in H as (y & ys' & Hy & H & _). constructor; eauto.
Qed.

Lemma mapR_app {A B} (f : A -> result B) (a b : list A) :
  mapR f (a ++ b)
  = let+ ya := mapR f a in let+ yb := mapR f b in Ok (ya ++ yb).
Proof.
  induction a as [| x a IH]; cbn [mapR app bindR].
  - destruct (mapR f b); reflexivity.
  - destruct (f x) as [y | e]; cbn [bindR]; [| reflexivity].
    rewrite IH. destruct (mapR f a) as [ya | e]; cbn [bindR]; [| reflexivity].
    destruct (mapR f b); reflexivity.
Qed.

Lemma utf8_char_inv (c : Z) :
  match utf8_char c with
  | Ok _ => is_scalar_value c = true
  | Raise e => is_scalar_value c = false /\ e = UnicodeEncodeError
  end.
Proof.
  unfold utf8_char. destruct (is_scalar_value c); cbn [negb]; [| split; reflexivity].
  repeat match goal with |- context [if ?b then _ else _] => destruct b end; reflexivity.
Qed.

Lemma encode_utf8_inv (t : pystr) :
  match encode_utf8 t with
  | Ok _ => well_formed t
  | Raise e => ~ well_formed t /\ e = UnicodeEncodeError
  end.
Proof.
  unfold encode_utf8. destruct (mapR utf8_char t) as [bss | e] eqn:H; cbn [bindR].
  - apply mapR_all_ok in H. eapply Forall_impl; [exact H |].
    intros c [bs Hc]. pose proof (utf8_char_inv c) as Hi. rewrite Hc in Hi. exact Hi.
  - apply mapR_raises in H as (c & Hin & Hc).
    pose proof (utf8_char_inv c) as Hi. rewrite Hc in Hi. destruct Hi as [Hs ->].
    split; [| reflexivity]. intros Hw.
    apply (proj1 (List.Forall_forall _ _) Hw) in Hin. congruence.
Qed.

Section Rejections.
Context {np : NumPy}.

(** A text the embedder returns a vector for is one UTF-8 can encode. *)
Lemma hash_to_vector_ok_inv (self : FallbackEmbeddingModel) (t : pystr) (v : list float64) :
  _hash_to_vector self t = Ok v -> well_formed t.
Proof.
  unfold _hash_to_vector, text_hash. pose proof (encode_utf8_inv t) as Hi.
  destruct (encode_utf8 t) as [bs | e]; [intros _; exact Hi | discriminate].
Qed.

Lemma hash_to_vector_ill_formed (self : FallbackEmbeddingModel) (t : pystr) :
  ~ well_formed t -> _hash_to_vector self t = Raise UnicodeEncodeError.
Proof.
  intros Hn. unfold _hash_to_vector, text_hash. pose proof (encode_utf8_inv t) as Hi.
  destruct (encode_utf8 t) as [bs | e]; [contradiction |].
  destruct Hi as [_ ->]. reflexivity.
Qed.

Lemma hash_to_vector_raises {laws : NumPyLaws np} (name : string) (t : pystr) (e : exn) :
  _hash_to_vector (FallbackEmbeddingModel_new name) t = Raise e ->
  ~ well_formed t /\ e = UnicodeEncodeError.
Proof.
  intros H. pose proof (encode_utf8_inv t) as Hi.
  destruct (encode_utf8 t) as [bs | e0] eqn:Hb.
  - destruct (hash_to_vector_returns name t Hi) as (v & Hv & _). congruence.
  - destruct Hi as [Hn ->]. split; [exact Hn |].
    rewrite (hash_to_vector_ill_formed _ t Hn) in H. congruence.
Qed.

End Rejections.

(** X1. With a numpy that keeps its contract, [encode] raises for exactly
    the inputs that hold a string UTF-8 cannot encode (a lone surrogate, a
    code point out of range), and what it raises is [UnicodeEncodeError]:
    no other exception leaves the hash embedder, and every other input
    gets its vectors. *)
Theorem encode_raises_exactly_on_ill_formed_text {np : NumPy} {laws : NumPyLaws np}
    (name : string) (input : texts) (e : exn) :
  encode (FallbackEmbeddingModel_new name) input = Raise e
  <-> ~ Forall well_formed (strings input) /\ e = UnicodeEncodeError.
Proof.
  split.
  - destruct input as [t | ts]; cbn [encode strings].
    + destruct (_hash_to_vector _ t) as [v | e0] eqn:H; cbn [bindR]; [discriminate |].
      intros [= <-]. destruct (hash_to_vector_raises name t e0 H) as [Hn ->].
      split; [| reflexivity]. intros Hw. apply Hn. inversion Hw; assumption.
    + destruct (mapR _ ts) as [vs | e0] eqn:H; cbn [bindR]; [discriminate |].
      intros [= <-]. apply mapR_raises in H as (t & Hin & Ht).
      destruct (hash_to_vector_raises name t e0 Ht) as [Hn ->].
      split; [| reflexivity]. intros Hw. apply Hn.
      exact (proj1 (List.Forall_forall _ _) Hw t Hin).
  - intros [Hn ->]. destruct input as [t | ts]; cbn [encode strings] in *.
    + rewrite hash_to_vector_ill_formed; [reflexivity |].
      intros Hw. apply Hn. repeat constructor. exact Hw.
    + destruct (mapR _ ts) as [vs | e0] eqn:H; cbn [bindR].
      * exfalso. apply Hn. apply mapR_all_ok in H. eapply Forall_impl; [exact H |].
        intros t [v Hv]. exact (hash_to_vector_ok_inv _ t v Hv).
      * apply mapR_raises in H as (t & _ & Ht).
        destruct (hash_to_vector_raises name t e0 Ht) as [_ ->]. reflexivity.
Qed.

(** A batch whose second string ends in a lone surrogate. *)
Lemma encode_raises_exactly_on_ill_formed_text_witness :
  @encode Reference.numpy (FallbackEmbeddingModel_new "fallback/text-hash-embedding")
          (Texts [ascii_text "hello"; [104; 0xDC00]])
  = Raise UnicodeEncodeError.
Proof.
  apply (@encode_raises_exactly_on_ill_formed_text Reference.numpy reference_numpy_laws).
  split; [| reflexivity].
  intros H.
  apply (proj1 (List.Forall_forall _ _)) with (x := [104; 0xDC00]) in H;
    [| right; left; reflexivity].
  apply (proj1 (List.Forall_forall _ _)) with (x := 0xDC00) in H;
    [discriminate H | right; left; reflexivity].
Defined.

(** X2. [encode] of a list is the list of the encodings of its strings:
    a batch can be cut anywhere and the parts encoded apart, down to single
    strings, and the vectors put back in order are those of the whole
    batch.  The empty list gives the empty list, numpy untouched. *)
Theorem encode_of_a_batch_is_the_batches_of_its_parts {np : NumPy}
    (self : FallbackEmbeddingModel) :
  (forall (a b : list pystr) (vs : list (list float64)),
      encode self (Texts (a ++ b)) = Ok (Vectors vs)
      <-> exists va vb,
            encode self (Texts a) = Ok (Vectors va)
            /\ encode self (Texts b) = Ok (Vectors vb)
            /\ vs = va ++ vb)
  /\ (forall (t : pystr) (v : list float64),
         encode self (Texts [t]) = Ok (Vectors [v]) <-> encode self (Text t) = Ok (Vector v))
  /\ encode self (Texts []) = Ok (Vectors []).
Proof.
  split; [| split; [| reflexivity]].
  - intros a b vs. cbn [encode]. rewrite mapR_app.
    destruct (mapR _ a) as [va | e]; cbn [bindR].
    + destruct (mapR _ b) as [vb | e]; cbn [bindR].
      * split.
        -- intros [= <-]. exists va, vb. repeat split.
        -- intros (va' & vb' & [= <-] & [= <-] & ->). reflexivity.
      * split; [discriminate |]. intros (va' & vb' & _ & H & _). discriminate H.
    + split; [discriminate |]. intros (va' & vb' & H & _). discriminate H.
  - intros t v. cbn [encode mapR].
    destruct (_hash_to_vector self t) as [v0 | e]; cbn [bindR].
    + split; intros [= <-]; reflexivity.
    + split; discriminate.
Qed.

(** ** The two slots *)

#[global] Instance model_kept_preorder {env : Environment} : PreOrder model_kept.
Proof. split; unfold model_kept; [intros s | intros s1 s2 s3 H1 H2]; auto. Qed.

#[global] Instance function_kept_filled_preorder {env : Environment} :
  PreOrder function_kept_filled.
Proof. split; unfold function_kept_filled; [intros s | intros s1 s2 s3 H1 H2]; auto. Qed.

#[global] Instance stays_well_built_preorder {env : Environment} : PreOrder stays_well_built.
Proof. split; unfold stays_well_built; [intros s | intros s1 s2 s3 H1 H2]; auto. Qed.

Ltac close_model_kept := unfold model_kept; cbn; auto.

Ltac close_function_kept :=
  unfold function_kept_filled; cbn; first [ intros _; discriminate | auto ].

Ltac close_well_built := unfold stays_well_built, well_built; cbn; auto.

Section Kept.
Context {env : Environment}.

Lemma model_kept_of_same {A} (m : M A) : preserves (same ef) m -> preserves model_kept m.
Proof. intros H s x Hx. rewrite (H s). exact Hx. Qed.

Lemma function_kept_of_same {A} (m : M A) :
  preserves (same EMBEDDING_FUNCTION) m -> preserves function_kept_filled m.
Proof. intros H s Hs. rewrite (H s). exact Hs. Qed.

Lemma well_built_of_same {A} (m : M A) :
  preserves (same ef) m -> preserves (same EMBEDDING_FUNCTION) m ->
  preserves stays_well_built m.
Proof.
  intros He Hf s. unfold stays_well_built, well_built. rewrite (He s), (Hf s). auto.
Qed.

(** [initialize_ef] with a model in the slot: nothing happens. *)
Lemma initialize_ef_skips (s : Process) (m : Model) :
  ef s = Some m -> initialize_ef s = (Ok tt, s).
Proof. intros H. unfold initialize_ef, bind, gets. rewrite H. reflexivity. Qed.

Lemma model_kept_initialize_ef : preserves model_kept initialize_ef.
Proof. intros s m Hm. rewrite (initialize_ef_skips s m Hm). exact Hm. Qed.

(** The hash model [initialize_ef] puts in the slot is the one the
    constructor builds. *)
Lemma initialize_ef_hash_model (s : Process) (m : FallbackEmbeddingModel) :
  ef s = None -> ef (snd (initialize_ef s)) = Some (HashFallback m) ->
  m = FallbackEmbeddingModel_new "fallback/text-hash-embedding".
Proof.
  intros Hef. unfold initialize_ef, bind, gets. rewrite Hef. cbn [is_None].
  unfold recorded, external, initialize_log, log_to, modify. cbn.
  destruct (get_ef _ _ _ _ _) as [[[x |] | e] w]; cbn.
  - intros [=].
  - unfold try_except, try_catch, bind.
    match goal with
    | |- context [import_fallback_embeddings ?S] =>
        pose proof (ef_import_fallback_embeddings S) as He; unfold same in He;
        destruct (import_fallback_embeddings S) as [[[] | e] s1]
    end; cbn in *.
    + intros [= <-]. reflexivity.
    + rewrite He. intros [=].
  - rewrite Hef. intros [=].
Qed.

Lemma well_built_initialize_ef : preserves stays_well_built initialize_ef.
Proof.
  intros s Hw. destruct (ef s) as [m |] eqn:Hef.
  - rewrite (initialize_ef_skips s m Hef). exact Hw.
  - destruct Hw as (_ & H2 & H3). pose proof (function_initialize_ef s) as Hf.
    unfold same in Hf. unfold well_built. rewrite Hf. split; [| split].
    + intros m Hm. rewrite (initialize_ef_hash_model s m Hef Hm). reflexivity.
    + exact H2.
    + intros Hd. destruct (H3 Hd) as (m & Hm & _). congruence.
Qed.

(** What [initialize_function] leaves in the function slot: what was
    there, or the function [get_embedding_function] returned, or the direct
    wrapper over a model that has [encode]. *)
Lemma initialize_function_slot (s : Process) :
  let s' := snd (initialize_function s) in
  EMBEDDING_FUNCTION s' = EMBEDDING_FUNCTION s
  \/ (exists handle, EMBEDDING_FUNCTION s' = Some (Wired handle))
  \/ (EMBEDDING_FUNCTION s' = Some DirectWrapper
      /\ exists m, ef s = Some m /\ hasattr_encode m = true).
Proof.
  unfold initialize_function, bind, gets.
  destruct (ef s) as [model |] eqn:Hef; [| left; reflexivity].
  unfold try_except, try_catch, bind, gets, recorded, external, initialize_log, log_to, modify.
  cbn. destruct (get_embedding_function _ _ _ _ _ _ _ _) as [[handle | e] w]; cbn.
  - right. left. eauto.
  - rewrite Hef. destruct (hasattr_encode model) eqn:Hh; cbn.
    + right. right. split; [reflexivity |]. eauto.
    + left. reflexivity.
Qed.

Lemma function_kept_initialize_function : preserves function_kept_filled initialize_function.
Proof.
  intros s Hs. destruct (initialize_function_slot s) as [E | [[h E] | [E _]]];
    rewrite E; [exact Hs | discriminate | discriminate].
Qed.

Lemma well_built_initialize_function : preserves stays_well_built initialize_function.
Proof.
  intros s (H1 & H2 & H3). pose proof (ef_initialize_function s) as He. unfold same in He.
  unfold well_built. rewrite He. split; [exact H1 |].
  destruct (initialize_function_slot s) as [E | [[h E] | [E Hm]]]; rewrite E.
  - split; assumption.
  - split; [intros m [=] | intros [=]].
  - split; [intros m [=] | intros _; exact Hm].
Qed.

(** The function slot after the hash model was put behind the fallback
    wrapper, by the last fallback of the [try] block or by the handler. *)
Lemma final_fallback_slot (s : Process) :
  let s' := snd (final_fallback s) in
  EMBEDDING_FUNCTION s' = EMBEDDING_FUNCTION s
  \/ EMBEDDING_FUNCTION s'
     = Some (FallbackWrapper (FallbackEmbeddingModel_new "fallback/text-hash-embedding")).
Proof.
  unfold final_fallback, bind, gets.
  destruct (EMBEDDING_FUNCTION s) as [f |] eqn:Hf; cbn [is_None]; [left; exact Hf |].
  unfold initialize_log, log_to, modify.
  match goal with
  | |- context [import_fallback_embeddings ?S] =>
      pose proof (function_import_fallback_embeddings S) as Hi; unfold same in Hi;
      destruct (import_fallback_embeddings S) as [[[] | e] s1]
  end; cbn in *.
  - right. reflexivity.
  - left. rewrite Hi. exact Hf.
Qed.

Lemma minimal_fallback_slot (s : Process) :
  let s' := snd (minimal_fallback s) in
  EMBEDDING_FUNCTION s' = EMBEDDING_FUNCTION s
  \/ EMBEDDING_FUNCTION s'
     = Some (FallbackWrapper (FallbackEmbeddingModel_new "fallback/text-hash-embedding")).
Proof.
  unfold minimal_fallback, bind.
  pose proof (function_import_fallback_embeddings s) as Hi. unfold same in Hi.
  destruct (import_fallback_embeddings s) as [[[] | e] s1]; cbn in *.
  - right. reflexivity.
  - left. exact Hi.
Qed.

Lemma function_kept_final_fallback : preserves function_kept_filled final_fallback.
Proof.
  intros s Hs. destruct (final_fallback_slot s) as [E | E]; rewrite E;
    [exact Hs | discriminate].
Qed.

Lemma function_kept_minimal_fallback : preserves function_kept_filled minimal_fallback.
Proof.
  intros s Hs. destruct (minimal_fallback_slot s) as [E | E]; rewrite E;
    [exact Hs | discriminate].
Qed.

Lemma well_built_final_fallback : preserves stays_well_built final_fallback.
Proof.
  intros s (H1 & H2 & H3). pose proof (ef_final_fallback s) as He. unfold same in He.
  unfold well_built. rewrite He. split; [exact H1 |].
  destruct (final_fallback_slot s) as [E | E]; rewrite E.
  - split; assumption.
  - split; [intros m [= <-]; reflexivity | intros [=]].
Qed.

Lemma well_built_minimal_fallback : preserves stays_well_built minimal_fallback.
Proof.
  intros s (H1 & H2 & H3). pose proof (ef_minimal_fallback s) as He. unfold same in He.
  unfold well_built. rewrite He. split; [exact H1 |].
  destruct (minimal_fallback_slot s) as [E | E]; rewrite E.
  - split; assumption.
  - split; [intros m [= <-]; reflexivity | intros [=]].
Qed.

Lemma model_kept_patch_if_local : preserves model_kept patch_if_local.
Proof. apply model_kept_of_same, ef_patch_if_local. Qed.

Lemma model_kept_initialize_function : preserves model_kept initialize_function.
Proof. apply model_kept_of_same, ef_initialize_function. Qed.

Lemma model_kept_final_fallback : preserves model_kept final_fallback.
Proof. apply model_kept_of_same, ef_final_fallback. Qed.

Lemma model_kept_minimal_fallback : preserves model_kept minimal_fallback.
Proof. apply model_kept_of_same, ef_minimal_fallback. Qed.

Lemma function_kept_patch_if_local : preserves function_kept_filled patch_if_local.
Proof. apply function_kept_of_same, function_patch_if_local. Qed.

Lemma function_kept_initialize_ef : preserves function_kept_filled initialize_ef.
Proof. apply function_kept_of_same, function_initialize_ef. Qed.

Lemma well_built_patch_if_local : preserves stays_well_built patch_if_local.
Proof. apply well_built_of_same; [apply ef_patch_if_local | apply function_patch_if_local]. Qed.

End Kept.

#[global] Hint Resolve
  model_kept_patch_if_local model_kept_initialize_ef model_kept_initialize_function
  model_kept_final_fallback model_kept_minimal_fallback
  function_kept_patch_if_local function_kept_initialize_ef function_kept_initialize_function
  function_kept_final_fallback function_kept_minimal_fallback
  well_built_patch_if_local well_built_initialize_ef well_built_initialize_function
  well_built_final_fallback well_built_minimal_fallback : frames.

Section Kept2.
Context {env : Environment}.

Lemma model_kept_ensure_embedding_function : preserves model_kept ensure_embedding_function.
Proof.
  unfold ensure_embedding_function, try_block, except_block. preserve close_model_kept.
Qed.

Lemma function_kept_ensure_embedding_function :
  preserves function_kept_filled ensure_embedding_function.
Proof.
  unfold ensure_embedding_function, try_block, except_block. preserve close_function_kept.
Qed.

Lemma well_built_ensure_embedding_function :
  preserves stays_well_built ensure_embedding_function.
Proof.
  unfold ensure_embedding_function, try_block, except_block. preserve close_well_built.
Qed.

End Kept2.

(** X3. [ensure_embedding_function] never takes anything out of a slot,
    whether it returns or raises: a model that is in [ef] is still there,
    the same one, and a filled [EMBEDDING_FUNCTION] stays filled (with the
    same function or another).  And a [True] always leaves a function in
    [EMBEDDING_FUNCTION]. *)
Theorem ensure_never_empties_a_slot {env : Environment} (s : Process) :
  let s' := snd (ensure_embedding_function s) in
  (forall m, ef s = Some m -> ef s' = Some m)
  /\ (EMBEDDING_FUNCTION s <> None -> EMBEDDING_FUNCTION s' <> None)
  /\ (fst (ensure_embedding_function s) = Ok true -> EMBEDDING_FUNCTION s' <> None).
Proof.
  intros s'. subst s'. split; [| split].
  - exact (model_kept_ensure_embedding_function s).
  - exact (function_kept_ensure_embedding_function s).
  - apply ensure_fills_the_function_slot.
Qed.

(** X4. The slots stay well built across [ensure_embedding_function],
    whatever the collaborators do and whether it returns or raises: a hash
    model in [ef] or behind the fallback wrapper has 384 dimensions, and
    whenever the direct wrapper is in [EMBEDDING_FUNCTION], [ef] holds
    a model that has [encode], so that the attribute the wrapper reads at
    each call is there. *)
Theorem ensure_keeps_the_slots_well_built {env : Environment} (s : Process) :
  well_built s -> well_built (snd (ensure_embedding_function s)).
Proof. exact (well_built_ensure_embedding_function s). Qed.

(** A process just started, where [get_ef] raises at the first call. *)
Lemma ensure_keeps_the_slots_well_built_witness :
  well_built (snd (@ensure_embedding_function flaky flaky_fresh)).
Proof.
  apply (@ensure_keeps_the_slots_well_built flaky flaky_fresh).
  split; [| split]; intros; discriminate.
Defined.

(** ** Calling the function in the slot *)

Lemma mapR_ext {A B} (f g : A -> result B) (l : list A) :
  (forall x, f x = g x) -> mapR f l = mapR g l.
Proof.
  intros H. induction l as [| x l IH]; [reflexivity |].
  cbn [mapR]. rewrite H, IH. reflexivity.
Qed.

Lemma mapR_Forall {A B} (f : A -> result B) (P : B -> Prop) (l : list A) (ys : list B) :
  (forall x y, f x = Ok y -> P y) -> mapR f l = Ok ys -> Forall P ys.
Proof.
  intros HP. revert ys. induction l as [| x l IH]; intros ys H.
  - injection H as <-. constructor.
  - apply mapR_inv_cons in H as (y & ys' & Hy & H & ->). constructor; eauto.
Qed.

(** [encode] depends on nothing of the instance but its size. *)
Lemma encode_instance {np : NumPy} (a b : FallbackEmbeddingModel) (input : texts) :
  embedding_size a = embedding_size b -> encode a input = encode b input.
Proof.
  intros H. destruct input as [t | ts]; cbn [encode].
  - rewrite (hash_to_vector_instance a b t H). reflexivity.
  - rewrite (mapR_ext (_hash_to_vector a) (_hash_to_vector b)); [reflexivity |].
    intros t. apply hash_to_vector_instance, H.
Qed.

(** X5. In a process whose slots are well built, calling a function that
    ends in the hash embedder (the fallback wrapper, or the direct wrapper
    over a hash model) is [encode] of the query and nothing else: [prefix]
    and [user] do not reach the result and the process is left as it was.
    With a numpy that keeps its contract and a query UTF-8 can encode, the
    call returns: 384 floats for a string, and for a list one vector of 384
    floats for each of its strings. *)
Theorem calling_a_hash_backed_function {np : NumPy} {laws : NumPyLaws np} {env : Environment}
    (primary_encode : ExternalModel -> texts -> option string -> M embeddings)
    (wired_function_call : Z -> texts -> option string -> option string -> M embeddings)
    (s : Process) (f : EmbeddingFunction) (query : texts) (prefix user : option string) :
  well_built s -> EMBEDDING_FUNCTION s = Some f -> hash_backed s f ->
  let call := call_EMBEDDING_FUNCTION primary_encode wired_function_call in
  call f query prefix user s = (encode hash_embedder query, s)
  /\ (Forall well_formed (strings query) ->
      exists r,
        call f query prefix user s = (Ok r, s)
        /\ match query, r with
           | Text _, Vector v => length v = 384%nat
           | Texts ts, Vectors vs =>
               length vs = length ts /\ Forall (fun v => length v = 384%nat) vs
           | _, _ => False
           end).
Proof.
  intros (H1 & H2 & _) Hf Hb call.
  assert (E : call f query prefix user s = (encode hash_embedder query, s)).
  { subst call. destruct f as [h | | m]; cbn [hash_backed] in Hb.
    - contradiction.
    - destruct Hb as [m Hm]. unfold call_EMBEDDING_FUNCTION, bind, gets. rewrite Hm.
      cbn [Model_encode]. unfold lift.
      rewrite (encode_instance m hash_embedder); [reflexivity | exact (H1 m Hm)].
    - cbn [call_EMBEDDING_FUNCTION Model_encode]. unfold lift.
      rewrite (encode_instance m hash_embedder); [reflexivity | exact (H2 m Hf)]. }
  split; [exact E |]. rewrite E. intros Hw.
  destruct query as [t | ts]; cbn [strings encode] in *.
  - destruct (hash_to_vector_returns "fallback/text-hash-embedding" t) as (v & Hv & Hlen).
    + inversion Hw; assumption.
    + fold hash_embedder in Hv. rewrite Hv. cbn [bindR]. eauto.
  - destruct (hash_to_vector_returns_each "fallback/text-hash-embedding" ts Hw) as [vs Hvs].
    fold hash_embedder in Hvs. rewrite Hvs. cbn [bindR]. exists (Vectors vs).
    split; [reflexivity |]. split; [exact (mapR_length _ _ _ Hvs) |].
    apply (mapR_Forall (_hash_to_vector hash_embedder) _ ts vs); [| exact Hvs].
    intros t v Hv. pose proof (hash_to_vector_ok_inv _ t v Hv) as Ht.
    destruct (hash_to_vector_returns "fallback/text-hash-embedding" t Ht) as (v' & Hv' & Hlen).
    fold hash_embedder in Hv'. congruence.
Qed.

(** [get_ef] raised, the handler put the hash model behind the fallback
    wrapper; the function is then called with a prefix and a user. *)
Lemma calling_a_hash_backed_function_witness :
  let s := snd (@ensure_embedding_function flaky flaky_fresh) in
  let opaque := PyExc "NotImplementedError" "the application's own" in
  exists v,
    @call_EMBEDDING_FUNCTION Reference.numpy flaky
      (fun _ _ _ => raise opaque) (fun _ _ _ _ => raise opaque)
      (FallbackWrapper (FallbackEmbeddingModel_new "fallback/text-hash-embedding"))
      (Text (ascii_text "hello world")) (Some "query: ") (Some "alice") s
    = (Ok (Vector v), s)
    /\ length v = 384%nat.
Proof.
  intros s opaque.
  destruct (@calling_a_hash_backed_function Reference.numpy reference_numpy_laws flaky
              (fun _ _ _ => raise opaque) (fun _ _ _ _ => raise opaque) s
              (FallbackWrapper (FallbackEmbeddingModel_new "fallback/text-hash-embedding"))
              (Text (ascii_text "hello world")) (Some "query: ") (Some "alice"))
    as (_ & H).
  - apply (@well_built_ensure_embedding_function flaky flaky_fresh).
    split; [| split]; intros; discriminate.
  - reflexivity.
  - exact I.
  - destruct H as ([v | vs] & Hcall & Hlen).
    + constructor; [apply well_formed_ascii_text | constructor].
    + exists v. split; assumption.
    + contradiction.
Defined.

(** ** The provider's address and key *)

#[global] Instance configured_preorder {env : Environment} : PreOrder configured.
Proof.
  split.
  - intros s. split; [reflexivity |]. exists []. rewrite app_nil_r. split; [reflexivity | constructor].
  - intros s1 s2 s3 (C1 & c1 & K1 & Q1) (C2 & c2 & K2 & Q2). split; [congruence |].
    exists (c1 ++ c2). rewrite K2, K1, app_assoc. split; [reflexivity |].
    apply Forall_app. split; [assumption |]. rewrite <- C1. assumption.
Qed.

Ltac close_configured :=
  split; cbn;
  [ reflexivity
  | first [ exists []; rewrite app_nil_r; split; [reflexivity | constructor]
          | eexists; split; [reflexivity | repeat constructor] ] ].

Section Configured.
Context {env : Environment}.

Lemma configured_patch_sentence_transformers : preserves configured patch_sentence_transformers.
Proof. unfold patch_sentence_transformers. preserve close_configured. Qed.

Lemma configured_import_st_patch : preserves configured import_st_patch.
Proof. unfold import_st_patch. preserve close_configured. Qed.

Lemma configured_import_fallback_embeddings : preserves configured import_fallback_embeddings.
Proof.
  unfold import_fallback_embeddings, fallback_embeddings_body. preserve close_configured.
Qed.

Lemma configured_get_fallback_embedding_model :
  preserves configured get_fallback_embedding_model.
Proof. preserve close_configured. Qed.

End Configured.

#[global] Hint Resolve configured_patch_sentence_transformers configured_import_st_patch
  configured_import_fallback_embeddings configured_get_fallback_embedding_model : frames.

Section Configured2.
Context {env : Environment}.

Lemma configured_patch_if_local : preserves configured patch_if_local.
Proof. unfold patch_if_local. preserve close_configured. Qed.

Lemma configured_initialize_ef : preserves configured initialize_ef.
Proof. unfold initialize_ef. preserve close_configured. Qed.

Lemma configured_final_fallback : preserves configured final_fallback.
Proof. unfold final_fallback. preserve close_configured. Qed.

Lemma configured_minimal_fallback : preserves configured minimal_fallback.
Proof. unfold minimal_fallback. preserve close_configured. Qed.

(** The one place that calls [get_embedding_function]: lines 44-59. *)
Lemma configured_initialize_function : preserves configured initialize_function.
Proof.
  intros s. unfold initialize_function, bind, gets.
  destruct (ef s) as [model |]; [| reflexivity].
  unfold try_except, try_catch, bind, gets, recorded, external, initialize_log, log_to, modify.
  cbn. destruct (get_embedding_function _ _ _ _ _ _ _ _) as [[handle | e] w]; cbn.
  - split; [reflexivity |]. eexists. split; [reflexivity |].
    constructor; [| constructor]. cbn.
    destruct (RAG_EMBEDDING_ENGINE (config s) =? "openai")%string; repeat split.
  - assert (Hc : forall s1 : Process,
               config s1 = config s ->
               calls s1 = calls s ++ [Called_get_embedding_function
                   (RAG_EMBEDDING_ENGINE (config s)) (RAG_EMBEDDING_MODEL (config s)) model
                   (if (RAG_EMBEDDING_ENGINE (config s) =? "openai")%string
                    then RAG_OPENAI_API_BASE_URL (config s) else RAG_OLLAMA_BASE_URL (config s))
                   (if (RAG_EMBEDDING_ENGINE (config s) =? "openai")%string
                    then RAG_OPENAI_API_KEY (config s) else RAG_OLLAMA_API_KEY (config s))
                   (RAG_EMBEDDING_BATCH_SIZE (config s)) (Raise e)] ->
               configured s s1).
    { intros s1 C K. split; [exact C |]. eexists. split; [exact K |].
      constructor; [| constructor]. cbn.
      destruct (RAG_EMBEDDING_ENGINE (config s) =? "openai")%string; repeat split. }
    destruct (match ef s with Some m => hasattr_encode m | None => false end);
      cbn; apply Hc; reflexivity.
Qed.

End Configured2.

#[global] Hint Resolve configured_patch_if_local configured_initialize_ef
  configured_final_fallback configured_minimal_fallback configured_initialize_function : frames.

(** X6. Every call of [get_embedding_function] that
    [ensure_embedding_function] makes carries the engine, the model name
    and the batch size of the configuration, and the address and key of
    one provider: OpenAI's when the engine is ["openai"], Ollama's for
    every other engine, the local one included.  The OpenAI key is never
    passed on for another engine.  The configuration itself is left as it
    was. *)
Theorem get_embedding_function_is_given_the_provider_of_the_engine {env : Environment} (s : Process) :
  let s' := snd (ensure_embedding_function s) in
  config s' = config s
  /\ exists made,
       calls s' = calls s ++ made
       /\ forall engine model m url key batch_size outcome,
            In (Called_get_embedding_function engine model m url key batch_size outcome) made ->
            engine = RAG_EMBEDDING_ENGINE (config s)
            /\ model = RAG_EMBEDDING_MODEL (config s)
            /\ batch_size = RAG_EMBEDDING_BATCH_SIZE (config s)
            /\ (engine = "openai" ->
                url = RAG_OPENAI_API_BASE_URL (config s) /\ key = RAG_OPENAI_API_KEY (config s))
            /\ (engine <> "openai" ->
                url = RAG_OLLAMA_BASE_URL (config s) /\ key = RAG_OLLAMA_API_KEY (config s)).
Proof.
  intros s'. subst s'.
  assert (H : preserves configured ensure_embedding_function).
  { unfold ensure_embedding_function, try_block, except_block. preserve close_configured. }
  destruct (H s) as (C & made & K & Q). split; [exact C |].
  exists made. split; [exact K |].
  intros engine model m url key batch_size outcome Hin.
  apply (proj1 (List.Forall_forall _ _) Q) in Hin. cbn in Hin.
  destruct Hin as (-> & -> & -> & Hp).
  split; [reflexivity |]. split; [reflexivity |]. split; [reflexivity |]. split.
  - intros Heng. rewrite Heng in Hp. exact Hp.
  - intros Hne. apply String.eqb_neq in Hne. rewrite Hne in Hp. exact Hp.
Qed.

(** ** st_patch.py: what the shim registers, and what it lets out *)

Section Inversions.
Context {env : Environment}.

Lemma bind_inv {A B} (m : M A) (k : A -> M B) (s : Process) (b : B) (s' : Process) :
  bind m k s = (Ok b, s') -> exists a s1, m s = (Ok a, s1) /\ k a s1 = (Ok b, s').
Proof.
  unfold bind. destruct (m s) as [[a | e] s1]; [eauto | discriminate].
Qed.

Lemma try_catch_inv {A} (c : exn -> bool) (m : M A) (h : exn -> M A) (s : Process)
    (a : A) (s' : Process) :
  try_catch c m h s = (Ok a, s') ->
  m s = (Ok a, s') \/ exists e s1, m s = (Raise e, s1) /\ c e = true /\ h e s1 = (Ok a, s').
Proof.
  unfold try_catch. destruct (m s) as [[a0 | e] s1]; [left; assumption |].
  destruct (c e) eqn:Hc; [right; eauto | discriminate].
Qed.

(** A successful [import] leaves the module under its name. *)
Lemma py_import_registers (n : string) (s : Process) (m : PyModule) (s' : Process) :
  py_import n s = (Ok m, s') -> sys_modules s' !! n = Some m.
Proof.
  unfold py_import, bind, gets, modify, lift, register_module, ret. cbn.
  destruct (sys_modules s !! n) as [x |] eqn:E.
  - intros [= <- <-]. exact E.
  - destruct (load_module n (sys_modules s) (world s)) as [[[x | e] loaded] w]; cbn.
    + intros [= <- <-]. cbn. apply lookup_insert_eq.
    + discriminate.
Qed.

(** [import] of a module that is in [sys.modules] gives the entry. *)
Lemma py_import_cached (n : string) (s : Process) (m : PyModule) :
  sys_modules s !! n = Some m -> py_import n s = (Ok m, s).
Proof. intros H. unfold py_import, bind, gets. rewrite H. reflexivity. Qed.

Lemma registered_then_logged (k : string) (m : PyModule) (name : string) (lvl : level)
    (msg : string) (s s' : Process) :
  (let* _ := register_module k m in log_to name lvl msg) s = (Ok tt, s') ->
  sys_modules s' !! k = Some m.
Proof. intros [= <-]. cbn. apply lookup_insert_eq. Qed.

Lemma in_sys_modules_inv (k : string) (s : Process) (b : bool) (s' : Process) :
  in_sys_modules k s = (Ok b, s') ->
  s' = s /\ (b = true -> is_Some (sys_modules s !! k)) /\ (b = false -> sys_modules s !! k = None).
Proof.
  unfold in_sys_modules, gets. intros [= <- <-]. split; [reflexivity |]. split.
  - intros H. apply bool_decide_eq_true in H. exact H.
  - intros H. apply bool_decide_eq_false in H. destruct (sys_modules s !! k); [| reflexivity].
    exfalso. apply H. eauto.
Qed.

(** A [True] of the shim: the library and a compression module, real or
    stub, are both in [sys.modules]. *)
Lemma patch_registers (s : Process) (s' : Process) :
  patch_sentence_transformers s = (Ok true, s') ->
  is_Some (sys_modules s' !! "sentence_transformers") /\ is_Some (sys_modules s' !! "_lzma").
Proof.
  intros H. unfold patch_sentence_transformers in H.
  apply bind_inv in H as ([] & s1 & _ & H).
  apply bind_inv in H as (found & s2 & _ & H).
  destruct found; cbn [negb] in H.
  2: { apply bind_inv in H as ([] & s3 & _ & H). discriminate. }
  apply bind_inv in H as (present & s3 & Hp & H).
  apply bind_inv in H as ([] & s4 & Hshim & H).
  assert (Hlzma : is_Some (sys_modules s4 !! "_lzma")).
  { apply in_sys_modules_inv in Hp as (-> & Ht & _).
    destruct present; cbn [negb] in Hshim.
    - injection Hshim as <-. auto.
    - apply try_catch_inv in Hshim as [Hb | (e & s5 & _ & _ & Hh)].
      + apply bind_inv in Hb as (m & s5 & _ & Hb).
        rewrite (registered_then_logged _ _ _ _ _ _ _ Hb). eauto.
      + apply bind_inv in Hh as ([] & s6 & _ & Hh).
        apply try_catch_inv in Hh as [Hb | (e' & s7 & _ & _ & Hh)].
        * apply bind_inv in Hb as ([] & s7 & _ & Hb).
          apply bind_inv in Hb as (m & s8 & _ & Hb).
          rewrite (registered_then_logged _ _ _ _ _ _ _ Hb). eauto.
        * apply bind_inv in Hh as ([] & s8 & _ & Hh).
          rewrite (registered_then_logged _ _ _ _ _ _ _ Hh). eauto. }
  match type of H with
  | ?T s4 = _ =>
      assert (Hk : preserves (entry_kept "_lzma") T) by preserve_entry;
      specialize (Hk s4); rewrite H in Hk; cbn [snd] in Hk
  end.
  split; [| destruct Hlzma as [x Hx]; rewrite (Hk x Hx); eauto].
  apply try_catch_inv in H as [Hb | (e & s5 & _ & _ & Hh)].
  - apply bind_inv in Hb as (m & s5 & Hi & Hb). apply py_import_registers in Hi.
    match type of Hb with
    | ?T s5 = _ =>
        assert (Hr : preserves (entry_kept "sentence_transformers") T) by preserve_entry;
        specialize (Hr s5); rewrite Hb in Hr; cbn [snd] in Hr
    end.
    rewrite (Hr m Hi). eauto.
  - apply bind_inv in Hh as ([] & s6 & _ & Hh). discriminate.
Qed.

(** *** What is raised *)

Lemma bind_inv_raise {A B} (m : M A) (k : A -> M B) (s : Process) (e : exn) (s' : Process) :
  bind m k s = (Raise e, s') ->
  m s = (Raise e, s') \/ exists a s1, m s = (Ok a, s1) /\ k a s1 = (Raise e, s').
Proof.
  unfold bind. destruct (m s) as [[a | e0] s1]; intros H; [right; eauto |].
  left. injection H as <- <-. reflexivity.
Qed.

Section RaiseRules.
Context (P : exn -> Prop).

Lemma raises_only_ret {A} (a : A) : raises_only P (ret a).
Proof. intros s e s' [=]. Qed.

Lemma raises_only_gets {A} (f : Process -> A) : raises_only P (gets f).
Proof. intros s e s' [=]. Qed.

Lemma raises_only_modify (f : Process -> Process) : raises_only P (modify f).
Proof. intros s e s' [=]. Qed.

Lemma raises_only_bind {A B} (m : M A) (k : A -> M B) :
  raises_only P m -> (forall a, raises_only P (k a)) -> raises_only P (bind m k).
Proof.
  intros Hm Hk s e s' H. apply bind_inv_raise in H as [H | (a & s1 & _ & H)].
  - exact (Hm s e s' H).
  - exact (Hk a s1 e s' H).
Qed.

(** What a [try] lets out is what its clause does not catch, and what the
    handler raises. *)
Lemma raises_only_try_catch {A} (c : exn -> bool) (m : M A) (h : exn -> M A) :
  (forall e, c e = false -> P e) -> (forall e, raises_only P (h e)) ->
  raises_only P (try_catch c m h).
Proof.
  intros Hc Hh s e s'. unfold try_catch.
  destruct (m s) as [[a | e0] s1]; [discriminate |].
  destruct (c e0) eqn:E; [apply Hh |]. intros [= <- _]. apply Hc, E.
Qed.

End RaiseRules.

End Inversions.

Ltac raise_step :=
  match goal with
  | |- forall _, _ => intros ?
  | |- raises_only _ (bind _ _) => apply raises_only_bind
  | |- raises_only _ (try_catch _ _ _) =>
      apply raises_only_try_catch; [intros ? ?; first [assumption | discriminate] |]
  | |- raises_only _ (ret _) => apply raises_only_ret
  | |- raises_only _ (gets _) => apply raises_only_gets
  | |- raises_only _ (modify _) => apply raises_only_modify
  | |- raises_only _ (if ?b then _ else _) => destruct b
  end.

Ltac raises_nothing_caught :=
  unfold in_sys_modules; unfold_steps; repeat raise_step.

Section Escapes.
Context {env : Environment}.

Lemma patch_lets_no_ImportError_out (s : Process) (e : exn) (s' : Process) :
  patch_sentence_transformers s = (Raise e, s') ->
  fst (find_spec "sentence_transformers" (sys_modules s) (world s)) <> Raise e ->
  is_ImportError e = false.
Proof.
  intros H Hfind. unfold patch_sentence_transformers in H.
  apply bind_inv_raise in H as [H | ([] & s1 & Hrec & H)]; [discriminate |].
  injection Hrec as <-.
  apply bind_inv_raise in H as [H | (found & s2 & _ & H)].
  - exfalso. apply Hfind. unfold external in H. cbn in H.
    destruct (find_spec _ _ _) as [r w]. injection H as -> _. reflexivity.
  - revert H.
    match goal with
    | |- ?T s2 = _ -> _ =>
        assert (Hr : raises_only (fun e => is_ImportError e = false) T)
          by raises_nothing_caught
    end.
    apply Hr.
Qed.

End Escapes.

(** X7. What a call of [patch_sentence_transformers] that returns leaves
    in [sys.modules].  After a [True], the embedding library is there, and
    so is a module under ['_lzma']: the one that was there,
    [backports.lzma], or the stub.  When [find_spec] finds no library the
    result is [False] and [sys.modules] is as it was: the shim is not
    tried.  In every case the entries that were there are kept. *)
Theorem what_patch_leaves_in_sys_modules {env : Environment} (s : Process) (b : bool)
    (s' : Process) :
  patch_sentence_transformers s = (Ok b, s') ->
  (b = true ->
   is_Some (sys_modules s' !! "sentence_transformers") /\ is_Some (sys_modules s' !! "_lzma"))
  /\ (fst (find_spec "sentence_transformers" (sys_modules s) (world s)) = Ok false ->
      b = false /\ sys_modules s' = sys_modules s)
  /\ (forall k m, sys_modules s !! k = Some m -> sys_modules s' !! k = Some m).
Proof.
  intros H. split; [| split].
  - intros ->. exact (patch_registers s s' H).
  - intros Hfind. unfold patch_sentence_transformers in H.
    apply bind_inv in H as ([] & s1 & Hrec & H). injection Hrec as <-.
    apply bind_inv in H as (found & s2 & Hext & H).
    unfold external in Hext. cbn in Hext.
    destruct (find_spec _ _ _) as [r w]. cbn in Hfind. subst r.
    injection Hext as <- <-. cbn in H. injection H as <- <-. split; reflexivity.
  - intros k m Hm. pose proof (entry_patch_sentence_transformers k s m Hm) as Hk.
    rewrite H in Hk. exact Hk.
Qed.

(** The library is installed, no compression module can be had. *)
Lemma what_patch_leaves_in_sys_modules_witness :
  let s := fresh no_lzma local_config ["sentence_transformers"] in
  is_Some (sys_modules (snd (patch_sentence_transformers s)) !! "sentence_transformers")
  /\ is_Some (sys_modules (snd (patch_sentence_transformers s)) !! "_lzma").
Proof.
  intros s.
  refine (proj1 (@what_patch_leaves_in_sys_modules (scripted no_lzma) s true _ _) eq_refl).
  vm_compute. reflexivity.
Defined.

(** X8. No [ImportError] of an import statement leaves
    [patch_sentence_transformers]: an exception it raises is of another
    class (an [AttributeError] of a library without [__version__], say),
    unless it is the very exception [importlib.util.find_spec] raised. *)
Theorem patch_lets_no_import_error_escape {env : Environment} (s : Process) (e : exn)
    (s' : Process) :
  patch_sentence_transformers s = (Raise e, s') ->
  fst (find_spec "sentence_transformers" (sys_modules s) (world s)) <> Raise e ->
  is_ImportError e = false.
Proof. apply patch_lets_no_ImportError_out. Qed.

(** The library is imported and has no [__version__]: the
    [AttributeError] is not caught. *)
Lemma patch_lets_no_import_error_escape_witness :
  let raised := PyExc "AttributeError" "module has no attribute __version__" in
  patch_sentence_transformers unversioned
  = (Raise raised, snd (patch_sentence_transformers unversioned))
  /\ is_ImportError raised = false.
Proof.
  intros raised.
  assert (H : patch_sentence_transformers unversioned
              = (Raise raised, snd (patch_sentence_transformers unversioned)))
    by (vm_compute; reflexivity).
  split; [exact H |].
  apply (@patch_lets_no_import_error_escape (scripted no_lzma) unversioned raised _ H).
  vm_compute. discriminate.
Defined.

(** ** The guarded import *)

(** X9. [safe_import_sentence_transformers] hands out the class only with
    the library and a module under ['_lzma'] both in [sys.modules]; and no
    [ImportError] of an import statement leaves it, whatever the library
    exports: an exception it raises is one [patch_sentence_transformers]
    raised. *)
Theorem safe_import_hands_out_the_class_only_when_patched {env : Environment}
    (exports : PyModule -> string -> bool) (s : Process) :
  (forall c s',
      safe_import_sentence_transformers exports s = (Ok (Some c), s') ->
      is_Some (sys_modules s' !! "sentence_transformers")
      /\ is_Some (sys_modules s' !! "_lzma"))
  /\ (forall e s',
         safe_import_sentence_transformers exports s = (Raise e, s') ->
         patch_sentence_transformers s = (Raise e, s')
         /\ (fst (find_spec "sentence_transformers" (sys_modules s) (world s)) <> Raise e ->
             is_ImportError e = false)).
Proof.
  split.
  - intros c s' H. unfold safe_import_sentence_transformers in H.
    apply bind_inv in H as (patched & s1 & Hp & H).
    destruct patched; cbn [negb] in H; [| discriminate].
    destruct (patch_registers s s1 Hp) as ([x Hx] & [y Hy]).
    match type of H with
    | ?T s1 = _ =>
        assert (H1 : preserves (entry_kept "sentence_transformers") T)
          by (unfold import_from; preserve_entry);
        assert (H2 : preserves (entry_kept "_lzma") T)
          by (unfold import_from; preserve_entry);
        specialize (H1 s1); specialize (H2 s1); rewrite H in H1, H2; cbn [snd] in H1, H2
    end.
    rewrite (H1 x Hx), (H2 y Hy). eauto.
  - intros e s' H. unfold safe_import_sentence_transformers in H.
    apply bind_inv_raise in H as [H | (patched & s1 & Hp & H)].
    + split; [exact H |]. exact (patch_lets_no_ImportError_out s e s' H).
    + exfalso. destruct patched; cbn [negb] in H; [| discriminate].
      destruct (patch_registers s s1 Hp) as ([m Hm] & _).
      unfold try_except_ImportError, try_catch, bind at 1 in H.
      rewrite (py_import_cached _ _ _ Hm) in H.
      unfold import_from, bind, getattr in H.
      destruct m as [n v | |]; cbn in H; [destruct (exports _ _); cbn in H |..];
        discriminate.
Qed.

(** The class is handed out when the library exports it; [None] comes back
    when it does not, and when the library cannot be imported. *)
Example safe_import_sentence_transformers_runs :
  let s := fresh no_lzma local_config ["sentence_transformers"] in
  fst (safe_import_sentence_transformers (fun _ _ => true) s)
  = Ok (Some (NameOf (Module "sentence_transformers" (Some "1.0")) "SentenceTransformer"))
  /\ fst (safe_import_sentence_transformers (fun _ _ => false) s) = Ok None
  /\ fst (safe_import_sentence_transformers (fun _ _ => true) (fresh no_lzma local_config []))
     = Ok None.
Proof. vm_compute. repeat split. Qed.

(** ** fallback_embeddings.py: the import of the module *)

(** With no [backports.lzma] to import, the first import of the module
    registers the stub that logs. *)
Example import_fallback_embeddings_registers_its_stub :
  let s := fresh no_lzma local_config ["numpy"; "requests"] in
  fst (import_fallback_embeddings s) = Ok tt
  /\ sys_modules (snd (import_fallback_embeddings s)) !! "_lzma"
     = Some MockLZMA_fallback_embeddings.
Proof. vm_compute. repeat split. Qed.

Section FallbackModule.
Context {env : Environment}.

Lemma fallback_embeddings_body_registers (s s' : Process) :
  fallback_embeddings_body s = (Ok tt, s') ->
  is_Some (sys_modules s' !! "numpy")
  /\ is_Some (sys_modules s' !! "requests")
  /\ is_Some (sys_modules s' !! "_lzma").
Proof.
  intros H. unfold fallback_embeddings_body in H.
  apply bind_inv in H as (numpy & s1 & Hn & H). apply py_import_registers in Hn.
  match type of H with
  | ?T s1 = _ =>
      assert (Hk : preserves (entry_kept "numpy") T) by preserve_entry;
      specialize (Hk s1); rewrite H in Hk; cbn [snd] in Hk
  end.
  split; [rewrite (Hk _ Hn); eauto |].
  apply bind_inv in H as (requests & s2 & Hr & H). apply py_import_registers in Hr.
  match type of H with
  | ?T s2 = _ =>
      assert (Hq : preserves (entry_kept "requests") T) by preserve_entry;
      specialize (Hq s2); rewrite H in Hq; cbn [snd] in Hq
  end.
  split; [rewrite (Hq _ Hr); eauto |].
  apply bind_inv in H as (present & s3 & Hp & H).
  apply in_sys_modules_inv in Hp as (-> & Ht & _).
  destruct present; cbn [negb] in H.
  - injection H as <-. auto.
  - apply try_catch_inv in H as [Hb | (e & s5 & _ & _ & Hh)].
    + apply bind_inv in Hb as (m & s5 & _ & Hb).
      rewrite (registered_then_logged _ _ _ _ _ _ _ Hb). eauto.
    + rewrite (registered_then_logged _ _ _ _ _ _ _ Hh). eauto.
Qed.

End FallbackModule.

(** X10. The module of the hash embedder runs once.  Its first import,
    when it succeeds, leaves numpy, requests, a module under ['_lzma'] (the
    one that was there, [backports.lzma], or the stub) and the module
    itself in [sys.modules], and touches no entry that was there.  Later
    imports find the module in [sys.modules] and run nothing: the process
    is left as it was. *)
Theorem import_fallback_embeddings_runs_once {env : Environment} (s : Process) :
  (is_Some (sys_modules s !! fallback_embeddings) ->
   import_fallback_embeddings s = (Ok tt, s))
  /\ (forall s',
         sys_modules s !! fallback_embeddings = None ->
         import_fallback_embeddings s = (Ok tt, s') ->
         (forall k, In k ["numpy"; "requests"; "_lzma"; fallback_embeddings] ->
                    is_Some (sys_modules s' !! k))
         /\ (forall k m, sys_modules s !! k = Some m -> sys_modules s' !! k = Some m)
         /\ import_fallback_embeddings s' = (Ok tt, s')).
Proof.
  assert (Hcached : forall s0 : Process,
             is_Some (sys_modules s0 !! fallback_embeddings) ->
             import_fallback_embeddings s0 = (Ok tt, s0)).
  { intros s0 H0. unfold import_fallback_embeddings, bind, in_sys_modules, gets.
    rewrite bool_decide_eq_true_2 by exact H0. reflexivity. }
  split; [apply Hcached |].
  intros s' Hnone H.
  pose proof (entry_import_fallback_embeddings) as Hkept.
  assert (Hfe : sys_modules s' !! fallback_embeddings
                = Some (Module fallback_embeddings None)
                /\ forall k, In k ["numpy"; "requests"; "_lzma"] -> is_Some (sys_modules s' !! k)).
  { unfold import_fallback_embeddings in H.
    apply bind_inv in H as (present & s1 & Hp & H).
    apply in_sys_modules_inv in Hp as (-> & Ht & _).
    destruct present; [destruct (Ht eq_refl) as [x Hx]; congruence |].
    apply bind_inv in H as ([] & s2 & Hb & H).
    apply fallback_embeddings_body_registers in Hb as (Hn & Hr & Hl).
    injection H as <-. cbn. split; [apply lookup_insert_eq |].
    intros k [<- | [<- | [<- | []]]]; (rewrite lookup_insert_ne by discriminate); assumption. }
  destruct Hfe as [Hfe Hothers]. split; [| split].
  - intros k [<- | [<- | [<- | [<- | []]]]]; try (apply Hothers; cbn; tauto). eauto.
  - intros k m Hm. specialize (Hkept k s m Hm). rewrite H in Hkept. exact Hkept.
  - apply Hcached. eauto.
Qed.

(** ** The direct HTTP fallback: what it logs *)

Ltac swallowed :=
  cbn -[str_exn]; split; [repeat split |];
  split; [first [left; reflexivity | right; eexists; split; reflexivity] |];
  split; [discriminate |];
  intros _; split; [reflexivity |];
  split;
  [ let H := fresh in
    intros ? H; first [discriminate H | injection H as <-; reflexivity]
  | intros ? ? ? ? ?; first [reflexivity | congruence] ].

(** X11. [try_external_embeddings] touches nothing of the process but the
    world it sends the request to and the log.  It logs at most one record,
    the warning of its handler, and then returns [None]; it logs that
    record whenever the request raises; and it logs nothing when no URL is
    given (no request is sent then) and when a status outside 400-599
    comes with a JSON object, with or without the key. *)
Theorem try_external_embeddings_logs_what_it_swallows {env : Environment}
    (text : texts) (api_url : option string) (s : Process) :
  let run := try_external_embeddings text api_url s in
  let s' := snd run in
  let sent := requests_post (default "" api_url) (strings text) (world s) in
  (ef s' = ef s /\ EMBEDDING_FUNCTION s' = EMBEDDING_FUNCTION s /\ config s' = config s
   /\ sys_modules s' = sys_modules s /\ calls s' = calls s)
  /\ (logs s' = logs s
      \/ exists e, logs s' = logs s ++ [api_failure_record e] /\ fst run = Ok JNone)
  /\ (falsy api_url = true -> s' = s)
  /\ (falsy api_url = false ->
      world s' = snd sent
      /\ (forall e, fst sent = Raise e -> logs s' = logs s ++ [api_failure_record e])
      /\ (forall response d,
             fst sent = Ok response ->
             (400 <=? status_code_of response) && (status_code_of response <? 600) = false ->
             json response = Ok (JDict d) ->
             logs s' = logs s)).
Proof.
  intros run s' sent. subst run s' sent. unfold try_external_embeddings.
  destruct (falsy api_url) eqn:Hurl.
  - cbn. split; [repeat split |]. split; [left; reflexivity |].
    split; [reflexivity | discriminate].
  - change (match text with Text t => [t] | Texts ts => ts end) with (strings text).
    unfold try_except, try_catch, bind, external, lift, raise_for_status, ret, log_to, modify.
    destruct (requests_post _ _ (world s)) as [[response | e] w]; cbn [fst snd].
    + destruct ((400 <=? status_code_of response) && (status_code_of response <? 600)) eqn:Hst.
      { swallowed. }
      destruct (json response) as [[| b | n | x | l | d] | e] eqn:Hj; cbn [py_contains];
        try swallowed.
      * destruct (is_substring "embeddings" x); swallowed.
      * destruct (existsb _ l); swallowed.
      * destruct (d !! "embeddings") as [v |] eqn:Hd.
        -- rewrite bool_decide_eq_true_2 by eauto. cbn [py_getitem]. rewrite Hd. swallowed.
        -- rewrite bool_decide_eq_false_2 by (intros [v Hv]; discriminate). swallowed.
    + swallowed.
Qed.

(** ** The two ways the primary construction fails *)

Section PrimaryFails.
Context {env : Environment}.

Lemma import_fallback_embeddings_cached (s : Process) :
  is_Some (sys_modules s !! fallback_embeddings) -> import_fallback_embeddings s = (Ok tt, s).
Proof.
  intros H. unfold import_fallback_embeddings, bind, in_sys_modules, gets.
  rewrite bool_decide_eq_true_2 by exact H. reflexivity.
Qed.

(** [get_ef] raises: [initialize_ef] lets the exception through. *)
Lemma initialize_ef_raises (s : Process) (e : exn) :
  ef s = None ->
  fst (get_ef (RAG_EMBEDDING_ENGINE (config s)) (RAG_EMBEDDING_MODEL (config s))
         RAG_EMBEDDING_MODEL_AUTO_UPDATE (sys_modules s) (world s)) = Raise e ->
  exists s2,
    initialize_ef s = (Raise e, s2)
    /\ ef s2 = None /\ EMBEDDING_FUNCTION s2 = EMBEDDING_FUNCTION s
    /\ sys_modules s2 = sys_modules s
    /\ calls s2 = calls s ++ [Called_get_ef (RAG_EMBEDDING_ENGINE (config s))
                                (RAG_EMBEDDING_MODEL (config s))
                                RAG_EMBEDDING_MODEL_AUTO_UPDATE (Raise e)].
Proof.
  intros Hef. unfold initialize_ef, bind, gets. rewrite Hef. cbn [is_None].
  unfold recorded, external, initialize_log, log_to, modify. cbn.
  destruct (get_ef _ _ _ _ _) as [r w]. cbn. intros ->. cbn.
  eexists. split; [reflexivity |]. cbn. repeat split. exact Hef.
Qed.

(** [get_ef] returns [None], the module of the hash model is imported:
    the hash model goes in the slot. *)
Lemma initialize_ef_none (s : Process) :
  ef s = None ->
  fst (get_ef (RAG_EMBEDDING_ENGINE (config s)) (RAG_EMBEDDING_MODEL (config s))
         RAG_EMBEDDING_MODEL_AUTO_UPDATE (sys_modules s) (world s)) = Ok None ->
  is_Some (sys_modules s !! fallback_embeddings) ->
  exists s2,
    initialize_ef s = (Ok tt, s2)
    /\ ef s2 = Some (HashFallback hash_embedder)
    /\ EMBEDDING_FUNCTION s2 = EMBEDDING_FUNCTION s
    /\ sys_modules s2 = sys_modules s
    /\ calls s2 = calls s ++ [Called_get_ef (RAG_EMBEDDING_ENGINE (config s))
                                (RAG_EMBEDDING_MODEL (config s))
                                RAG_EMBEDDING_MODEL_AUTO_UPDATE (Ok None);
                              Called_get_fallback_embedding_model].
Proof.
  intros Hef Hget Hmod. unfold initialize_ef, bind, gets. rewrite Hef. cbn [is_None].
  unfold recorded, external, initialize_log, log_to, modify. cbn.
  destruct (get_ef _ _ _ _ _) as [r w]. cbn in Hget. subst r. cbn.
  unfold try_except, try_catch, bind.
  rewrite import_fallback_embeddings_cached by exact Hmod. cbn.
  eexists. split; [reflexivity |]. cbn. repeat split.
  rewrite <- app_assoc. reflexivity.
Qed.

(** With a model that has [encode] in the slot, [initialize_function]
    fills the function slot: with what [get_embedding_function] returned
    for that model, or, when it raised, with the direct wrapper. *)
Lemma initialize_function_fills (s : Process) (m : Model) :
  ef s = Some m -> hasattr_encode m = true ->
  exists s3 engine model url key batch_size outcome,
    initialize_function s = (Ok tt, s3)
    /\ ef s3 = Some m
    /\ calls s3 = calls s ++ [Called_get_embedding_function engine model m url key
                                batch_size outcome]
    /\ EMBEDDING_FUNCTION s3
       = Some match outcome with Ok handle => Wired handle | Raise _ => DirectWrapper end.
Proof.
  intros Hef Hh. unfold initialize_function, bind, gets. rewrite Hef.
  unfold try_except, try_catch, bind, gets, recorded, external, initialize_log, log_to, modify.
  cbn. destruct (get_embedding_function _ _ _ _ _ _ _ _) as [[handle | e] w]; cbn.
  - do 7 eexists. split; [reflexivity |]. cbn. repeat split. exact Hef.
  - rewrite Hef, Hh. cbn. do 7 eexists. split; [reflexivity |]. cbn. repeat split. exact Hef.
Qed.

Lemma final_fallback_skips (s : Process) (f : EmbeddingFunction) :
  EMBEDDING_FUNCTION s = Some f -> final_fallback s = (Ok tt, s).
Proof. intros H. unfold final_fallback, bind, gets. rewrite H. reflexivity. Qed.

(** The handler's recovery, the module of the hash model imported. *)
Lemma minimal_fallback_imported (s : Process) :
  is_Some (sys_modules s !! fallback_embeddings) ->
  exists s',
    minimal_fallback s = (Ok true, s')
    /\ ef s' = ef s
    /\ EMBEDDING_FUNCTION s' = Some (FallbackWrapper hash_embedder)
    /\ calls s' = calls s ++ [Called_get_fallback_embedding_model].
Proof.
  intros H. unfold minimal_fallback, bind.
  rewrite import_fallback_embeddings_cached by exact H. cbn.
  eexists. split; [reflexivity |]. cbn. repeat split.
Qed.

(** The state [initialize_ef] starts from, when the shim returned. *)
Lemma after_patch_if_local (s : Process) (s1 : Process) :
  patch_if_local (snd (initialize_log WARNING not_initialized_warning s)) = (Ok tt, s1) ->
  ef s1 = ef s /\ EMBEDDING_FUNCTION s1 = EMBEDDING_FUNCTION s /\ config s1 = config s
  /\ (is_Some (sys_modules s !! fallback_embeddings) ->
      is_Some (sys_modules s1 !! fallback_embeddings)).
Proof.
  intros Hp. set (s0 := snd (initialize_log WARNING not_initialized_warning s)) in *.
  pose proof (ef_patch_if_local s0) as He. pose proof (function_patch_if_local s0) as Hf.
  destruct (frame_patch_if_local s0) as (Hc & _).
  pose proof (entry_patch_if_local fallback_embeddings s0) as Hk.
  rewrite Hp in *. cbn [snd] in *. repeat split; try assumption.
  intros [m Hm]. rewrite (Hk m Hm). eauto.
Qed.

End PrimaryFails.

(** X12. [get_ef] raises (the shim, if it ran, returned; the module of the
    hash model is imported): the exception goes to the handler of
    [ensure_embedding_function], not to the hash-model branch.  The call
    returns [True] with the hash model behind the fallback wrapper in
    [EMBEDDING_FUNCTION], and [ef] is left empty, so that the next call
    initialises again. *)
Theorem a_raising_get_ef_is_recovered_by_the_handler {env : Environment}
    (s : Process) (e : exn) :
  let s0 := snd (initialize_log WARNING not_initialized_warning s) in
  let s1 := snd (patch_if_local s0) in
  ef s = None ->
  fst (patch_if_local s0) = Ok tt ->
  fst (get_ef (RAG_EMBEDDING_ENGINE (config s)) (RAG_EMBEDDING_MODEL (config s))
         RAG_EMBEDDING_MODEL_AUTO_UPDATE (sys_modules s1) (world s1)) = Raise e ->
  is_Some (sys_modules s !! fallback_embeddings) ->
  let s' := snd (ensure_embedding_function s) in
  fst (ensure_embedding_function s) = Ok true
  /\ ef s' = None
  /\ EMBEDDING_FUNCTION s' = Some (FallbackWrapper hash_embedder)
  /\ not_initialized s' = true
  /\ calls s' = calls s1 ++ [Called_get_ef (RAG_EMBEDDING_ENGINE (config s))
                               (RAG_EMBEDDING_MODEL (config s))
                               RAG_EMBEDDING_MODEL_AUTO_UPDATE (Raise e);
                             Called_get_fallback_embedding_model].
Proof.
  intros s0 s1 Hef Hpatch Hget Hmod s'. subst s' s1.
  rewrite ensure_unfold by (unfold not_initialized; rewrite Hef; apply orb_true_r).
  fold s0. unfold try_except, try_catch, try_block.
  destruct (patch_if_local s0) as [[[] | e0] s1] eqn:Hp; [| discriminate].
  cbn [snd] in Hget. destruct (after_patch_if_local s s1 Hp) as (He1 & _ & Hc1 & Hm1).
  rewrite (bind_Ok _ _ _ _ _ Hp).
  destruct (initialize_ef_raises s1 e) as (s2 & Hi & He2 & _ & Hm2 & Hk2).
  { rewrite He1. exact Hef. }
  { rewrite Hc1. exact Hget. }
  rewrite (bind_Raise _ _ _ _ _ Hi). cbn match. rewrite except_block_unfold. cbv zeta.
  destruct (minimal_fallback_imported
              (snd (initialize_log ERROR
                      ("Error initializing embedding function: " ++ str_exn e)%string s2)))
    as (s3 & Hmin & He3 & Hf3 & Hk3).
  { cbn. rewrite Hm2. apply Hm1, Hmod. }
  rewrite Hmin. cbn [fst snd]. cbn in He3, Hk3.
  split; [reflexivity |]. split; [congruence |]. split; [exact Hf3 |].
  split; [unfold not_initialized; rewrite He3, He2; apply orb_true_r |].
  rewrite Hk3, Hk2, Hc1, <- app_assoc. reflexivity.
Qed.

(** [get_ef] raises at its first call; the module of the hash model is
    imported already. *)
Lemma a_raising_get_ef_is_recovered_by_the_handler_witness :
  let s := with_fallback_module flaky_fresh in
  fst (@ensure_embedding_function flaky s) = Ok true
  /\ ef (snd (ensure_embedding_function s)) = None.
Proof.
  intros s.
  destruct (@a_raising_get_ef_is_recovered_by_the_handler flaky s
              (PyExc "OSError" "model files not found"))
    as (H1 & H2 & _).
  - reflexivity.
  - vm_compute. reflexivity.
  - vm_compute. reflexivity.
  - vm_compute. eauto.
  - split; [exact H1 | exact H2].
Defined.

(** X13. [get_ef] returns [None] (the shim, if it ran, returned; the module
    of the hash model is imported): the hash model goes in [ef],
    [get_embedding_function] is called for it, and [EMBEDDING_FUNCTION]
    is what that call returned or, if it raised, the direct wrapper over
    the hash model, whatever was in the slot before; the call returns
    [True]. *)
Theorem get_ef_returning_none_puts_the_hash_model_in_the_slot {env : Environment}
    (s : Process) :
  let s0 := snd (initialize_log WARNING not_initialized_warning s) in
  let s1 := snd (patch_if_local s0) in
  ef s = None ->
  fst (patch_if_local s0) = Ok tt ->
  fst (get_ef (RAG_EMBEDDING_ENGINE (config s)) (RAG_EMBEDDING_MODEL (config s))
         RAG_EMBEDDING_MODEL_AUTO_UPDATE (sys_modules s1) (world s1)) = Ok None ->
  is_Some (sys_modules s !! fallback_embeddings) ->
  let s' := snd (ensure_embedding_function s) in
  fst (ensure_embedding_function s) = Ok true
  /\ ef s' = Some (HashFallback hash_embedder)
  /\ exists engine model url key batch_size outcome,
       calls s' = calls s1 ++ [Called_get_ef (RAG_EMBEDDING_ENGINE (config s))
                                 (RAG_EMBEDDING_MODEL (config s))
                                 RAG_EMBEDDING_MODEL_AUTO_UPDATE (Ok None);
                               Called_get_fallback_embedding_model;
                               Called_get_embedding_function engine model
                                 (HashFallback hash_embedder) url key batch_size outcome]
       /\ EMBEDDING_FUNCTION s'
          = Some match outcome with Ok handle => Wired handle | Raise _ => DirectWrapper end.
Proof.
  intros s0 s1 Hef Hpatch Hget Hmod s'. subst s' s1.
  rewrite ensure_unfold by (unfold not_initialized; rewrite Hef; apply orb_true_r).
  fold s0. unfold try_except, try_catch, try_block.
  destruct (patch_if_local s0) as [[[] | e0] s1] eqn:Hp; [| discriminate].
  cbn [snd] in Hget. destruct (after_patch_if_local s s1 Hp) as (He1 & _ & Hc1 & Hm1).
  rewrite (bind_Ok _ _ _ _ _ Hp).
  destruct (initialize_ef_none s1) as (s2 & Hi & He2 & _ & Hm2 & Hk2).
  { rewrite He1. exact Hef. }
  { rewrite Hc1. exact Hget. }
  { apply Hm1, Hmod. }
  rewrite (bind_Ok _ _ _ _ _ Hi).
  destruct (initialize_function_fills s2 _ He2 eq_refl)
    as (s3 & engine & model & url & key & batch_size & outcome & Hfn & He3 & Hk3 & Hf3).
  rewrite (bind_Ok _ _ _ _ _ Hfn).
  rewrite (bind_Ok _ _ _ _ _ (final_fallback_skips s3 _ Hf3)). cbn.
  split; [reflexivity |]. split; [exact He3 |].
  exists engine, model, url, key, batch_size, outcome. split; [| exact Hf3].
  rewrite Hk3, Hk2, Hc1, <- app_assoc. reflexivity.
Qed.

(** [get_ef] finds no model; the library is installed and the module of
    the hash model is imported already. *)
Lemma get_ef_returning_none_puts_the_hash_model_in_the_slot_witness :
  let s := with_fallback_module (fresh no_lzma local_config ["sentence_transformers"]) in
  fst (ensure_embedding_function s) = Ok true
  /\ ef (snd (ensure_embedding_function s)) = Some (HashFallback hash_embedder).
Proof.
  intros s.
  destruct (@get_ef_returning_none_puts_the_hash_model_in_the_slot (scripted no_lzma) s)
    as (H1 & H2 & _).
  - reflexivity.
  - vm_compute. reflexivity.
  - vm_compute. reflexivity.
  - vm_compute. eauto.
  - split; [exact H1 | exact H2].
Defined.

(** ** What the initialisation adds *)

(** X14. [ensure_embedding_function] only adds: whether it returns or
    raises, every record logged before is still in the log, in place, and
    every entry of [sys.modules] is still there with the module it had;
    no module is replaced or removed, the stub under ['_lzma']
    included. *)
Theorem ensure_only_adds {env : Environment} (s : Process) :
  let s' := snd (ensure_embedding_function s) in
  (exists more, logs s' = logs s ++ more)
  /\ (forall k m, sys_modules s !! k = Some m -> sys_modules s' !! k = Some m).
Proof.
  intros s'. subst s'. split.
  - destruct (frame_ensure_embedding_function s) as (_ & Hl & _). exact Hl.
  - intros k m. apply (entry_ensure_embedding_function k s).
Qed.

(** ** The shim and the engine *)

#[global] Instance unpatched_preorder {env : Environment} : PreOrder unpatched.
Proof.
  split.
  - intros s. exists []. rewrite app_nil_r. split; [reflexivity | constructor].
  - intros s1 s2 s3 (c1 & K1 & Q1) (c2 & K2 & Q2).
    exists (c1 ++ c2). rewrite K2, K1, app_assoc. split; [reflexivity |].
    apply Forall_app. split; assumption.
Qed.

Ltac close_unpatched :=
  cbn;
  first [ exists []; rewrite app_nil_r; split; [reflexivity | constructor]
        | eexists; split; [reflexivity | repeat constructor] ].

Section Unpatched.
Context {env : Environment}.

Lemma unpatched_import_fallback_embeddings : preserves unpatched import_fallback_embeddings.
Proof.
  unfold import_fallback_embeddings, fallback_embeddings_body. preserve close_unpatched.
Qed.

(** For an engine that is not the local one, lines 18-20 do nothing. *)
Lemma patch_if_local_skips (s : Process) :
  RAG_EMBEDDING_ENGINE (config s) <> "" -> patch_if_local s = (Ok tt, s).
Proof.
  intros H. apply String.eqb_neq in H. unfold patch_if_local, bind, gets. rewrite H.
  reflexivity.
Qed.

End Unpatched.

#[global] Hint Resolve unpatched_import_fallback_embeddings : frames.

(** X15. The shim is for the local engine only: with any other engine
    configured, [ensure_embedding_function] never calls
    [patch_sentence_transformers], on no path, so the library is not looked
    up and no install is tried on its behalf. *)
Theorem other_engines_never_apply_the_shim {env : Environment} (s : Process) :
  RAG_EMBEDDING_ENGINE (config s) <> "" ->
  exists made,
    calls (snd (ensure_embedding_function s)) = calls s ++ made
    /\ Forall (fun c => c <> Called_patch_sentence_transformers) made.
Proof.
  intros Hengine.
  assert (H : unpatched s (snd (ensure_embedding_function s))).
  { unfold ensure_embedding_function, bind at 1, gets.
    destruct (not_initialized s); [| reflexivity].
    unfold bind at 1. cbn [initialize_log log_to modify].
    match goal with
    | |- unpatched _ (snd (try_except try_block except_block ?s0)) =>
        transitivity s0; [close_unpatched |];
        unfold try_except, try_catch, try_block;
        rewrite (bind_Ok _ _ _ _ _ (patch_if_local_skips s0 Hengine))
    end.
    match goal with
    | |- unpatched ?s0 (snd (match ?T ?s0 with _ => _ end)) =>
        assert (Ht : preserves unpatched T)
          by (unfold initialize_ef, initialize_function, final_fallback;
              preserve close_unpatched);
        specialize (Ht s0); destruct (T s0) as [[b | e] s1]; cbn [snd] in *;
        [exact Ht | etransitivity; [exact Ht |]]
    end.
    assert (He : preserves unpatched (except_block e))
      by (unfold except_block, minimal_fallback; preserve close_unpatched).
    apply He. }
  destruct H as (made & K & Q). exists made. split; [exact K |].
  eapply Forall_impl; [exact Q |]. intros c Hc ->. discriminate Hc.
Qed.

(** A remote engine, for which [get_ef] builds no model. *)
Lemma other_engines_never_apply_the_shim_witness :
  let s := fresh no_lzma openai_config ["numpy"; "requests"] in
  exists made,
    calls (snd (ensure_embedding_function s)) = made
    /\ Forall (fun c => c <> Called_patch_sentence_transformers) made.
Proof.
  intros s.
  destruct (@other_engines_never_apply_the_shim (scripted no_lzma) s) as (made & K & Q).
  - discriminate.
  - exists made. split; [exact K | exact Q].
Defined.
